(** * BemiDB: the S3 storage backend and the table remapper

    A shallow embedding of [storage_s3.go] (type [StorageS3]) and of the
    select remapper for tables (type [SelectRemapperTable]), with the
    properties of the catalog rewriting and of the Iceberg commit steps
    stated over it.

    Go strings are [string], [int64] values are [Z] (no arithmetic is done
    on them here, so no wrap-around occurs), slices are lists.  A Go
    function returning [(v, err)] is a computation in the monad [M]: it
    reads an environment (everything outside the process: which backend
    calls fail, what the backend puts in its answers, what the codecs
    produce), threads a [World] (bucket, local scratch files, log of the
    calls issued) and ends in [Ok v], in [Err e] for a returned error, or
    in [Panic e]. *)

From Stdlib Require Import String Ascii List ZArith Lia Bool Arith DecimalString.
Import ListNotations.
Open Scope string_scope.

Set Implicit Arguments.

(** ** Strings *)

Module GoString.

(** [strings.Split(s, sep)] for a separator of one character: the
    pieces between the occurrences of [sep]; n separators give n+1
    pieces. *)
Fixpoint Split (s : string) (sep : ascii) : list string :=
  match s with
  | EmptyString => [EmptyString]
  | String c rest =>
      if Ascii.eqb c sep then EmptyString :: Split rest sep
      else match Split rest sep with
           | [] => [String c EmptyString]
           | p :: ps => String c p :: ps
           end
  end.

(** [strings.HasPrefix(s, p)] *)
Definition HasPrefix (s p : string) : bool := String.prefix p s.

(** What is left of [s] after its first [n] characters. *)
Definition drop (n : nat) (s : string) : string :=
  String.substring n (String.length s - n) s.

(** [%d] of [fmt.Sprintf] on an [int64]. *)
Definition FormatInt (z : Z) : string := NilEmpty.string_of_int (Z.to_int z).

End GoString.

(** ** Data model

    The types are declared in other files of the package; the records
    below have the fields that the two files read or set. *)

Record AwsConfig := {
  Region : string;
  S3Bucket : string;
  AccessKeyId : string;
  SecretAccessKey : string
}.

Record Config := {
  Aws : AwsConfig;
  IcebergPath : string;
  User : string;
  EncryptedPassword : string;
  Database : string
}.

(** [SchemaTable] in the storage file, [IcebergSchemaTable] in the
    remapper: one pair (schema, table), compared with [==]. *)
Record SchemaTable := { Schema : string; Table : string }.
Definition IcebergSchemaTable : Type := SchemaTable.

Definition SchemaTable_eqb (a b : SchemaTable) : bool :=
  String.eqb (Schema a) (Schema b) && String.eqb (Table a) (Table b).

Record PgSchemaColumn := { ColumnName : string; DataType : string }.

(** Statistics read back from a written data file. *)
Record ParquetFileStats := {
  ColumnSizes : list Z;
  ValueCounts : list Z;
  NullValueCounts : list Z;
  LowerBounds : list string;
  UpperBounds : list string
}.

Module ParquetFile.
Record t := mk {
  Uuid : string;
  Path : string;
  Size : Z;
  RecordCount : Z;
  Stats : ParquetFileStats
}.
End ParquetFile.

Module ManifestFile.
Record t := mk { SnapshotId : Z; Path : string }.
End ManifestFile.

Module ManifestListFile.
Record t := mk { Path : string }.
End ManifestListFile.

Module MetadataFile.
Record t := mk { Version : Z; Path : string }.
End MetadataFile.

(** ** Calls that leave the process

    Every call of the S3 client, every operation on a local scratch file
    and every draw of a random identifier is logged, whether it succeeds
    or not.  An event is one call of a method of the client (or of the S3
    file source built on it), not one request on the wire: [NewS3Storage]
    builds the client from the region and the static credentials of the
    configuration and sets no retryer, so the client keeps the retry
    policy of the SDK and one call may send several requests before it
    returns.  What is observed here is what the code of the storage does
    with the result of a call. *)

Inductive Event :=
| EvListObjectsV2 (prefix : string) (delimiter : option string)
| EvDeleteObjects (keys : list string)
| EvUpload (key : string) (body : string)
| EvHeadObject (key : string)
| EvOpenWriter (key : string)
| EvWriterWrite (key : string) (bytes : string)
| EvOpenReader (key : string)
| EvCreateTemp (name : string)
| EvWriteLocal (name : string) (bytes : string)
| EvDeleteTemp (name : string)
| EvNewUuid
| EvNewSnapshotId.

Inductive Res (A : Type) :=
| Ok (a : A)
| Err (e : string)
| Panic (e : string).
Arguments Err {A} e.
Arguments Panic {A} e.

(** The encoders and decoders of the file formats (Parquet, Avro, JSON):
    external collaborators, each may fail. *)
Record FormatCodec := {
  encode_parquet : list PgSchemaColumn -> list (list string) -> Res string;
  decode_parquet_stats : string -> Res ParquetFileStats;
  encode_manifest : string -> ParquetFile.t -> Z -> Res string;
  encode_manifest_list : string -> ParquetFile.t -> ManifestFile.t -> Res string;
  encode_metadata :
    string -> list PgSchemaColumn -> ParquetFile.t -> ManifestFile.t ->
    ManifestListFile.t -> Res string;
  encode_version_hint : MetadataFile.t -> Res string
}.

(** The environment: given the calls issued so far (most recent first),
    whether the next call fails (the error that the call returns once the
    client gives up) and with which message; what the backend puts in its
    answers: for a batch delete that is answered, the keys it did not
    delete with the error code of each, and for the metadata of an
    object, the size it reports for the object stored under a key; and
    the random identifiers drawn. *)
Record Env := {
  fault : list Event -> Event -> option string;
  delete_error : string -> option string;
  content_length : string -> string -> Z;
  uuid_source : list Event -> string;
  snapshot_id_source : list Event -> Z;
  codec : FormatCodec
}.

Record World := {
  bucket : list (string * string);  (* objects of the bucket, in listing order *)
  local : list (string * string);   (* local files: name and content *)
  next_tmp : nat;                   (* counter of temporary file names *)
  trace : list Event                (* calls issued, most recent first *)
}.

Definition M (A : Type) : Type := Env -> World -> Res A * World.

Definition ret {A} (a : A) : M A := fun _ w => (Ok a, w).

Definition bind {A B} (m : M A) (k : A -> M B) : M B :=
  fun env w =>
    match m env w with
    | (Ok a, w1) => k a env w1
    | (Err e, w1) => (Err e, w1)
    | (Panic e, w1) => (Panic e, w1)
    end.

Declare Scope go_scope.
Delimit Scope go_scope with go.
Notation "x <- m ;; k" := (bind m (fun x => k))
  (at level 61, m at next level, right associativity) : go_scope.
Notation "m ;;; k" := (bind m (fun _ => k))
  (at level 61, right associativity) : go_scope.
Open Scope go_scope.

(** [return ..., err] *)
Definition fail {A} (e : string) : M A := fun _ w => (Err e, w).

(** [panic(err)] *)
Definition panic {A} (e : string) : M A := fun _ w => (Panic e, w).

(** [v, err := m; if err != nil { return ..., fmt.Errorf(msg + "%v", err) }] *)
Definition wrap {A} (msg : string) (m : M A) : M A :=
  fun env w =>
    match m env w with
    | (Err e, w1) => (Err (msg ++ e), w1)
    | r => r
    end.

(** [defer cleanup] registered just before [body]: [cleanup] runs when
    [body] is left, by a return or by a panic; the result is the one of
    [body]. *)
Definition defer {A} (cleanup : M unit) (body : M A) : M A :=
  fun env w =>
    let (r, w1) := body env w in
    let (_, w2) := cleanup env w1 in
    (r, w2).

(** Modelled from the spec: [PanicIfError] is declared in another file of
    the package; where the constructor of the remapper calls it the spec
    has a failure of the backend abort the start-up as a fatal error: it
    panics with [err] when [err] is not nil. *)
Definition PanicIfError {A} (m : M A) : M A :=
  fun env w =>
    match m env w with
    | (Err e, w1) => (Panic e, w1)
    | r => r
    end.

Definition log (e : Event) : M unit :=
  fun _ w =>
    (Ok tt, {| bucket := bucket w; local := local w;
               next_tmp := next_tmp w; trace := e :: trace w |}).

(** Issue the call [e]: log it and let the environment decide whether it
    returns an error. *)
Definition call (e : Event) : M unit :=
  fun env w =>
    let w1 := {| bucket := bucket w; local := local w;
                 next_tmp := next_tmp w; trace := e :: trace w |} in
    match fault env (trace w) e with
    | Some msg => (Err msg, w1)
    | None => (Ok tt, w1)
    end.

Definition get_bucket : M (list (string * string)) := fun _ w => (Ok (bucket w), w).
Definition set_bucket (b : list (string * string)) : M unit :=
  fun _ w =>
    (Ok tt, {| bucket := b; local := local w;
               next_tmp := next_tmp w; trace := trace w |}).
Definition get_local : M (list (string * string)) := fun _ w => (Ok (local w), w).
Definition set_local (l : list (string * string)) : M unit :=
  fun _ w =>
    (Ok tt, {| bucket := bucket w; local := l;
               next_tmp := next_tmp w; trace := trace w |}).

(** ** The object store (S3) *)

Module S3.

Fixpoint lookup (k : string) (b : list (string * string)) : option string :=
  match b with
  | [] => None
  | (k', v) :: t => if String.eqb k k' then Some v else lookup k t
  end.

(** Storing an object replaces the one under the same key, or puts the
    new key at its place in the order of the listing. *)
Fixpoint put (k v : string) (b : list (string * string)) : list (string * string) :=
  match b with
  | [] => [(k, v)]
  | (k', v') :: t =>
      if String.eqb k k' then (k, v) :: t
      else if String.ltb k k' then (k, v) :: b
      else (k', v') :: put k v t
  end.

Definition remove (keys : list string) (b : list (string * string)) :
  list (string * string) :=
  filter (fun kv => negb (existsb (String.eqb (fst kv)) keys)) b.

(** Keys of the bucket that start with [prefix]. *)
Definition keys_under (prefix : string) (b : list (string * string)) : list string :=
  filter (fun k => GoString.HasPrefix k prefix) (map fst b).

(** One request returns at most this many entries; no call of the
    storage file sets [MaxKeys]. *)
Definition MaxKeys : nat := 1000.
Arguments MaxKeys : simpl never.

Inductive Entry :=
| Content (key : string)
| CommonPrefix (p : string).

Definition Entry_eqb (a b : Entry) : bool :=
  match a, b with
  | Content x, Content y => String.eqb x y
  | CommonPrefix x, CommonPrefix y => String.eqb x y
  | _, _ => false
  end.

(** With a delimiter, a key that contains the delimiter after the prefix
    is rolled up into the common prefix that ends at the delimiter. *)
Definition entry_of (prefix : string) (delimiter : option string) (key : string) : Entry :=
  match delimiter with
  | None => Content key
  | Some d =>
      let rest := GoString.drop (String.length prefix) key in
      match String.index 0 d rest with
      | Some i => CommonPrefix (prefix ++ String.substring 0 (i + String.length d) rest)
      | None => Content key
      end
  end.

Fixpoint dedup (seen : list Entry) (l : list Entry) : list Entry :=
  match l with
  | [] => []
  | e :: t =>
      if existsb (Entry_eqb e) seen then dedup seen t
      else e :: dedup (e :: seen) t
  end.

Definition entries (prefix : string) (delimiter : option string)
           (b : list (string * string)) : list Entry :=
  dedup [] (map (entry_of prefix delimiter) (keys_under prefix b)).

Record ListObjectsV2Output := {
  Contents : list string;
  CommonPrefixes : list string;
  IsTruncated : bool
}.

Definition contents_of (l : list Entry) : list string :=
  flat_map (fun e => match e with Content k => [k] | CommonPrefix _ => [] end) l.

Definition common_prefixes_of (l : list Entry) : list string :=
  flat_map (fun e => match e with Content _ => [] | CommonPrefix p => [p] end) l.

(** [s3Client.ListObjectsV2]: the first page of the listing. *)
Definition ListObjectsV2 (prefix : string) (delimiter : option string) :
  M ListObjectsV2Output :=
  call (EvListObjectsV2 prefix delimiter) ;;;
  b <- get_bucket ;;
  let all := entries prefix delimiter b in
  let page := firstn MaxKeys all in
  ret {| Contents := contents_of page;
         CommonPrefixes := common_prefixes_of page;
         IsTruncated := Nat.ltb MaxKeys (List.length all) |}.

Record DeleteObjectsOutput := {
  Deleted : list string;
  Errors : list (string * string)
}.

(** The keys of a batch delete that the backend deletes, and those it
    reports in [Errors], with their error code. *)
Definition deleted_keys (refused : string -> option string) (keys : list string) :
  list string :=
  filter (fun k => match refused k with Some _ => false | None => true end) keys.

Definition delete_errors (refused : string -> option string) (keys : list string) :
  list (string * string) :=
  flat_map (fun k => match refused k with Some code => [(k, code)] | None => [] end) keys.

(** [s3Client.DeleteObjects]: a request that is answered returns no
    error, also when the backend did not delete every key: the keys left
    are in [Errors] of the output.  In quiet mode the output does not
    list the keys deleted. *)
Definition DeleteObjects (keys : list string) (quiet : bool) : M DeleteObjectsOutput :=
  call (EvDeleteObjects keys) ;;;
  fun env w =>
    let gone := deleted_keys (delete_error env) keys in
    (Ok {| Deleted := if quiet then [] else gone;
           Errors := delete_errors (delete_error env) keys |},
     {| bucket := remove gone (bucket w); local := local w;
        next_tmp := next_tmp w; trace := trace w |}).

Record HeadObjectOutput := { ContentLength : Z }.

(** [s3Client.HeadObject]: the answer of the backend for the object
    stored under [key]; its [ContentLength] is the size that the backend
    reports for the object. *)
Definition HeadObject (key : string) : M HeadObjectOutput :=
  call (EvHeadObject key) ;;;
  fun env w =>
    match lookup key (bucket w) with
    | Some body => (Ok {| ContentLength := content_length env key body |}, w)
    | None => (Err "NotFound", w)
    end.

(** [manager.NewUploader(client).Upload] with a local file as body: the
    object appears under [key] with the whole content of the file. *)
Definition Upload (key : string) (fileName : string) : M unit :=
  l <- get_local ;;
  let body := match lookup fileName l with Some c => c | None => "" end in
  call (EvUpload key body) ;;;
  b <- get_bucket ;;
  set_bucket (put key body b).

End S3.

(** ** Local scratch files and the writers of the file formats

    [CreateTemporaryFile], [DeleteTemporaryFile] and the methods of
    [StorageBase] are declared in other files of the package. *)

Record File := { Name : string }.

Definition temp_name (pattern : string) (n : nat) : string :=
  "/tmp/" ++ pattern ++ GoString.FormatInt (Z.of_nat n).

(** Modelled from the spec: [CreateTemporaryFile] creates a new, empty
    local scratch file, or fails. *)
Definition CreateTemporaryFile (pattern : string) : M File :=
  fun env w =>
    let name := temp_name pattern (next_tmp w) in
    match call (EvCreateTemp name) env w with
    | (Ok _, w1) =>
        (Ok {| Name := name |},
         {| bucket := bucket w1; local := S3.put name "" (local w1);
            next_tmp := S (next_tmp w1); trace := trace w1 |})
    | (Err e, w1) => (Err e, w1)
    | (Panic e, w1) => (Panic e, w1)
    end.

(** Modelled from the spec: [DeleteTemporaryFile] removes the local
    scratch file; it returns nothing. *)
Definition DeleteTemporaryFile (file : File) : M unit :=
  log (EvDeleteTemp (Name file)) ;;;
  l <- get_local ;;
  set_local (S3.remove [Name file] l).

Definition write_local (name bytes : string) : M unit :=
  call (EvWriteLocal name bytes) ;;;
  l <- get_local ;;
  set_local (S3.put name bytes l).

Definition encode {A} (f : FormatCodec -> Res A) : M A :=
  fun env w => (f (codec env), w).

(** [uuid.New().String()] *)
Definition NewUuid : M string :=
  fun env w => (Ok (uuid_source env (trace w)),
                {| bucket := bucket w; local := local w;
                   next_tmp := next_tmp w; trace := EvNewUuid :: trace w |}).

Definition NewSnapshotId : M Z :=
  fun env w => (Ok (snapshot_id_source env (trace w)),
                {| bucket := bucket w; local := local w;
                   next_tmp := next_tmp w; trace := EvNewSnapshotId :: trace w |}).

(** A file of the bucket opened for writing or for reading
    ([s3v2.NewS3FileWriterWithClient], [s3v2.NewS3FileReaderWithClient]):
    the writer sends what is written to it to the object store under its
    key. *)
Record S3File := { FileKey : string }.

Definition NewS3FileWriterWithClient (key : string) : M S3File :=
  call (EvOpenWriter key) ;;; ret {| FileKey := key |}.

Definition NewS3FileReaderWithClient (key : string) : M S3File :=
  call (EvOpenReader key) ;;; ret {| FileKey := key |}.

Module StorageBase.

(** Modelled from the spec: [WriteParquetFile] obtains all the rows from
    the row-producing function, encodes them with the columnar codec and
    writes them through the given writer; it returns the number of
    rows. *)
Definition WriteParquetFile (fileWriter : S3File) (pgSchemaColumns : list PgSchemaColumn)
           (loadRows : unit -> list (list string)) : M Z :=
  let rows := loadRows tt in
  bytes <- encode (fun c => encode_parquet c pgSchemaColumns rows) ;;
  call (EvWriterWrite (FileKey fileWriter) bytes) ;;;
  b <- get_bucket ;;
  set_bucket (S3.put (FileKey fileWriter) bytes b) ;;;
  ret (Z.of_nat (List.length rows)).

(** Modelled from the spec: [ReadParquetStats] decodes the statistics of
    a written data file. *)
Definition ReadParquetStats (fileReader : S3File) : M ParquetFileStats :=
  b <- get_bucket ;;
  match S3.lookup (FileKey fileReader) b with
  | Some bytes => encode (fun c => decode_parquet_stats c bytes)
  | None => fail "NoSuchKey"
  end.

(** Modelled from the spec: [WriteManifestFile] builds the manifest in
    the local file [filePath], referencing the data file and a newly
    generated snapshot identifier. *)
Definition WriteManifestFile (fileSystemPrefix filePath : string)
           (parquetFile : ParquetFile.t) : M ManifestFile.t :=
  snapshotId <- NewSnapshotId ;;
  bytes <- encode (fun c => encode_manifest c fileSystemPrefix parquetFile snapshotId) ;;
  write_local filePath bytes ;;;
  ret (ManifestFile.mk snapshotId filePath).

(** Modelled from the spec: [WriteManifestListFile] builds the manifest
    list in the local file [filePath]. *)
Definition WriteManifestListFile (fileSystemPrefix filePath : string)
           (parquetFile : ParquetFile.t) (manifestFile : ManifestFile.t) : M unit :=
  bytes <- encode (fun c => encode_manifest_list c fileSystemPrefix parquetFile manifestFile) ;;
  write_local filePath bytes.

(** Modelled from the spec: [WriteMetadataFile] builds the metadata root
    in the local file [filePath]. *)
Definition WriteMetadataFile (fileSystemPrefix filePath : string)
           (pgSchemaColumns : list PgSchemaColumn) (parquetFile : ParquetFile.t)
           (manifestFile : ManifestFile.t) (manifestListFile : ManifestListFile.t) : M unit :=
  bytes <- encode (fun c => encode_metadata c fileSystemPrefix pgSchemaColumns
                              parquetFile manifestFile manifestListFile) ;;
  write_local filePath bytes.

(** Modelled from the spec: [WriteVersionHintFile] builds the version
    pointer in the local file [filePath]. *)
Definition WriteVersionHintFile (filePath : string) (metadataFile : MetadataFile.t) : M unit :=
  bytes <- encode (fun c => encode_version_hint c metadataFile) ;;
  write_local filePath bytes.

End StorageBase.

(** The loop [for _, x := range xs { ... }] over an accumulator, left as
    soon as the body returns an error. *)
Fixpoint for_range {A S} (xs : list A) (acc : S) (body : S -> A -> M S) : M S :=
  match xs with
  | [] => ret acc
  | x :: rest => acc' <- body acc x ;; for_range rest acc' body
  end.

(** [parts[len(parts)-2]]; Go panics when the index is out of range. *)
Definition last_but_one (parts : list string) : M string :=
  if Nat.ltb (List.length parts) 2 then panic "index out of range"
  else ret (nth (List.length parts - 2) parts "").

(** ** [StorageS3] *)

Module StorageS3.
Section Methods.

(** The receiver: [storage.config]; [storage.s3Client] is the bucket
    [config.Aws.S3Bucket] of the world. *)
Variable config : Config.

(** The constant [VERSION_HINT_FILE_NAME], declared in another file. *)
Variable VERSION_HINT_FILE_NAME : string.

Definition tablePrefix (schemaTable : SchemaTable) : string :=
  IcebergPath config ++ "/" ++ Schema schemaTable ++ "/" ++ Table schemaTable ++ "/".

Definition fileSystemPrefix : string :=
  "s3://" ++ S3Bucket (Aws config) ++ "/".

Definition nestedDirectoryPrefixes (prefix : string) : M (list string) :=
  listResponse <- wrap "Failed to list objects: " (S3.ListObjectsV2 prefix (Some "/")) ;;
  ret (S3.CommonPrefixes listResponse).

(* Read *)

Definition IcebergMetadataFilePath (schemaTable : SchemaTable) : string :=
  fileSystemPrefix ++ tablePrefix schemaTable ++ "metadata/v1.metadata.json".

Definition IcebergSchemaTables : M (list SchemaTable) :=
  let schemasPrefix := IcebergPath config ++ "/" in
  schemaPrefixes <- nestedDirectoryPrefixes schemasPrefix ;;
  for_range schemaPrefixes []
    (fun schemaTables schemaPrefix =>
       let schemaParts := GoString.Split schemaPrefix "/" in
       schema <- last_but_one schemaParts ;;
       tables <- nestedDirectoryPrefixes schemaPrefix ;;
       for_range tables schemaTables
         (fun schemaTables tablePrefix =>
            let tableParts := GoString.Split tablePrefix "/" in
            table <- last_but_one tableParts ;;
            ret (schemaTables ++ [{| Schema := schema; Table := table |}])%list)).

(* Write *)

Definition DeleteSchemaTable (schemaTable : SchemaTable) : M unit :=
  let tablePrefix := tablePrefix schemaTable in
  listResponse <- wrap "Failed to list objects: " (S3.ListObjectsV2 tablePrefix None) ;;
  let objectsToDelete := S3.Contents listResponse in
  if Nat.ltb 0 (List.length objectsToDelete) then
    wrap "Failed to delete objects: " (S3.DeleteObjects objectsToDelete true) ;;;
    ret tt
  else
    ret tt.

Definition CreateDataDir (schemaTable : SchemaTable) : string :=
  tablePrefix schemaTable ++ "data".

Definition CreateMetadataDir (schemaTable : SchemaTable) : string :=
  tablePrefix schemaTable ++ "metadata".

Definition uploadFile (filePath : string) (file : File) : M unit :=
  wrap "Failed to upload file: " (S3.Upload filePath (Name file)).

Definition CreateParquet (dataDirPath : string) (pgSchemaColumns : list PgSchemaColumn)
           (loadRows : unit -> list (list string)) : M ParquetFile.t :=
  uuid <- NewUuid ;;
  let fileName := "00000-0-" ++ uuid ++ ".parquet" in
  let fileKey := dataDirPath ++ "/" ++ fileName in
  fileWriter <- wrap "Failed to open Parquet file for writing: "
                     (NewS3FileWriterWithClient fileKey) ;;
  recordCount <- StorageBase.WriteParquetFile fileWriter pgSchemaColumns loadRows ;;
  headObjectResponse <- wrap "Failed to get Parquet file info: " (S3.HeadObject fileKey) ;;
  let fileSize := S3.ContentLength headObjectResponse in
  fileReader <- wrap "Failed to open Parquet file for reading: "
                     (NewS3FileReaderWithClient fileKey) ;;
  parquetStats <- StorageBase.ReadParquetStats fileReader ;;
  ret (ParquetFile.mk uuid fileKey fileSize recordCount parquetStats).

Definition CreateManifest (metadataDirPath : string) (parquetFile : ParquetFile.t) :
  M ManifestFile.t :=
  let fileName := ParquetFile.Uuid parquetFile ++ "-m0.avro" in
  let filePath := metadataDirPath ++ "/" ++ fileName in
  tempFile <- CreateTemporaryFile "manifest" ;;
  defer (DeleteTemporaryFile tempFile)
    (manifestFile <- StorageBase.WriteManifestFile fileSystemPrefix (Name tempFile) parquetFile ;;
     uploadFile filePath tempFile ;;;
     ret (ManifestFile.mk (ManifestFile.SnapshotId manifestFile) filePath)).

Definition CreateManifestList (metadataDirPath : string) (parquetFile : ParquetFile.t)
           (manifestFile : ManifestFile.t) : M ManifestListFile.t :=
  let fileName := "snap-" ++ GoString.FormatInt (ManifestFile.SnapshotId manifestFile)
                  ++ "-0-" ++ ParquetFile.Uuid parquetFile ++ ".avro" in
  let filePath := metadataDirPath ++ "/" ++ fileName in
  tempFile <- CreateTemporaryFile "manifest" ;;
  defer (DeleteTemporaryFile tempFile)
    (StorageBase.WriteManifestListFile fileSystemPrefix (Name tempFile)
       parquetFile manifestFile ;;;
     uploadFile filePath tempFile ;;;
     ret (ManifestListFile.mk filePath)).

Definition CreateMetadata (metadataDirPath : string) (pgSchemaColumns : list PgSchemaColumn)
           (parquetFile : ParquetFile.t) (manifestFile : ManifestFile.t)
           (manifestListFile : ManifestListFile.t) : M MetadataFile.t :=
  let version := 1%Z in
  let fileName := "v" ++ GoString.FormatInt version ++ ".metadata.json" in
  let filePath := metadataDirPath ++ "/" ++ fileName in
  tempFile <- CreateTemporaryFile "manifest" ;;
  defer (DeleteTemporaryFile tempFile)
    (StorageBase.WriteMetadataFile fileSystemPrefix (Name tempFile) pgSchemaColumns
       parquetFile manifestFile manifestListFile ;;;
     uploadFile filePath tempFile ;;;
     ret (MetadataFile.mk version filePath)).

Definition CreateVersionHint (metadataDirPath : string) (metadataFile : MetadataFile.t) :
  M unit :=
  let filePath := metadataDirPath ++ "/" ++ VERSION_HINT_FILE_NAME in
  tempFile <- CreateTemporaryFile "manifest" ;;
  defer (DeleteTemporaryFile tempFile)
    (StorageBase.WriteVersionHintFile (Name tempFile) metadataFile ;;;
     uploadFile filePath tempFile ;;;
     ret tt).

End Methods.
End StorageS3.

(** ** The table remapper

    The query parser ([QueryParserTable]), the reader of the Iceberg
    catalog ([IcebergReader]) and the syntax tree of the query
    ([pgQuery.Node]) are declared outside the remapper: they are taken as
    interfaces here. *)

Definition PG_SCHEMA_PUBLIC : string := "public".

Module QuerySchemaTable.
Record t := mk { Schema : string; Table : string; Alias : string }.

Definition ToIcebergSchemaTable (qSchemaTable : t) : IcebergSchemaTable :=
  Build_SchemaTable (Schema qSchemaTable) (Table qSchemaTable).
End QuerySchemaTable.

Record QueryParserTable (Node : Type) := {
  NodeToQuerySchemaTable : Node -> QuerySchemaTable.t;
  IsPgStatioUserTablesTable : QuerySchemaTable.t -> bool;
  MakePgStatioUserTablesNode : string -> Node;
  IsPgShadowTable : QuerySchemaTable.t -> bool;
  MakePgShadowNode : string -> string -> string -> Node;
  IsPgRolesTable : QuerySchemaTable.t -> bool;
  MakePgRolesNode : string -> string -> Node;
  IsPgShdescriptionTable : QuerySchemaTable.t -> bool;
  MakePgShdescriptionNode : string -> Node;
  IsTableFromPgCatalog : QuerySchemaTable.t -> bool;
  IsInformationSchemaTablesTable : QuerySchemaTable.t -> bool;
  MakeInformationSchemaTablesNode : string -> list IcebergSchemaTable -> string -> Node;
  IsTableFromInformationSchema : QuerySchemaTable.t -> bool;
  MakeIcebergTableNode : string -> Node
}.

Record IcebergReader := {
  SchemaTables : M (list IcebergSchemaTable);
  MetadataFilePath : IcebergSchemaTable -> string
}.

Record SelectRemapperTable (Node : Type) := {
  parserTable : QueryParserTable Node;
  icebergSchemaTables : list IcebergSchemaTable;
  icebergReader : IcebergReader;
  config : Config
}.

Section Remapper.

Context {Node : Type}.

Definition with_icebergSchemaTables (remapper : SelectRemapperTable Node)
           (tables : list IcebergSchemaTable) : SelectRemapperTable Node :=
  {| parserTable := parserTable remapper;
     icebergSchemaTables := tables;
     icebergReader := icebergReader remapper;
     config := config remapper |}.

Definition NewSelectRemapperTable (parser : QueryParserTable Node) (config : Config)
           (icebergReader : IcebergReader) : M (SelectRemapperTable Node) :=
  icebergSchemaTables <- PanicIfError (SchemaTables icebergReader) ;;
  ret {| parserTable := parser;
         icebergSchemaTables := icebergSchemaTables;
         icebergReader := icebergReader;
         config := config |}.

Definition overrideTable (node fromClause : Node) : Node := fromClause.

(** The method assigns the field of the receiver: the remapper after the
    call is returned. *)
Definition reloadIceberSchemaTables (remapper : SelectRemapperTable Node) :
  M (SelectRemapperTable Node) :=
  icebergSchemaTables <- PanicIfError (SchemaTables (icebergReader remapper)) ;;
  ret (with_icebergSchemaTables remapper icebergSchemaTables).

Definition icebergSchemaTableExists (remapper : SelectRemapperTable Node)
           (schemaTable : IcebergSchemaTable) : bool :=
  existsb (fun icebergSchemaTable => SchemaTable_eqb icebergSchemaTable schemaTable)
          (icebergSchemaTables remapper).

(** FROM / JOIN [TABLE] *)
Definition RemapTable (remapper : SelectRemapperTable Node) (node : Node) :
  M (Node * SelectRemapperTable Node) :=
  let parser := parserTable remapper in
  let qSchemaTable := NodeToQuerySchemaTable parser node in
  if IsPgStatioUserTablesTable parser qSchemaTable then
    let tableNode := MakePgStatioUserTablesNode parser (QuerySchemaTable.Alias qSchemaTable) in
    ret (overrideTable node tableNode, remapper)
  else if IsPgShadowTable parser qSchemaTable then
    let tableNode := MakePgShadowNode parser (User (config remapper))
                       (EncryptedPassword (config remapper))
                       (QuerySchemaTable.Alias qSchemaTable) in
    ret (overrideTable node tableNode, remapper)
  else if IsPgRolesTable parser qSchemaTable then
    let tableNode := MakePgRolesNode parser (User (config remapper))
                       (QuerySchemaTable.Alias qSchemaTable) in
    ret (overrideTable node tableNode, remapper)
  else if IsPgShdescriptionTable parser qSchemaTable then
    let tableNode := MakePgShdescriptionNode parser (QuerySchemaTable.Alias qSchemaTable) in
    ret (overrideTable node tableNode, remapper)
  else if IsTableFromPgCatalog parser qSchemaTable then
    ret (node, remapper)
  else if IsInformationSchemaTablesTable parser qSchemaTable then
    remapper <- reloadIceberSchemaTables remapper ;;
    if Nat.eqb (List.length (icebergSchemaTables remapper)) 0 then
      ret (node, remapper)
    else
      let tableNode := MakeInformationSchemaTablesNode parser (Database (config remapper))
                         (icebergSchemaTables remapper)
                         (QuerySchemaTable.Alias qSchemaTable) in
      ret (overrideTable node tableNode, remapper)
  else if IsTableFromInformationSchema parser qSchemaTable then
    ret (node, remapper)
  else
    let qSchemaTable :=
      if String.eqb (QuerySchemaTable.Schema qSchemaTable) "" then
        QuerySchemaTable.mk PG_SCHEMA_PUBLIC (QuerySchemaTable.Table qSchemaTable)
                            (QuerySchemaTable.Alias qSchemaTable)
      else qSchemaTable in
    let schemaTable := QuerySchemaTable.ToIcebergSchemaTable qSchemaTable in
    let scan (remapper : SelectRemapperTable Node) :=
      let icebergPath := MetadataFilePath (icebergReader remapper) schemaTable in
      let tableNode := MakeIcebergTableNode parser icebergPath in
      ret (overrideTable node tableNode, remapper) in
    if negb (icebergSchemaTableExists remapper schemaTable) then
      remapper <- reloadIceberSchemaTables remapper ;;
      if negb (icebergSchemaTableExists remapper schemaTable) then
        ret (node, remapper)
      else scan remapper
    else scan remapper.

End Remapper.

(** ** The reader and the parser behind the remapper *)

(** Modelled from the spec: [IcebergReader] is the catalog cache's view of
    the storage backend: its enumeration of the tables is the listing of
    the backend's two-level directory structure, and the metadata path of
    a table is the one of the backend's path layout. *)
Definition S3IcebergReader (config : Config) : IcebergReader :=
  {| SchemaTables := StorageS3.IcebergSchemaTables config;
     MetadataFilePath := StorageS3.IcebergMetadataFilePath config |}.

(** A reference node of the query: a table named by schema, name and
    alias, a literal row set, or a scan of an Iceberg metadata file. *)
Inductive Node :=
| RangeVar (schemaname relname alias : string)
| Values (columns : list string) (rows : list (list string)) (alias : string)
| IcebergScan (path : string) (skip_schema_inference : bool).

Definition PG_SCHEMA_PG_CATALOG : string := "pg_catalog".
Definition PG_SCHEMA_INFORMATION_SCHEMA : string := "information_schema".

(** The columns of the views whose content the spec leaves open. *)
Record CatalogShapes := {
  statio_columns : list string;
  shdescription_columns : list string;
  role_attributes : list (string * string)
}.

Definition is_table (schema table : string) (q : QuerySchemaTable.t) : bool :=
  String.eqb (QuerySchemaTable.Schema q) schema && String.eqb (QuerySchemaTable.Table q) table.

(** Modelled from the spec: [QueryParserTable] classifies a reference by
    its schema-qualified identity and builds the literal row sets: no row
    for the I/O-statistics and shared-description views; one row (user
    name, encrypted password) for the credentials view; one row with the
    user name and fixed role attributes for the roles view; one row
    (table_catalog, table_schema, table_name) per table for the
    information-schema "tables" view; a scan of the metadata file that
    skips schema inference for a lakehouse table; each under the alias of
    the reference. *)
Definition PgQueryParserTable (shapes : CatalogShapes) : QueryParserTable Node :=
  {| NodeToQuerySchemaTable := fun node =>
       match node with
       | RangeVar s t a => QuerySchemaTable.mk s t a
       | Values _ _ a => QuerySchemaTable.mk "" "" a
       | IcebergScan _ _ => QuerySchemaTable.mk "" "" ""
       end;
     IsPgStatioUserTablesTable := is_table PG_SCHEMA_PG_CATALOG "pg_statio_user_tables";
     MakePgStatioUserTablesNode := fun alias => Values (statio_columns shapes) [] alias;
     IsPgShadowTable := is_table PG_SCHEMA_PG_CATALOG "pg_shadow";
     MakePgShadowNode := fun user encryptedPassword alias =>
       Values ["user"; "password"] [[user; encryptedPassword]] alias;
     IsPgRolesTable := is_table PG_SCHEMA_PG_CATALOG "pg_roles";
     MakePgRolesNode := fun user alias =>
       Values ("rolname" :: map fst (role_attributes shapes))
              [user :: map snd (role_attributes shapes)] alias;
     IsPgShdescriptionTable := is_table PG_SCHEMA_PG_CATALOG "pg_shdescription";
     MakePgShdescriptionNode := fun alias => Values (shdescription_columns shapes) [] alias;
     IsTableFromPgCatalog := fun q =>
       String.eqb (QuerySchemaTable.Schema q) PG_SCHEMA_PG_CATALOG;
     IsInformationSchemaTablesTable := is_table PG_SCHEMA_INFORMATION_SCHEMA "tables";
     MakeInformationSchemaTablesNode := fun database schemaTables alias =>
       Values ["table_catalog"; "table_schema"; "table_name"]
              (map (fun t => [database; Schema t; Table t]) schemaTables) alias;
     IsTableFromInformationSchema := fun q =>
       String.eqb (QuerySchemaTable.Schema q) PG_SCHEMA_INFORMATION_SCHEMA;
     MakeIcebergTableNode := fun icebergPath => IcebergScan icebergPath true |}.

(** * Observations on a run *)

(** ** The stages of the resolution order *)

(** The schema, table and alias that the parser reads off a reference. *)
Definition query_of {Node : Type} (remapper : SelectRemapperTable Node) (node : Node) :
  QuerySchemaTable.t :=
  NodeToQuerySchemaTable (parserTable remapper) node.

(** No earlier stage of the resolution order matches the reference. *)
Definition reaches_lakehouse_stage {Node : Type} (remapper : SelectRemapperTable Node)
           (node : Node) : bool :=
  let parser := parserTable remapper in
  let q := query_of remapper node in
  negb (IsPgStatioUserTablesTable parser q)
  && negb (IsPgShadowTable parser q)
  && negb (IsPgRolesTable parser q)
  && negb (IsPgShdescriptionTable parser q)
  && negb (IsTableFromPgCatalog parser q)
  && negb (IsInformationSchemaTablesTable parser q)
  && negb (IsTableFromInformationSchema parser q).

(** The reference is the information-schema "tables" view and no earlier
    stage matches it. *)
Definition reaches_information_schema_tables_stage {Node : Type}
           (remapper : SelectRemapperTable Node) (node : Node) : bool :=
  let parser := parserTable remapper in
  let q := query_of remapper node in
  negb (IsPgStatioUserTablesTable parser q)
  && negb (IsPgShadowTable parser q)
  && negb (IsPgRolesTable parser q)
  && negb (IsPgShdescriptionTable parser q)
  && negb (IsTableFromPgCatalog parser q)
  && IsInformationSchemaTablesTable parser q.

(** The reference is the credentials view and the stage before does not
    match it. *)
Definition reaches_pg_shadow_stage {Node : Type} (remapper : SelectRemapperTable Node)
           (node : Node) : bool :=
  let parser := parserTable remapper in
  let q := query_of remapper node in
  negb (IsPgStatioUserTablesTable parser q) && IsPgShadowTable parser q.

(** The pair looked up in the cache: the schema of an unqualified
    reference is the default one. *)
Definition lakehouse_table {Node : Type} (remapper : SelectRemapperTable Node)
           (node : Node) : IcebergSchemaTable :=
  let q := query_of remapper node in
  {| Schema := if String.eqb (QuerySchemaTable.Schema q) "" then PG_SCHEMA_PUBLIC
               else QuerySchemaTable.Schema q;
     Table := QuerySchemaTable.Table q |}.

(** The scan that replaces a reference to a lakehouse table. *)
Definition scan_node {Node : Type} (remapper : SelectRemapperTable Node) (node : Node) :
  Node :=
  MakeIcebergTableNode (parserTable remapper)
    (MetadataFilePath (icebergReader remapper) (lakehouse_table remapper node)).

(** ** The calls issued by a run *)

(** The calls logged between the world [w] and the later world [w'], most
    recent first. *)
Definition issued (w w' : World) : list Event :=
  firstn (List.length (trace w') - List.length (trace w)) (trace w').

(** The listings of [root] among the calls [evs]. *)
Definition root_listings (root : string) (evs : list Event) : nat :=
  List.length
    (filter (fun e => match e with
                      | EvListObjectsV2 p _ => String.eqb p root
                      | _ => false
                      end) evs).

(** The error [e] is the wrapped failure of the listing issued last in
    the trace [t]: nothing was issued after the failed request. *)
Definition failed_listing (env : Env) (e : string) (t : list Event) : Prop :=
  exists prefix msg t',
    t = EvListObjectsV2 prefix (Some "/") :: t' /\
    fault env t' (EvListObjectsV2 prefix (Some "/")) = Some msg /\
    e = "Failed to list objects: " ++ msg.

(** A run from [w] to [w'] that issues [evs]: no call to [root] among
    them, and a returned error is the failure of the call issued last. *)
Definition schema_run {A} (env : Env) (root : string) (w : World) (r : Res A * World) : Prop :=
  exists evs,
    trace (snd r) = (evs ++ trace w)%list /\
    root_listings root evs = 0%nat /\
    (forall e, fst r = Err e -> failed_listing env e (trace (snd r))).




(** ** Scratch files and uploads *)

(** Calls that write to the bucket. *)
Definition is_remote_write (e : Event) : bool :=
  match e with
  | EvUpload _ _ | EvOpenWriter _ | EvWriterWrite _ _ => true
  | _ => false
  end.

(** Calls on a local scratch file. *)
Definition is_scratch_call (e : Event) : bool :=
  match e with
  | EvCreateTemp _ | EvWriteLocal _ _ | EvDeleteTemp _ => true
  | _ => false
  end.

(** The object under [key] was built in a local scratch file and then
    uploaded in one piece: among the calls [evs] (most recent first) a
    scratch file was created, the artifact was written to it, and what was
    uploaded under [key] is that content. *)
Definition built_locally_then_uploaded (evs : list Event) (key : string) : Prop :=
  exists name body evs1 evs2 evs3 evs4,
    evs = (evs4 ++ EvUpload key body :: evs3 ++ EvWriteLocal name body
                :: evs2 ++ EvCreateTemp name :: evs1)%list.

(** The object under [key] was written through a writer opened on the
    key in the bucket. *)
Definition written_through_writer (evs : list Event) (key : string) : Prop :=
  exists bytes, In (EvWriterWrite key bytes) evs /\ In (EvOpenWriter key) evs.

(** The discipline of a step that publishes one artifact under [key]: on
    every run the only call that writes to the bucket is an upload to
    [key]; on a successful run the calls on the scratch file and on the
    bucket are, in order of time: create the scratch file, write the
    artifact to it, upload that content under [key], delete the scratch
    file (the list below has the most recent call first); and the object
    stored under [key] is that content. *)
Definition publishes_from_scratch {A} (m : M A) (key : string) : Prop :=
  forall env w,
    let name := temp_name "manifest" (next_tmp w) in
    let r := m env w in
    (forall e, In e (issued w (snd r)) -> is_remote_write e = true ->
               exists body, e = EvUpload key body) /\
    (forall a, fst r = Ok a ->
       exists body,
         filter (fun e => is_remote_write e || is_scratch_call e) (issued w (snd r))
         = [EvDeleteTemp name; EvUpload key body; EvWriteLocal name body; EvCreateTemp name]
         /\ S3.lookup key (bucket (snd r)) = Some body).

(** A run of [m], which creates its scratch file first, leaves no scratch
    file behind: when the creation fails the run returns that error and
    the local files are untouched; when it succeeds the file is gone at
    the exit, whatever the result, the removal is the last call issued,
    and no other local file has changed. *)
Definition releases_scratch {A} (m : M A) : Prop :=
  forall env w,
    let name := temp_name "manifest" (next_tmp w) in
    let r := m env w in
    match fault env (trace w) (EvCreateTemp name) with
    | Some e => fst r = Err e /\ local (snd r) = local w
    | None =>
        S3.lookup name (local (snd r)) = None /\
        hd_error (issued w (snd r)) = Some (EvDeleteTemp name) /\
        (forall n, n <> name -> S3.lookup n (local (snd r)) = S3.lookup n (local w))
    end.

(** ** Paths *)

(** The scheme-qualified root under which the tables are laid out. *)
Definition rootURI (config : Config) : string :=
  StorageS3.fileSystemPrefix config ++ IcebergPath config.

Definition metadata_uri (config : Config) (schemaTable : SchemaTable) : string :=
  rootURI config ++ "/" ++ Schema schemaTable ++ "/" ++ Table schemaTable
  ++ "/metadata/v1.metadata.json".

(** ** A concrete configuration, bucket and remapper *)

Module Sample.

Definition conf : Config :=
  {| Aws := {| Region := "eu-west-1"; S3Bucket := "lake";
               AccessKeyId := "key"; SecretAccessKey := "secret" |};
     IcebergPath := "iceberg";
     User := "alice";
     EncryptedPassword := "abc123";
     Database := "bemidb" |}.

Definition stats : ParquetFileStats :=
  {| ColumnSizes := []; ValueCounts := []; NullValueCounts := [];
     LowerBounds := []; UpperBounds := [] |}.

Definition formats : FormatCodec :=
  {| encode_parquet := fun _ _ => Ok "PAR1-rows-PAR1";
     decode_parquet_stats := fun _ => Ok stats;
     encode_manifest := fun _ _ _ => Ok "manifest";
     encode_manifest_list := fun _ _ _ => Ok "manifest-list";
     encode_metadata := fun _ _ _ _ _ => Ok "metadata";
     encode_version_hint := fun _ => Ok "1" |}.

(** No call fails. *)
Definition env : Env :=
  {| fault := fun _ _ => None;
     delete_error := fun _ => None;
     content_length := fun _ body => Z.of_nat (String.length body);
     uuid_source := fun _ => "0b1c";
     snapshot_id_source := fun _ => 42%Z;
     codec := formats |}.

(** Every listing fails. *)
Definition env_list_fails : Env :=
  {| fault := fun _ e => match e with
                         | EvListObjectsV2 _ _ => Some "RequestTimeout"
                         | _ => None
                         end;
     delete_error := fun _ => None;
     content_length := fun _ body => Z.of_nat (String.length body);
     uuid_source := fun _ => "0b1c";
     snapshot_id_source := fun _ => 42%Z;
     codec := formats |}.

(** Every upload fails. *)
Definition env_upload_fails : Env :=
  {| fault := fun _ e => match e with
                         | EvUpload _ _ => Some "SlowDown"
                         | _ => None
                         end;
     delete_error := fun _ => None;
     content_length := fun _ body => Z.of_nat (String.length body);
     uuid_source := fun _ => "0b1c";
     snapshot_id_source := fun _ => 42%Z;
     codec := formats |}.

(** No call fails, the encoders of the manifest, manifest list,
    metadata and version pointer do. *)
Definition env_encode_fails : Env :=
  {| fault := fun _ _ => None;
     delete_error := fun _ => None;
     content_length := fun _ body => Z.of_nat (String.length body);
     uuid_source := fun _ => "0b1c";
     snapshot_id_source := fun _ => 42%Z;
     codec :=
       {| encode_parquet := fun _ _ => Ok "PAR1-rows-PAR1";
          decode_parquet_stats := fun _ => Ok stats;
          encode_manifest := fun _ _ _ => Err "encode";
          encode_manifest_list := fun _ _ _ => Err "encode";
          encode_metadata := fun _ _ _ _ _ => Err "encode";
          encode_version_hint := fun _ => Err "encode" |} |}.

Definition world : World :=
  {| bucket := [("iceberg/public/t/data/00000-0-aa.parquet", "PAR1");
                ("iceberg/public/t/metadata/v1.metadata.json", "{}");
                ("iceberg/sales/orders/metadata/v1.metadata.json", "{}")];
     local := [];
     next_tmp := 0;
     trace := [] |}.

Definition empty_world : World :=
  {| bucket := []; local := []; next_tmp := 0; trace := [] |}.

(** A table with 1001 data files. *)
Definition large_world : World :=
  {| bucket :=
       map (fun n => ("iceberg/public/t/data/f"
                        ++ GoString.FormatInt (10000 + Z.of_nat n) ++ ".parquet",
                      "PAR1"))
           (seq 0 (S S3.MaxKeys));
     local := [];
     next_tmp := 0;
     trace := [] |}.

Definition shapes : CatalogShapes :=
  {| statio_columns := ["relid"; "schemaname"; "relname"];
     shdescription_columns := ["objoid"; "classoid"; "description"];
     role_attributes := [("rolsuper", "true"); ("rolcanlogin", "true")] |}.

Definition public_t : SchemaTable := {| Schema := "public"; Table := "t" |}.

Definition remapper (cache : list IcebergSchemaTable) : SelectRemapperTable Node :=
  {| parserTable := PgQueryParserTable shapes;
     icebergSchemaTables := cache;
     icebergReader := S3IcebergReader conf;
     config := conf |}.

Definition parquetFile : ParquetFile.t :=
  ParquetFile.mk "0b1c" "iceberg/public/t/data/00000-0-0b1c.parquet" 14 2 stats.

Definition manifestFile : ManifestFile.t :=
  ManifestFile.mk 42 "iceberg/public/t/metadata/0b1c-m0.avro".

Definition manifestListFile : ManifestListFile.t :=
  ManifestListFile.mk "iceberg/public/t/metadata/snap-42-0-0b1c.avro".

Definition metadataFile : MetadataFile.t :=
  MetadataFile.mk 1 "iceberg/public/t/metadata/v1.metadata.json".

Definition columns : list PgSchemaColumn :=
  [{| ColumnName := "id"; DataType := "int" |};
   {| ColumnName := "name"; DataType := "text" |}].

Definition loadRows (_ : unit) : list (list string) := [["1"; "a"]; ["2"; "b"]].

End Sample.

(** * Further observations *)

(** ** Names without a separator *)

(** The string holds no ["/"]. *)
Fixpoint slash_free (s : string) : bool :=
  match s with
  | EmptyString => true
  | String c rest => negb (Ascii.eqb c "/") && slash_free rest
  end.

(** The directory that a prefix ends with: [parts[len(parts)-2]] of the
    prefix split at ["/"]. *)
Definition dir_name (d : string) : string :=
  nth (List.length (GoString.Split d "/") - 2) (GoString.Split d "/") "".

(** The first page of the prefixes one level below [prefix]. *)
Definition subdirs (prefix : string) (b : list (string * string)) : list string :=
  S3.common_prefixes_of (firstn S3.MaxKeys (S3.entries prefix (Some "/") b)).

(** The tables of the two-level directory structure below the root of
    the catalog, as the first pages of the listings show them. *)
Definition catalog (config : Config) (b : list (string * string)) : list SchemaTable :=
  flat_map (fun d => map (fun t => {| Schema := dir_name d; Table := dir_name t |})
                         (subdirs d b))
           (subdirs (IcebergPath config ++ "/") b).

(** ** What a step changes in the bucket *)

(** A run of [m] changes no object of the bucket but the one under
    [key], and changes none at all when it does not succeed. *)
Definition writes_only_key {A} (m : M A) (key : string) : Prop :=
  forall env w,
    let r := m env w in
    (forall k, k <> key -> S3.lookup k (bucket (snd r)) = S3.lookup k (bucket w)) /\
    ((forall a, fst r <> Ok a) -> bucket (snd r) = bucket w).

(** ** More sample environments and buckets *)

Module Faults.

(** The request for the metadata of an object fails. *)
Definition env_head_fails : Env :=
  {| fault := fun _ e => match e with
                         | EvHeadObject _ => Some "InternalError"
                         | _ => None
                         end;
     delete_error := fun _ => None;
     content_length := fun _ body => Z.of_nat (String.length body);
     uuid_source := fun _ => "0b1c";
     snapshot_id_source := fun _ => 42%Z;
     codec := Sample.formats |}.


(** No call returns an error; the backend answers a batch delete without
    deleting the metadata root of [public.t], which it reports in the
    errors of its answer. *)
Definition env_delete_refused : Env :=
  {| fault := fun _ _ => None;
     delete_error := fun k => if String.eqb k "iceberg/public/t/metadata/v1.metadata.json"
                              then Some "AccessDenied" else None;
     content_length := fun _ body => Z.of_nat (String.length body);
     uuid_source := fun _ => "0b1c";
     snapshot_id_source := fun _ => 42%Z;
     codec := Sample.formats |}.

(** No call returns an error; the backend reports 4096 bytes for every
    object. *)
Definition env_reports_size : Env :=
  {| fault := fun _ _ => None;
     delete_error := fun _ => None;
     content_length := fun _ _ => 4096%Z;
     uuid_source := fun _ => "0b1c";
     snapshot_id_source := fun _ => 42%Z;
     codec := Sample.formats |}.

(** Two tables whose names start alike. *)
Definition two_tables : World :=
  {| bucket := [("iceberg/public/t/data/00000-0-aa.parquet", "PAR1");
                ("iceberg/public/t/metadata/v1.metadata.json", "{}");
                ("iceberg/public/t2/metadata/v1.metadata.json", "{}")];
     local := [];
     next_tmp := 0;
     trace := [] |}.

End Faults.

(** The worlds of a whole commit of the table [public.t] on the sample
    bucket, step after step. *)
Module Commit.

Definition dataDir : string := StorageS3.CreateDataDir Sample.conf Sample.public_t.
Definition metadataDir : string := StorageS3.CreateMetadataDir Sample.conf Sample.public_t.

Definition w1 : World :=
  snd (StorageS3.CreateParquet dataDir Sample.columns Sample.loadRows
         Sample.env Sample.world).
Definition w2 : World :=
  snd (StorageS3.CreateManifest Sample.conf metadataDir Sample.parquetFile Sample.env w1).
Definition w3 : World :=
  snd (StorageS3.CreateManifestList Sample.conf metadataDir Sample.parquetFile
         Sample.manifestFile Sample.env w2).
Definition w4 : World :=
  snd (StorageS3.CreateMetadata Sample.conf metadataDir Sample.columns Sample.parquetFile
         Sample.manifestFile Sample.manifestListFile Sample.env w3).
Definition w5 : World :=
  snd (StorageS3.CreateVersionHint "version-hint.text" metadataDir Sample.metadataFile
         Sample.env w4).

End Commit.

(** * Properties *)

Unset Implicit Arguments.

(** ** Stored objects and local files *)

Lemma lookup_put_same (k v : string) (b : list (string * string)) :
  S3.lookup k (S3.put k v b) = Some v.
Proof.
  induction b as [|[k' v'] t IH]; simpl.
  - now rewrite String.eqb_refl.
  - destruct (String.eqb k k') eqn:E; simpl.
    + now rewrite String.eqb_refl.
    + destruct (String.ltb k k'); simpl.
      * now rewrite String.eqb_refl.
      * now rewrite E.
Qed.

Lemma lookup_put_other (n k v : string) (b : list (string * string)) :
  n <> k -> S3.lookup n (S3.put k v b) = S3.lookup n b.
Proof.
  intros Hn. apply String.eqb_neq in Hn.
  induction b as [|[k' v'] t IH]; simpl.
  - now rewrite Hn.
  - destruct (String.eqb k k') eqn:E; simpl.
    + apply String.eqb_eq in E. subst k'. now rewrite Hn.
    + destruct (String.ltb k k'); simpl.
      * now rewrite Hn.
      * now rewrite IH.
Qed.

Lemma lookup_remove_same (k : string) (b : list (string * string)) :
  S3.lookup k (S3.remove [k] b) = None.
Proof.
  unfold S3.remove.
  induction b as [|[k' v'] t IH]; simpl in *; auto.
  destruct (String.eqb k' k) eqn:E; simpl in *; auto.
  rewrite String.eqb_sym, E. exact IH.
Qed.

Lemma lookup_remove_other (n k : string) (b : list (string * string)) :
  n <> k -> S3.lookup n (S3.remove [k] b) = S3.lookup n b.
Proof.
  intros Hn. unfold S3.remove.
  induction b as [|[k' v'] t IH]; simpl in *; auto.
  destruct (String.eqb k' k) eqn:E; simpl in *.
  - apply String.eqb_eq in E. subst k'.
    apply String.eqb_neq in Hn. now rewrite Hn.
  - now rewrite IH.
Qed.

(** ** The calls issued by a run *)

Lemma issued_app (evs : list Event) (w w' : World) :
  trace w' = (evs ++ trace w)%list -> issued w w' = evs.
Proof.
  intros H. unfold issued. rewrite H, List.length_app.
  replace (List.length evs + List.length (trace w) - List.length (trace w))%nat
    with (List.length evs + 0)%nat by lia.
  rewrite firstn_app_2. simpl. apply app_nil_r.
Qed.

Ltac new_events t base :=
  lazymatch t with
  | base => constr:(@nil Event)
  | ?e :: ?t' => let r := new_events t' base in constr:(e :: r)
  end.

(** Rewrites [issued w w'] to the explicit list of events, when the trace
    of [w'] is a chain of [::] ending in the trace of [w]. *)
Ltac issued_explicit :=
  repeat match goal with
  | |- context [issued ?w ?w'] =>
      let t := eval cbn in (trace w') in
      let b := eval cbn in (trace w) in
      let evs := new_events t b in
      rewrite (@issued_app evs w w') by reflexivity
  end.

Ltac unfold_go :=
  unfold StorageS3.CreateManifest, StorageS3.CreateManifestList,
    StorageS3.CreateMetadata, StorageS3.CreateVersionHint,
    StorageS3.CreateParquet, StorageS3.DeleteSchemaTable,
    StorageS3.nestedDirectoryPrefixes,
    StorageS3.uploadFile, StorageBase.WriteManifestFile,
    StorageBase.WriteManifestListFile, StorageBase.WriteMetadataFile,
    StorageBase.WriteVersionHintFile, StorageBase.WriteParquetFile,
    StorageBase.ReadParquetStats,
    NewS3FileWriterWithClient, NewS3FileReaderWithClient, NewUuid, NewSnapshotId,
    CreateTemporaryFile, DeleteTemporaryFile, write_local, encode,
    S3.Upload, S3.HeadObject, S3.DeleteObjects, S3.ListObjectsV2,
    defer, wrap, bind, ret, fail, panic, call, log,
    get_local, set_local, get_bucket, set_bucket in *.

(** Case analysis on the next call that may fail and on the next result
    of a codec. *)
Ltac step_go :=
  match goal with
  | |- context [fault ?env ?t ?e] =>
      let F := fresh "F" in destruct (fault env t e) eqn:F; cbn [fst snd]
  | |- context [encode_manifest ?c ?a ?b ?d] =>
      let C := fresh "C" in destruct (encode_manifest c a b d) eqn:C; cbn [fst snd]
  | |- context [encode_manifest_list ?c ?a ?b ?d] =>
      let C := fresh "C" in destruct (encode_manifest_list c a b d) eqn:C; cbn [fst snd]
  | |- context [encode_metadata ?c ?a ?b ?d ?e ?f] =>
      let C := fresh "C" in destruct (encode_metadata c a b d e f) eqn:C; cbn [fst snd]
  | |- context [encode_version_hint ?c ?a] =>
      let C := fresh "C" in destruct (encode_version_hint c a) eqn:C; cbn [fst snd]
  | |- context [encode_parquet ?c ?a ?b] =>
      let C := fresh "C" in destruct (encode_parquet c a b) eqn:C; cbn [fst snd]
  | |- context [decode_parquet_stats ?c ?a] =>
      let C := fresh "C" in destruct (decode_parquet_stats c a) eqn:C; cbn [fst snd]
  end.

(** ** Scratch files *)

Ltac local_files :=
  repeat first
    [ rewrite lookup_remove_same
    | rewrite lookup_remove_other by assumption
    | rewrite lookup_put_other by assumption
    | rewrite lookup_put_same ].

Ltac releases_scratch_tac :=
  intros env w; cbv zeta; unfold_go; cbn [Name];
  repeat (step_go; cbn [fst snd local trace Name]);
  try (split; reflexivity);
  (split; [ now local_files
          | split; [ issued_explicit; reflexivity
                   | intros n Hn; now local_files ] ]).

Lemma CreateManifest_releases_scratch config dir parquetFile :
  releases_scratch (StorageS3.CreateManifest config dir parquetFile).
Proof. releases_scratch_tac. Qed.

Lemma CreateManifestList_releases_scratch config dir parquetFile manifestFile :
  releases_scratch (StorageS3.CreateManifestList config dir parquetFile manifestFile).
Proof. releases_scratch_tac. Qed.

Lemma CreateMetadata_releases_scratch config dir columns parquetFile manifestFile
      manifestListFile :
  releases_scratch
    (StorageS3.CreateMetadata config dir columns parquetFile manifestFile manifestListFile).
Proof. releases_scratch_tac. Qed.

Lemma CreateVersionHint_releases_scratch hintName dir metadataFile :
  releases_scratch (StorageS3.CreateVersionHint hintName dir metadataFile).
Proof. releases_scratch_tac. Qed.

(** C6: [CreateManifest], [CreateManifestList], [CreateMetadata] and
    [CreateVersionHint] delete the local scratch file they created on
    every exit path: on success, on an encode failure and on an upload
    failure the file no longer exists when the function returns. *)
Theorem C6_scratch_file_deleted_on_every_exit
        (config : Config) (hintName dir : string) (columns : list PgSchemaColumn)
        (parquetFile : ParquetFile.t) (manifestFile : ManifestFile.t)
        (manifestListFile : ManifestListFile.t) (metadataFile : MetadataFile.t) :
  releases_scratch (StorageS3.CreateManifest config dir parquetFile) /\
  releases_scratch (StorageS3.CreateManifestList config dir parquetFile manifestFile) /\
  releases_scratch
    (StorageS3.CreateMetadata config dir columns parquetFile manifestFile manifestListFile) /\
  releases_scratch (StorageS3.CreateVersionHint hintName dir metadataFile).
Proof.
  repeat split.
  - apply CreateManifest_releases_scratch.
  - apply CreateManifestList_releases_scratch.
  - apply CreateMetadata_releases_scratch.
  - apply CreateVersionHint_releases_scratch.
Qed.

(** The exits of [CreateManifest] are reached: success, a failure of the
    encoder, a failure of the upload; no local file is left in any of
    them. *)
Example CreateManifest_exits :
  let run env :=
    StorageS3.CreateManifest Sample.conf "iceberg/public/t/metadata" Sample.parquetFile
      env Sample.world in
  fst (run Sample.env) = Ok Sample.manifestFile /\
  fst (run Sample.env_encode_fails) = Err "encode" /\
  fst (run Sample.env_upload_fails) = Err "Failed to upload file: SlowDown" /\
  local (snd (run Sample.env)) = [] /\
  local (snd (run Sample.env_encode_fails)) = [] /\
  local (snd (run Sample.env_upload_fails)) = [].
Proof. cbv zeta. repeat split. Qed.

Lemma C6_scratch_file_deleted_on_every_exit_witness :
  S3.lookup "/tmp/manifest0"
    (local (snd (StorageS3.CreateManifest Sample.conf "iceberg/public/t/metadata"
                   Sample.parquetFile Sample.env_upload_fails Sample.world))) = None.
Proof.
  exact (proj1 (proj1 (C6_scratch_file_deleted_on_every_exit
                         Sample.conf "version-hint.text" "iceberg/public/t/metadata"
                         Sample.columns Sample.parquetFile Sample.manifestFile
                         Sample.manifestListFile Sample.metadataFile)
                      Sample.env_upload_fails Sample.world)).
Defined.

(** ** The stages of [RemapTable] *)

Lemma append_assoc (a b c : string) : (a ++ b) ++ c = a ++ (b ++ c).
Proof. induction a as [|x a IH]; simpl; [reflexivity | now rewrite IH]. Qed.

Lemma length_append (a b : string) :
  String.length (a ++ b) = (String.length a + String.length b)%nat.
Proof. induction a as [|x a IH]; simpl; [reflexivity | now rewrite IH]. Qed.

Section Stages.

Context {Node : Type}.
Variable remapper : SelectRemapperTable Node.
Variable node : Node.

Ltac stage H :=
unfold reaches_lakehouse_stage, reaches_information_schema_tables_stage,
  reaches_pg_shadow_stage, query_of in H;
cbv zeta in H;
repeat (apply andb_prop in H; destruct H as [H ?]);
repeat match goal with
       | X : negb _ = true |- _ => apply negb_true_iff in X
       end;
unfold RemapTable;
repeat match goal with
       | X : _ = false |- _ => rewrite X
       | X : _ = true |- _ => rewrite X
       end.

Lemma RemapTable_hit env w :
reaches_lakehouse_stage remapper node = true ->
icebergSchemaTableExists remapper (lakehouse_table remapper node) = true ->
RemapTable remapper node env w = (Ok (scan_node remapper node, remapper), w).
Proof.
intros H Hex. stage H.
unfold scan_node, lakehouse_table, query_of, QuerySchemaTable.ToIcebergSchemaTable in *.
destruct (String.eqb (QuerySchemaTable.Schema
                        (NodeToQuerySchemaTable (parserTable remapper) node)) "");
  cbn in *; rewrite Hex; reflexivity.
Qed.

Lemma RemapTable_miss env w :
reaches_lakehouse_stage remapper node = true ->
icebergSchemaTableExists remapper (lakehouse_table remapper node) = false ->
RemapTable remapper node env w =
match SchemaTables (icebergReader remapper) env w with
| (Ok tables, w1) =>
    let reloaded := with_icebergSchemaTables remapper tables in
    if icebergSchemaTableExists reloaded (lakehouse_table remapper node)
    then (Ok (scan_node remapper node, reloaded), w1)
    else (Ok (node, reloaded), w1)
| (Err e, w1) => (Panic e, w1)
| (Panic e, w1) => (Panic e, w1)
end.
Proof.
intros H Hex. stage H.
unfold scan_node, lakehouse_table, query_of, QuerySchemaTable.ToIcebergSchemaTable in *.
unfold reloadIceberSchemaTables, PanicIfError, bind, ret.
destruct (String.eqb (QuerySchemaTable.Schema
                        (NodeToQuerySchemaTable (parserTable remapper) node)) "");
  cbn in *; rewrite Hex; cbn;
  destruct (SchemaTables (icebergReader remapper) env w) as [[tables|e|e] w1];
  cbn; try reflexivity;
  match goal with
  | |- context [existsb ?f ?l] => destruct (existsb f l); reflexivity
  end.
Qed.

Lemma RemapTable_information_schema_tables env w :
reaches_information_schema_tables_stage remapper node = true ->
RemapTable remapper node env w =
match SchemaTables (icebergReader remapper) env w with
| (Ok tables, w1) =>
    let reloaded := with_icebergSchemaTables remapper tables in
    match tables with
    | [] => (Ok (node, reloaded), w1)
    | _ :: _ =>
        (Ok (MakeInformationSchemaTablesNode (parserTable remapper)
               (Database (config remapper)) tables
               (QuerySchemaTable.Alias (query_of remapper node)), reloaded), w1)
    end
| (Err e, w1) => (Panic e, w1)
| (Panic e, w1) => (Panic e, w1)
end.
Proof.
intros H. stage H.
unfold reloadIceberSchemaTables, PanicIfError, bind, ret, query_of.
destruct (SchemaTables (icebergReader remapper) env w) as [[tables|e|e] w1];
  cbn; try reflexivity.
destruct tables; reflexivity.
Qed.

Lemma RemapTable_pg_shadow env w :
reaches_pg_shadow_stage remapper node = true ->
RemapTable remapper node env w =
(Ok (MakePgShadowNode (parserTable remapper) (User (config remapper))
       (EncryptedPassword (config remapper))
       (QuerySchemaTable.Alias (query_of remapper node)),
     remapper), w).
Proof. intros H. stage H. reflexivity. Qed.

End Stages.

(** ** Reader path and writer path *)

Ltac paths :=
  unfold metadata_uri, rootURI, StorageS3.IcebergMetadataFilePath,
    StorageS3.CreateMetadataDir, StorageS3.tablePrefix, StorageS3.fileSystemPrefix;
  repeat rewrite append_assoc; reflexivity.

Lemma IcebergMetadataFilePath_layout config schemaTable :
  StorageS3.IcebergMetadataFilePath config schemaTable = metadata_uri config schemaTable.
Proof. paths. Qed.

Lemma metadata_key_uri config schemaTable :
  StorageS3.fileSystemPrefix config
  ++ (StorageS3.CreateMetadataDir config schemaTable ++ "/"
      ++ ("v" ++ GoString.FormatInt 1 ++ ".metadata.json"))
  = metadata_uri config schemaTable.
Proof. paths. Qed.

(** What [CreateMetadata] does to the bucket: every upload it issues goes
    to the key [dir/v1.metadata.json], and when it succeeds the object
    under that key is the one it uploaded. *)
Lemma CreateMetadata_upload config dir columns parquetFile manifestFile manifestListFile
      env w :
  let key := dir ++ "/" ++ ("v" ++ GoString.FormatInt 1 ++ ".metadata.json") in
  let r := StorageS3.CreateMetadata config dir columns parquetFile manifestFile
             manifestListFile env w in
  (forall k body, In (EvUpload k body) (issued w (snd r)) -> k = key) /\
  (forall metadataFile, fst r = Ok metadataFile ->
     MetadataFile.Path metadataFile = key /\
     exists body, In (EvUpload key body) (issued w (snd r)) /\
                  S3.lookup key (bucket (snd r)) = Some body).
Proof.
  cbv zeta. unfold_go. cbn [Name].
  repeat (step_go; cbn [fst snd local trace bucket Name]);
    (split; [ intros k body; issued_explicit; cbn [In]; intros HIn;
              repeat (destruct HIn as [HIn|HIn]; try discriminate);
              try contradiction; now inversion HIn
            | intros metadataFile HOk; try discriminate ]).
  inversion HOk; subst; cbn [MetadataFile.Path]. split; [reflexivity|].
  eexists. split.
  - issued_explicit. cbn [In]. right. left. reflexivity.
  - apply lookup_put_same.
Qed.

(** C1: for a reference that resolves to a table of the catalog cache,
    the path of the scan that the rewriter builds is
    [IcebergMetadataFilePath], that is
    rootURI/<schema>/<table>/metadata/v1.metadata.json, and it is the URI of
    the key under which [CreateMetadata] uploads the metadata root of the
    same table. *)
Theorem C1_reader_path_is_writer_path
        {Node : Type} (parser : QueryParserTable Node) (config : Config)
        (cache : list IcebergSchemaTable) (node : Node)
        (columns : list PgSchemaColumn) (parquetFile : ParquetFile.t)
        (manifestFile : ManifestFile.t) (manifestListFile : ManifestListFile.t)
        (env : Env) (w : World) :
  let remapper := {| parserTable := parser; icebergSchemaTables := cache;
                     icebergReader := S3IcebergReader config; config := config |} in
  let schemaTable := lakehouse_table remapper node in
  let path := metadata_uri config schemaTable in
  let r := StorageS3.CreateMetadata config (StorageS3.CreateMetadataDir config schemaTable)
             columns parquetFile manifestFile manifestListFile env w in
  reaches_lakehouse_stage remapper node = true ->
  icebergSchemaTableExists remapper schemaTable = true ->
  RemapTable remapper node env w = (Ok (MakeIcebergTableNode parser path, remapper), w) /\
  StorageS3.IcebergMetadataFilePath config schemaTable = path /\
  (forall key body, In (EvUpload key body) (issued w (snd r)) ->
     StorageS3.fileSystemPrefix config ++ key = path) /\
  (forall metadataFile, fst r = Ok metadataFile ->
     StorageS3.fileSystemPrefix config ++ MetadataFile.Path metadataFile = path /\
     exists body,
       In (EvUpload (MetadataFile.Path metadataFile) body) (issued w (snd r)) /\
       S3.lookup (MetadataFile.Path metadataFile) (bucket (snd r)) = Some body).
Proof.
  intros remapper schemaTable path r Hstage Hcache.
  pose proof (CreateMetadata_upload config (StorageS3.CreateMetadataDir config schemaTable)
                columns parquetFile manifestFile manifestListFile env w) as [Hup Hok].
  fold r in Hup, Hok.
  split; [|split; [|split]].
  - rewrite (RemapTable_hit remapper node env w Hstage Hcache).
    unfold scan_node, path. cbn [icebergReader remapper S3IcebergReader MetadataFilePath
                                   parserTable].
    now rewrite IcebergMetadataFilePath_layout.
  - apply IcebergMetadataFilePath_layout.
  - intros key body HIn. rewrite (Hup key body HIn). apply metadata_key_uri.
  - intros metadataFile HOk. destruct (Hok metadataFile HOk) as [Hpath Hbody].
    rewrite Hpath. split; [apply metadata_key_uri | exact Hbody].
Qed.

Lemma C1_reader_path_is_writer_path_witness :
  RemapTable (Sample.remapper [Sample.public_t]) (RangeVar "" "t" "x")
             Sample.env Sample.world
  = (Ok (IcebergScan "s3://lake/iceberg/public/t/metadata/v1.metadata.json" true,
         Sample.remapper [Sample.public_t]), Sample.world)
  /\ fst (StorageS3.CreateMetadata Sample.conf "iceberg/public/t/metadata" Sample.columns
            Sample.parquetFile Sample.manifestFile Sample.manifestListFile
            Sample.env Sample.world)
     = Ok (MetadataFile.mk 1 "iceberg/public/t/metadata/v1.metadata.json").
Proof.
  split.
  - exact (proj1 (C1_reader_path_is_writer_path
                    (PgQueryParserTable Sample.shapes) Sample.conf [Sample.public_t]
                    (RangeVar "" "t" "x") Sample.columns Sample.parquetFile
                    Sample.manifestFile Sample.manifestListFile Sample.env Sample.world
                    eq_refl eq_refl)).
  - reflexivity.
Defined.

(** ** How an artifact reaches the bucket *)

Lemma publishes_from_scratch_built {A} (m : M A) key env w a :
  publishes_from_scratch m key ->
  fst (m env w) = Ok a ->
  built_locally_then_uploaded
    (filter (fun e => is_remote_write e || is_scratch_call e) (issued w (snd (m env w)))) key.
Proof.
  intros H HOk. destruct (H env w) as [_ H2].
  destruct (H2 a HOk) as [body [Hevs _]]. rewrite Hevs.
  exists (temp_name "manifest" (next_tmp w)), body, [], [], [],
    [EvDeleteTemp (temp_name "manifest" (next_tmp w))].
  reflexivity.
Qed.

Ltac publishes_tac :=
  let ev := fresh "ev" in
  let HIn := fresh "HIn" in
  let Hw := fresh "Hw" in
  let HOk := fresh "HOk" in
  intros env w; cbv zeta; unfold_go; cbn [Name];
  repeat (step_go; cbn [fst snd local trace bucket Name]);
  rewrite ?lookup_put_same; cbn [fst snd local trace bucket Name];
  (split;
   [ intros ev; issued_explicit; cbn [In]; intros HIn Hw;
     repeat match goal with
            | H : _ \/ _ |- _ => destruct H
            | H : False |- _ => contradiction
            | H : _ = ev |- _ => subst ev; try discriminate Hw; eexists; reflexivity
            end
   | intros ? HOk;
     first [ discriminate HOk
           | eexists; split;
             [ issued_explicit; reflexivity
             | first [ apply lookup_put_same | reflexivity ] ] ] ]).

Lemma CreateManifest_publishes config dir parquetFile :
  publishes_from_scratch (StorageS3.CreateManifest config dir parquetFile)
    (dir ++ "/" ++ (ParquetFile.Uuid parquetFile ++ "-m0.avro")).
Proof. publishes_tac. Qed.

Lemma CreateManifestList_publishes config dir parquetFile manifestFile :
  publishes_from_scratch
    (StorageS3.CreateManifestList config dir parquetFile manifestFile)
    (dir ++ "/" ++ ("snap-" ++ GoString.FormatInt (ManifestFile.SnapshotId manifestFile)
                    ++ "-0-" ++ ParquetFile.Uuid parquetFile ++ ".avro")).
Proof. publishes_tac. Qed.

Lemma CreateMetadata_publishes config dir columns parquetFile manifestFile manifestListFile :
  publishes_from_scratch
    (StorageS3.CreateMetadata config dir columns parquetFile manifestFile manifestListFile)
    (dir ++ "/v1.metadata.json").
Proof. publishes_tac. Qed.

Lemma CreateVersionHint_publishes hintName dir metadataFile :
  publishes_from_scratch (StorageS3.CreateVersionHint hintName dir metadataFile)
    (dir ++ "/" ++ hintName).
Proof. publishes_tac. Qed.

(** A successful [CreateParquet]: the calls it issues, in order (most
    recent first), the key of the data file, and the stored object. *)
Lemma CreateParquet_success dir columns loadRows env w parquetFile :
  let r := StorageS3.CreateParquet dir columns loadRows env w in
  let key := dir ++ "/" ++ ("00000-0-" ++ uuid_source env (trace w) ++ ".parquet") in
  fst r = Ok parquetFile ->
  exists bytes,
    ParquetFile.Path parquetFile = key /\
    ParquetFile.Size parquetFile = content_length env key bytes /\
    S3.lookup key (bucket (snd r)) = Some bytes /\
    issued w (snd r)
    = [EvOpenReader key; EvHeadObject key; EvWriterWrite key bytes;
       EvOpenWriter key; EvNewUuid].
Proof.
  cbv zeta. unfold_go. cbn [FileKey trace].
  repeat (step_go; cbn [fst snd local trace bucket FileKey];
          rewrite ?lookup_put_same; cbn [fst snd local trace bucket FileKey]);
    intros HOk; try discriminate HOk.
  injection HOk as HOk. subst parquetFile. cbn [ParquetFile.Path ParquetFile.Size].
  eexists. split; [reflexivity|]. split; [reflexivity|].
  split; [first [reflexivity | apply lookup_put_same] | issued_explicit; reflexivity].
Qed.

(** C3 (as amended): the manifest, the manifest list, the metadata root
    and the version pointer are each built in a local scratch file and
    then uploaded under their key in one upload of the whole content, and
    these steps write to the bucket in no other way; the data file is not
    built in a scratch file: [CreateParquet] writes it through a writer
    opened on its key in the bucket. *)
Theorem C3_artifacts_published_from_scratch_except_data_file
        (config : Config) (hintName dir : string) (columns : list PgSchemaColumn)
        (parquetFile : ParquetFile.t) (manifestFile : ManifestFile.t)
        (manifestListFile : ManifestListFile.t) (metadataFile : MetadataFile.t)
        (loadRows : unit -> list (list string)) :
  publishes_from_scratch (StorageS3.CreateManifest config dir parquetFile)
    (dir ++ "/" ++ (ParquetFile.Uuid parquetFile ++ "-m0.avro")) /\
  publishes_from_scratch
    (StorageS3.CreateManifestList config dir parquetFile manifestFile)
    (dir ++ "/" ++ ("snap-" ++ GoString.FormatInt (ManifestFile.SnapshotId manifestFile)
                    ++ "-0-" ++ ParquetFile.Uuid parquetFile ++ ".avro")) /\
  publishes_from_scratch
    (StorageS3.CreateMetadata config dir columns parquetFile manifestFile manifestListFile)
    (dir ++ "/v1.metadata.json") /\
  publishes_from_scratch (StorageS3.CreateVersionHint hintName dir metadataFile)
    (dir ++ "/" ++ hintName) /\
  (forall env w dataFile,
     let r := StorageS3.CreateParquet dir columns loadRows env w in
     fst r = Ok dataFile ->
     written_through_writer (issued w (snd r)) (ParquetFile.Path dataFile) /\
     filter is_scratch_call (issued w (snd r)) = [] /\
     S3.lookup (ParquetFile.Path dataFile) (bucket (snd r)) <> None).
Proof.
  split; [apply CreateManifest_publishes|].
  split; [apply CreateManifestList_publishes|].
  split; [apply CreateMetadata_publishes|].
  split; [apply CreateVersionHint_publishes|].
  intros env w dataFile r HOk.
  destruct (CreateParquet_success dir columns loadRows env w dataFile HOk)
    as [bytes [Hpath [_ [Hstored Hissued]]]].
  fold r in Hstored, Hissued. rewrite Hpath, Hissued, Hstored.
  split; [|split].
  - exists bytes. cbn [In]. split; [right; right; left | right; right; right; left];
      reflexivity.
  - reflexivity.
  - discriminate.
Qed.

(** C3 (as stated) fails on the data file: a successful [CreateParquet]
    stores the data file in the bucket although no scratch file was
    created and nothing was uploaded from one. *)
Lemma C3_data_file_not_built_in_scratch_file :
  let r := StorageS3.CreateParquet "iceberg/public/t/data" Sample.columns Sample.loadRows
             Sample.env Sample.world in
  let key := "iceberg/public/t/data/00000-0-0b1c.parquet" in
  fst r = Ok (ParquetFile.mk "0b1c" key 14 2 Sample.stats) /\
  S3.lookup key (bucket (snd r)) = Some "PAR1-rows-PAR1" /\
  issued Sample.world (snd r)
  = [EvOpenReader key; EvHeadObject key; EvWriterWrite key "PAR1-rows-PAR1";
     EvOpenWriter key; EvNewUuid] /\
  ~ built_locally_then_uploaded (issued Sample.world (snd r)) key.
Proof.
  cbv zeta. repeat split.
  intros [name [body [evs1 [evs2 [evs3 [evs4 H]]]]]].
  assert (HIn : In (EvUpload "iceberg/public/t/data/00000-0-0b1c.parquet" body)
                   (issued Sample.world
                      (snd (StorageS3.CreateParquet "iceberg/public/t/data" Sample.columns
                              Sample.loadRows Sample.env Sample.world)))).
  { rewrite H. apply in_or_app. right. left. reflexivity. }
  vm_compute in HIn.
  repeat (destruct HIn as [HIn|HIn]; [discriminate HIn|]). exact HIn.
Qed.

Lemma C3_artifacts_published_from_scratch_except_data_file_witness :
  let r := StorageS3.CreateParquet "iceberg/public/t/data" Sample.columns Sample.loadRows
             Sample.env Sample.world in
  written_through_writer (issued Sample.world (snd r))
    "iceberg/public/t/data/00000-0-0b1c.parquet".
Proof.
  exact (proj1 (proj2 (proj2 (proj2 (proj2
    (C3_artifacts_published_from_scratch_except_data_file
       Sample.conf "version-hint.text" "iceberg/public/t/data" Sample.columns
       Sample.parquetFile Sample.manifestFile Sample.manifestListFile
       Sample.metadataFile Sample.loadRows))))
    Sample.env Sample.world
    (ParquetFile.mk "0b1c" "iceberg/public/t/data/00000-0-0b1c.parquet" 14 2 Sample.stats)
    eq_refl)).
Defined.

(** C8: the [Size] of the descriptor returned by a successful
    [CreateParquet] is the [ContentLength] of the answer of the backend to
    the [HeadObject] call that is issued on the key of the data file once
    the rows are written, whatever size the backend reports there; it is
    not computed from the bytes that went through the writer, from which
    only the record count is taken. *)
Theorem C8_size_is_head_object_size
        (dir : string) (columns : list PgSchemaColumn)
        (loadRows : unit -> list (list string)) (env : Env) (w : World)
        (parquetFile : ParquetFile.t) :
  let r := StorageS3.CreateParquet dir columns loadRows env w in
  let key := ParquetFile.Path parquetFile in
  fst r = Ok parquetFile ->
  exists bytes head,
    let written := {| bucket := S3.put key bytes (bucket w); local := local w;
                      next_tmp := next_tmp w;
                      trace := EvWriterWrite key bytes :: EvOpenWriter key
                               :: EvNewUuid :: trace w |} in
    encode_parquet (codec env) columns (loadRows tt) = Ok bytes /\
    issued w (snd r)
    = [EvOpenReader key; EvHeadObject key; EvWriterWrite key bytes;
       EvOpenWriter key; EvNewUuid] /\
    fst (S3.HeadObject key env written) = Ok head /\
    ParquetFile.Size parquetFile = S3.ContentLength head /\
    S3.ContentLength head = content_length env key bytes /\
    ParquetFile.RecordCount parquetFile = Z.of_nat (List.length (loadRows tt)).
Proof.
  cbv zeta. unfold_go. cbn [FileKey trace].
  repeat (step_go; cbn [fst snd local trace bucket FileKey];
          rewrite ?lookup_put_same; cbn [fst snd local trace bucket FileKey]);
    intros HOk; try discriminate HOk.
  injection HOk as HOk. subst parquetFile.
  cbn [ParquetFile.Path ParquetFile.Size ParquetFile.RecordCount].
  eexists. eexists. split; [reflexivity|].
  split; [issued_explicit; reflexivity|].
  match goal with
  | F : fault env _ (EvHeadObject _) = None |- context [fault env ?t (EvHeadObject ?k)] =>
      replace (fault env t (EvHeadObject k)) with (@None string) by (symmetry; exact F)
  end.
  cbn [fst snd bucket]. rewrite lookup_put_same. cbn [fst S3.ContentLength].
  repeat split.
Qed.

(** With a backend that reports 4096 bytes for the object, the size of
    the descriptor is 4096, while 14 bytes went through the writer. *)
Lemma C8_size_is_head_object_size_witness :
  let r := StorageS3.CreateParquet "iceberg/public/t/data" Sample.columns Sample.loadRows
             Faults.env_reports_size Sample.world in
  exists parquetFile bytes,
    fst r = Ok parquetFile /\
    S3.lookup (ParquetFile.Path parquetFile) (bucket (snd r)) = Some bytes /\
    String.length bytes = 14%nat /\
    ParquetFile.Size parquetFile = 4096%Z.
Proof.
  pose (parquetFile := ParquetFile.mk "0b1c" "iceberg/public/t/data/00000-0-0b1c.parquet"
                                      4096 2 Sample.stats).
  destruct (C8_size_is_head_object_size
              "iceberg/public/t/data" Sample.columns Sample.loadRows
              Faults.env_reports_size Sample.world parquetFile eq_refl)
    as [bytes [head [_ [_ [_ [Hsize [Hhead _]]]]]]].
  exists parquetFile, "PAR1-rows-PAR1".
  split; [reflexivity|]. split; [reflexivity|]. split; [reflexivity|].
  rewrite Hsize, Hhead. reflexivity.
Defined.

(** ** Deleting a table *)

Lemma dedup_In (l seen : list S3.Entry) (e : S3.Entry) :
  In e (S3.dedup seen l) -> In e l.
Proof.
  revert seen. induction l as [|x l IH]; intros seen; cbn [S3.dedup]; [easy|].
  destruct (existsb (S3.Entry_eqb x) seen).
  - intros H. right. eauto.
  - intros [H|H]; [now left | right; eauto].
Qed.

Lemma Entry_eqb_eq (a b : S3.Entry) : S3.Entry_eqb a b = true <-> a = b.
Proof.
  destruct a, b; cbn [S3.Entry_eqb]; rewrite ?String.eqb_eq;
    split; intros H; try discriminate; try (now subst); now inversion H.
Qed.

Lemma In_dedup (l seen : list S3.Entry) (e : S3.Entry) :
  In e l -> In e seen \/ In e (S3.dedup seen l).
Proof.
  revert seen. induction l as [|x l IH]; intros seen; cbn [S3.dedup In]; [easy|].
  intros [H|H].
  - subst x. destruct (existsb (S3.Entry_eqb e) seen) eqn:E.
    + left. apply existsb_exists in E. destruct E as [y [Hy Hey]].
      apply Entry_eqb_eq in Hey. now subst y.
    + right. now left.
  - destruct (existsb (S3.Entry_eqb x) seen).
    + now apply IH.
    + destruct (IH (x :: seen) H) as [[H'|H']|H'].
      * subst x. right. now left.
      * now left.
      * right. now right.
Qed.

Lemma dedup_length (l seen : list S3.Entry) :
  (List.length (S3.dedup seen l) <= List.length l)%nat.
Proof.
  revert seen. induction l as [|x l IH]; intros seen; cbn [S3.dedup List.length]; [lia|].
  destruct (existsb (S3.Entry_eqb x) seen); cbn [List.length].
  - specialize (IH seen). lia.
  - specialize (IH (x :: seen)). lia.
Qed.

Lemma contents_of_In (l : list S3.Entry) (k : string) :
  In k (S3.contents_of l) <-> In (S3.Content k) l.
Proof.
  unfold S3.contents_of. rewrite in_flat_map. split.
  - intros [[x|x] [Hx Hk]]; cbn [In] in Hk; [|contradiction].
    destruct Hk as [Hk|[]]. now subst x.
  - intros H. exists (S3.Content k). split; [exact H | now left].
Qed.

(** Without a delimiter the listing is the list of the keys under the
    prefix, each once. *)
Lemma entries_no_delimiter_In (prefix : string) (b : list (string * string)) (k : string) :
  In (S3.Content k) (S3.entries prefix None b) <-> In k (S3.keys_under prefix b).
Proof.
  unfold S3.entries. split.
  - intros H. apply dedup_In in H. apply in_map_iff in H.
    destruct H as [x [Hx HIn]]. cbn [S3.entry_of] in Hx. now inversion Hx; subst.
  - intros H.
    destruct (In_dedup (map (S3.entry_of prefix None) (S3.keys_under prefix b)) []
                       (S3.Content k)) as [[]|H'];
      [|exact H'].
    apply in_map_iff. exists k. split; [reflexivity | exact H].
Qed.

Lemma entries_length (prefix : string) (delimiter : option string)
      (b : list (string * string)) :
  (List.length (S3.entries prefix delimiter b) <= List.length (S3.keys_under prefix b))%nat.
Proof.
  unfold S3.entries.
  etransitivity; [apply dedup_length|]. now rewrite List.length_map.
Qed.

Lemma keys_under_remove (prefix : string) (keys : list string) (b : list (string * string)) :
  (forall k, In k (S3.keys_under prefix b) -> In k keys) ->
  S3.keys_under prefix (S3.remove keys b) = [].
Proof.
  unfold S3.keys_under, S3.remove.
  induction b as [|[k v] b IH]; intros H; cbn [filter map fst]; [reflexivity|].
  destruct (existsb (String.eqb k) keys) eqn:E; cbn [negb map filter fst].
  - apply IH. intros k' Hk'. apply H. cbn [filter map fst].
    destruct (GoString.HasPrefix k prefix); [now right | exact Hk'].
  - destruct (GoString.HasPrefix k prefix) eqn:P.
    + exfalso. assert (HIn : In k keys).
      { apply H. cbn [filter map fst]. rewrite P. now left. }
      assert (existsb (String.eqb k) keys = true).
      { apply existsb_exists. exists k. split; [exact HIn | apply String.eqb_refl]. }
      congruence.
    + apply IH. intros k' Hk'. apply H. cbn [filter map fst]. now rewrite P.
Qed.

(** What [DeleteSchemaTable] does, by the outcome of its two calls: when
    the batch delete is answered the result is success, whatever keys the
    backend deleted. *)
Lemma DeleteSchemaTable_run config schemaTable env w :
  let prefix := StorageS3.tablePrefix config schemaTable in
  let list_call := EvListObjectsV2 prefix None in
  let page := S3.contents_of (firstn S3.MaxKeys (S3.entries prefix None (bucket w))) in
  let r := StorageS3.DeleteSchemaTable config schemaTable env w in
  match fault env (trace w) list_call with
  | Some msg =>
      fst r = Err ("Failed to list objects: " ++ msg) /\
      issued w (snd r) = [list_call] /\ bucket (snd r) = bucket w
  | None =>
      match page with
      | [] => fst r = Ok tt /\ issued w (snd r) = [list_call] /\ bucket (snd r) = bucket w
      | _ :: _ =>
          issued w (snd r) = [EvDeleteObjects page; list_call] /\
          match fault env (list_call :: trace w) (EvDeleteObjects page) with
          | Some msg =>
              fst r = Err ("Failed to delete objects: " ++ msg) /\
              bucket (snd r) = bucket w
          | None =>
              fst r = Ok tt /\
              bucket (snd r) = S3.remove (S3.deleted_keys (delete_error env) page) (bucket w)
          end
      end
  end.
Proof.
  cbv zeta. unfold_go. cbn [S3.Contents].
  destruct (fault env (trace w) _) eqn:F; cbn [fst snd bucket trace].
  - repeat split. issued_explicit. reflexivity.
  - destruct (S3.contents_of _) as [|k page] eqn:P;
      cbn [S3.Contents List.length Nat.ltb Nat.leb fst snd bucket trace].
    + repeat split. issued_explicit. reflexivity.
    + destruct (fault env _ (EvDeleteObjects _)) eqn:F'; cbn [fst snd bucket trace];
        (split; [issued_explicit; reflexivity | split; reflexivity]).
Qed.

(** C10: when no object is stored under the prefix of the table,
    [DeleteSchemaTable] issues no delete request and, the listing having
    answered, returns success; and whatever the bucket holds, a delete
    request it issues names at least one key. *)
Theorem C10_no_delete_request_for_empty_prefix
        (config : Config) (schemaTable : SchemaTable) (env : Env) (w : World) :
  let prefix := StorageS3.tablePrefix config schemaTable in
  let r := StorageS3.DeleteSchemaTable config schemaTable env w in
  (forall keys, In (EvDeleteObjects keys) (issued w (snd r)) -> keys <> []) /\
  (S3.keys_under prefix (bucket w) = [] ->
   (forall keys, ~ In (EvDeleteObjects keys) (issued w (snd r))) /\
   issued w (snd r) = [EvListObjectsV2 prefix None] /\
   bucket (snd r) = bucket w /\
   (fault env (trace w) (EvListObjectsV2 prefix None) = None -> fst r = Ok tt)).
Proof.
  intros prefix r.
  pose proof (DeleteSchemaTable_run config schemaTable env w) as Hrun.
  cbv zeta in Hrun. fold prefix r in Hrun.
  split.
  - intros keys HIn.
    destruct (fault env (trace w) (EvListObjectsV2 prefix None)).
    + destruct Hrun as [_ [Hissued _]]. rewrite Hissued in HIn.
      destruct HIn as [HIn|[]]. discriminate HIn.
    + destruct (S3.contents_of _) as [|k page].
      * destruct Hrun as [_ [Hissued _]]. rewrite Hissued in HIn.
        destruct HIn as [HIn|[]]. discriminate HIn.
      * destruct Hrun as [Hissued _]. rewrite Hissued in HIn.
        destruct HIn as [HIn|[HIn|[]]]; [|discriminate HIn].
        injection HIn as <-. discriminate.
  - intros Hempty.
    assert (Hpage : S3.contents_of (firstn S3.MaxKeys (S3.entries prefix None (bucket w)))
                    = []).
    { pose proof (entries_length prefix None (bucket w)) as Hlen.
      rewrite Hempty in Hlen. cbn [List.length] in Hlen.
      destruct (S3.entries prefix None (bucket w)); [|cbn [List.length] in Hlen; lia].
      now rewrite firstn_nil. }
    rewrite Hpage in Hrun.
    destruct (fault env (trace w) (EvListObjectsV2 prefix None)).
    + destruct Hrun as [_ [Hissued Hbucket]]. rewrite Hissued.
      repeat split; try assumption; try discriminate.
      intros keys [HIn|[]]. discriminate HIn.
    + destruct Hrun as [HOk [Hissued Hbucket]]. rewrite Hissued.
      repeat split; try assumption.
      * intros keys [HIn|[]]. discriminate HIn.
      * intros _. exact HOk.
Qed.

Lemma C10_no_delete_request_for_empty_prefix_witness :
  let r := StorageS3.DeleteSchemaTable Sample.conf Sample.public_t
             Sample.env Sample.empty_world in
  issued Sample.empty_world (snd r) = [EvListObjectsV2 "iceberg/public/t/" None] /\
  fst r = Ok tt.
Proof.
  destruct (proj2 (C10_no_delete_request_for_empty_prefix
                     Sample.conf Sample.public_t Sample.env Sample.empty_world)
                  eq_refl) as [_ [Hissued [_ HOk]]].
  split; [exact Hissued | exact (HOk eq_refl)].
Defined.

Lemma deleted_keys_all (refused : string -> option string) (keys : list string) :
  (forall k, refused k = None) -> S3.deleted_keys refused keys = keys.
Proof.
  intros H. unfold S3.deleted_keys. induction keys as [|k keys IH]; cbn [filter];
    [reflexivity|].
  rewrite H. now rewrite IH.
Qed.

(** When the listing fits in one page, neither call fails and the
    backend deletes every key it is given, [DeleteSchemaTable] leaves no
    object under the prefix of the table. *)
Lemma DeleteSchemaTable_one_page config schemaTable env w :
  let prefix := StorageS3.tablePrefix config schemaTable in
  let r := StorageS3.DeleteSchemaTable config schemaTable env w in
  (List.length (S3.keys_under prefix (bucket w)) <= S3.MaxKeys)%nat ->
  (forall t e, fault env t e = None) ->
  (forall k, delete_error env k = None) ->
  fst r = Ok tt /\ S3.keys_under prefix (bucket (snd r)) = [].
Proof.
  intros prefix r Hlen Hfault Hall_deleted.
  pose proof (DeleteSchemaTable_run config schemaTable env w) as Hrun.
  cbv zeta in Hrun. fold prefix r in Hrun.
  rewrite Hfault in Hrun.
  assert (Hall : firstn S3.MaxKeys (S3.entries prefix None (bucket w))
                 = S3.entries prefix None (bucket w)).
  { apply firstn_all2. pose proof (entries_length prefix None (bucket w)). lia. }
  rewrite Hall in Hrun.
  assert (Hkeys : forall k, In k (S3.keys_under prefix (bucket w)) ->
                            In k (S3.contents_of (S3.entries prefix None (bucket w)))).
  { intros k Hk. apply contents_of_In. now apply entries_no_delimiter_In. }
  destruct (S3.contents_of (S3.entries prefix None (bucket w))) as [|k page] eqn:P.
  - destruct Hrun as [HOk [_ Hbucket]]. split; [exact HOk|]. rewrite Hbucket.
    destruct (S3.keys_under prefix (bucket w)) as [|k ks]; [reflexivity|].
    destruct (Hkeys k (or_introl eq_refl)).
  - rewrite Hfault in Hrun. destruct Hrun as [_ [HOk Hbucket]].
    split; [exact HOk|]. rewrite Hbucket, (deleted_keys_all _ _ Hall_deleted).
    now apply keys_under_remove.
Qed.

(** C4: on a table with 1001 objects [DeleteSchemaTable] returns success
    and one object is still stored under the prefix of the table: the
    listing is asked for once and answers with its first page of 1000
    keys. *)
Theorem C4_DeleteSchemaTable_leaves_objects_beyond_first_page :
  let prefix := StorageS3.tablePrefix Sample.conf Sample.public_t in
  let r := StorageS3.DeleteSchemaTable Sample.conf Sample.public_t
             Sample.env Sample.large_world in
  List.length (S3.keys_under prefix (bucket Sample.large_world)) = 1001%nat /\
  fst r = Ok tt /\
  S3.keys_under prefix (bucket (snd r)) = ["iceberg/public/t/data/f11000.parquet"].
Proof. vm_compute. repeat split. Qed.

(** ** Listing the catalog *)

Lemma firstn_In {A} (n : nat) (l : list A) (x : A) : In x (firstn n l) -> In x l.
Proof.
  revert l. induction n as [|n IH]; intros [|y l]; cbn [firstn In]; try easy.
  intros [H|H]; [now left | right; now apply IH].
Qed.

Lemma common_prefixes_of_In (l : list S3.Entry) (d : string) :
  In d (S3.common_prefixes_of l) <-> In (S3.CommonPrefix d) l.
Proof.
  unfold S3.common_prefixes_of. rewrite in_flat_map. split.
  - intros [[x|x] [Hx Hd]]; cbn [In] in Hd; [contradiction|].
    destruct Hd as [Hd|[]]. now subst x.
  - intros H. exists (S3.CommonPrefix d). split; [exact H | now left].
Qed.

(** A common prefix of the listing under [prefix] is longer than
    [prefix]. *)
Lemma common_prefix_longer (prefix d : string) (n : nat) (b : list (string * string)) :
  In d (S3.common_prefixes_of (firstn n (S3.entries prefix (Some "/") b))) ->
  (String.length prefix < String.length d)%nat.
Proof.
  intros H. apply common_prefixes_of_In in H. apply firstn_In in H.
  unfold S3.entries in H. apply dedup_In in H. apply in_map_iff in H.
  destruct H as [key [Hentry _]]. unfold S3.entry_of in Hentry.
  destruct (String.index 0 "/" (GoString.drop (String.length prefix) key)) as [i|] eqn:I;
    [|discriminate Hentry].
  injection Hentry as <-. rewrite length_append.
  destruct (GoString.drop (String.length prefix) key) as [|c rest].
  - cbn in I. discriminate I.
  - cbn [String.length]. rewrite Nat.add_1_r. cbn [String.substring String.length]. lia.
Qed.

Lemma root_listings_app root evs1 evs2 :
  root_listings root (evs1 ++ evs2)
  = (root_listings root evs1 + root_listings root evs2)%nat.
Proof. unfold root_listings. now rewrite filter_app, List.length_app. Qed.

Lemma nestedDirectoryPrefixes_run prefix env w :
  let list_call := EvListObjectsV2 prefix (Some "/") in
  let r := StorageS3.nestedDirectoryPrefixes prefix env w in
  snd r = {| bucket := bucket w; local := local w; next_tmp := next_tmp w;
             trace := list_call :: trace w |} /\
  match fault env (trace w) list_call with
  | Some msg => fst r = Err ("Failed to list objects: " ++ msg)
  | None =>
      fst r = Ok (S3.common_prefixes_of
                    (firstn S3.MaxKeys (S3.entries prefix (Some "/") (bucket w))))
  end.
Proof.
  cbv zeta. unfold_go.
  destruct (fault env (trace w) _); cbn [fst snd bucket S3.CommonPrefixes];
    split; reflexivity.
Qed.

(** The loop over the tables of a schema issues no call and returns no
    error: it ends with the tables, or panics on an index. *)
Lemma tables_loop_run (schema : string) (tables : list string)
      (acc : list SchemaTable) env w :
  let r := for_range tables acc
             (fun schemaTables tablePrefix =>
                let tableParts := GoString.Split tablePrefix "/" in
                table <- last_but_one tableParts ;;
                ret (schemaTables ++ [{| Schema := schema; Table := table |}])%list)
             env w in
  snd r = w /\ forall e, fst r <> Err e.
Proof.
  revert acc. induction tables as [|t tables IH]; intros acc; cbn [for_range].
  - cbv zeta. unfold ret. cbn [fst snd]. split; [reflexivity | discriminate].
  - cbv zeta. unfold bind at 1. unfold bind at 1. unfold last_but_one.
    destruct (Nat.ltb (List.length (GoString.Split t "/")) 2).
    + unfold panic. cbn [fst snd]. split; [reflexivity | discriminate].
    + unfold ret at 1. unfold ret at 1. apply IH.
Qed.

Lemma schemas_loop_run (root : string) (schemaPrefixes : list string)
      (acc : list SchemaTable) env w :
  (forall d, In d schemaPrefixes -> d <> root) ->
  schema_run env root w
    (for_range schemaPrefixes acc
       (fun schemaTables schemaPrefix =>
          let schemaParts := GoString.Split schemaPrefix "/" in
          schema <- last_but_one schemaParts ;;
          tables <- StorageS3.nestedDirectoryPrefixes schemaPrefix ;;
          for_range tables schemaTables
            (fun schemaTables tablePrefix =>
               let tableParts := GoString.Split tablePrefix "/" in
               table <- last_but_one tableParts ;;
               ret (schemaTables ++ [{| Schema := schema; Table := table |}])%list))
       env w).
Proof.
  revert acc w. induction schemaPrefixes as [|d ds IH]; intros acc w Hroot; cbn [for_range].
  - exists []. unfold ret. cbn [fst snd]. repeat split. discriminate.
  - cbv zeta. unfold bind at 1. unfold bind at 1. unfold last_but_one at 1.
    destruct (Nat.ltb (List.length (GoString.Split d "/")) 2).
    { exists []. unfold panic. cbn [fst snd]. repeat split. discriminate. }
    unfold ret at 1. unfold bind at 1.
    pose proof (nestedDirectoryPrefixes_run d env w) as [Hw Hr]. cbv zeta in Hw, Hr.
    assert (Hd : root_listings root [EvListObjectsV2 d (Some "/")] = 0%nat).
    { unfold root_listings. cbn [filter].
      assert (d <> root) as Hne by (apply Hroot; now left).
      apply String.eqb_neq in Hne. now rewrite Hne. }
    destruct (StorageS3.nestedDirectoryPrefixes d env w) as [[tables|e|e] w1] eqn:N;
      cbn [fst snd] in Hw, Hr;
      assert (Htr : trace w1 = EvListObjectsV2 d (Some "/") :: trace w)
        by (now rewrite Hw);
      clear Hw.
    + pose proof (tables_loop_run
                    (nth (List.length (GoString.Split d "/") - 2)
                         (GoString.Split d "/") "") tables acc env w1)
        as [Hsnd Hnoerr].
      cbv zeta in Hsnd, Hnoerr.
      match goal with
      | |- context [for_range tables acc ?body env w1] =>
          destruct (for_range tables acc body env w1) as [[acc'|e|e] w2] eqn:T
      end; cbn [fst snd] in Hsnd, Hnoerr; subst w2.
      * destruct (IH acc' w1 (fun x Hx => Hroot x (or_intror Hx))) as [evs [Ht [Hc He]]].
        exists (evs ++ [EvListObjectsV2 d (Some "/")])%list.
        rewrite <- app_assoc. cbn [app]. rewrite root_listings_app, Hc, Hd, <- Htr.
        repeat split; assumption.
      * exfalso. now apply (Hnoerr e).
      * exists [EvListObjectsV2 d (Some "/")]. cbn [fst snd app].
        repeat split; [exact Htr | exact Hd | discriminate].
    + exists [EvListObjectsV2 d (Some "/")]. cbn [fst snd app].
      repeat split; [exact Htr | exact Hd |]. intros e' He'. injection He' as <-.
      destruct (fault env (trace w) (EvListObjectsV2 d (Some "/"))) as [msg|] eqn:F;
        [|discriminate Hr].
      injection Hr as ->. exists d, msg, (trace w). repeat split; assumption.
    + exists [EvListObjectsV2 d (Some "/")]. cbn [fst snd app].
      repeat split; [exact Htr | exact Hd | discriminate].
Qed.

(** A run of [IcebergSchemaTables]: the root of the catalog is listed
    exactly once, and an error it returns is the wrapped failure of the
    listing issued last. *)
Lemma IcebergSchemaTables_run config env w :
  let root := IcebergPath config ++ "/" in
  let r := StorageS3.IcebergSchemaTables config env w in
  exists evs,
    trace (snd r) = (evs ++ trace w)%list /\
    root_listings root evs = 1%nat /\
    (forall e, fst r = Err e -> failed_listing env e (trace (snd r))) /\
    (forall msg, fault env (trace w) (EvListObjectsV2 root (Some "/")) = Some msg ->
       r = (Err ("Failed to list objects: " ++ msg),
            {| bucket := bucket w; local := local w; next_tmp := next_tmp w;
               trace := EvListObjectsV2 root (Some "/") :: trace w |})).
Proof.
  intros root r.
  pose proof (nestedDirectoryPrefixes_run root env w) as [Hw Hr].
  cbv zeta in Hw, Hr.
  assert (Hroot : root_listings root [EvListObjectsV2 root (Some "/")] = 1%nat).
  { unfold root_listings. cbn [filter]. now rewrite String.eqb_refl. }
  assert (R : r = match StorageS3.nestedDirectoryPrefixes root env w with
                  | (Ok dirs, w1) =>
                      for_range dirs []
                        (fun schemaTables schemaPrefix =>
                           let schemaParts := GoString.Split schemaPrefix "/" in
                           schema <- last_but_one schemaParts ;;
                           tables <- StorageS3.nestedDirectoryPrefixes schemaPrefix ;;
                           for_range tables schemaTables
                             (fun schemaTables tablePrefix =>
                                let tableParts := GoString.Split tablePrefix "/" in
                                table <- last_but_one tableParts ;;
                                ret (schemaTables
                                       ++ [{| Schema := schema; Table := table |}])%list))
                        env w1
                  | (Err e, w1) => (Err e, w1)
                  | (Panic e, w1) => (Panic e, w1)
                  end) by reflexivity.
  clearbody r.
  destruct (StorageS3.nestedDirectoryPrefixes root env w) as [[dirs|e|e] w1] eqn:N;
    cbn [fst snd] in Hw, Hr; subst r.
  - destruct (fault env (trace w) _) as [msg|] eqn:F; [discriminate Hr|].
    match type of Hr with
    | Ok _ = Ok ?x => assert (Hdirs : dirs = x) by congruence
    end.
    clear Hr.
    destruct (schemas_loop_run root dirs [] env w1) as [evs [Ht [Hc He]]].
    { intros d Hd ->. rewrite Hdirs in Hd. apply common_prefix_longer in Hd. lia. }
    exists (evs ++ [EvListObjectsV2 root (Some "/")])%list.
    split; [|split; [|split]].
    + etransitivity; [exact Ht|]. rewrite Hw. cbn [trace].
      rewrite <- app_assoc. reflexivity.
    + now rewrite root_listings_app, Hc, Hroot.
    + exact He.
    + intros msg Hmsg. discriminate Hmsg.
  - exists [EvListObjectsV2 root (Some "/")].
    cbn [fst snd app]. rewrite Hw. cbn [trace].
    destruct (fault env (trace w) _) as [msg|] eqn:F; [|discriminate Hr].
    injection Hr as ->.
    repeat split; [exact Hroot | |].
    + intros e' He'. injection He' as <-. exists root, msg, (trace w).
      repeat split. exact F.
    + intros msg' Hmsg. now injection Hmsg as ->.
  - exists [EvListObjectsV2 root (Some "/")].
    cbn [fst snd app]. rewrite Hw. cbn [trace].
    destruct (fault env (trace w) _) as [msg|] eqn:F; [discriminate Hr|].
    repeat split; [exact Hroot | discriminate | discriminate].
Qed.

(** ** Reloading the catalog cache from the remapper *)

(** C2: for a reference that reaches the lakehouse stage and whose pair
    is absent from the cache, [RemapTable] reloads the cache exactly once
    (the world after the call is the one after a single run of the
    reader's listing; with the S3 reader the root of the catalog is listed
    once) and looks the pair up again in the reloaded cache; when the pair
    is still absent the reference is returned as it is, with an [Ok]
    result; [RemapTable] returns no error. *)
Theorem C2_one_reload_on_miss_then_identity
        {Node : Type} (remapper : SelectRemapperTable Node) (node : Node)
        (env : Env) (w : World) :
  let schemaTable := lakehouse_table remapper node in
  let reload := SchemaTables (icebergReader remapper) env w in
  let r := RemapTable remapper node env w in
  reaches_lakehouse_stage remapper node = true ->
  icebergSchemaTableExists remapper schemaTable = false ->
  snd r = snd reload /\
  (forall tables,
     fst reload = Ok tables ->
     fst r = Ok (if existsb (fun t => SchemaTable_eqb t schemaTable) tables
                 then scan_node remapper node
                 else node,
                 with_icebergSchemaTables remapper tables)) /\
  (forall e, fst r <> Err e) /\
  (forall config,
     icebergReader remapper = S3IcebergReader config ->
     root_listings (IcebergPath config ++ "/") (issued w (snd r)) = 1%nat).
Proof.
  intros schemaTable reload r Hstage Hmiss.
  assert (R : r = match reload with
                  | (Ok tables, w1) =>
                      let reloaded := with_icebergSchemaTables remapper tables in
                      if icebergSchemaTableExists reloaded schemaTable
                      then (Ok (scan_node remapper node, reloaded), w1)
                      else (Ok (node, reloaded), w1)
                  | (Err e, w1) => (Panic e, w1)
                  | (Panic e, w1) => (Panic e, w1)
                  end)
    by (apply (RemapTable_miss remapper node env w Hstage Hmiss)).
  clearbody r.
  assert (Hsnd : snd r = snd reload).
  { rewrite R. destruct reload as [[tables|e|e] w1]; cbn [fst snd]; try reflexivity.
    cbv zeta.
    destruct (icebergSchemaTableExists (with_icebergSchemaTables remapper tables)
                                       schemaTable); reflexivity. }
  split; [exact Hsnd|split; [|split]].
  - intros tables Hreload. rewrite R.
    destruct reload as [[tables'|e|e] w1]; cbn [fst] in Hreload; try discriminate.
    injection Hreload as ->. cbv zeta.
    unfold icebergSchemaTableExists. cbn [icebergSchemaTables with_icebergSchemaTables].
    match goal with
    | |- context [existsb ?f tables] => destruct (existsb f tables); reflexivity
    end.
  - intros e. rewrite R. destruct reload as [[tables|e'|e'] w1]; cbn [fst]; try discriminate.
    cbv zeta.
    destruct (icebergSchemaTableExists (with_icebergSchemaTables remapper tables)
                                       schemaTable); discriminate.
  - intros config Hreader.
    assert (Hw : snd r = snd (StorageS3.IcebergSchemaTables config env w)).
    { rewrite Hsnd. subst reload. now rewrite Hreader. }
    destruct (IcebergSchemaTables_run config env w) as [evs [Ht [Hone _]]].
    rewrite Hw. now rewrite (issued_app evs w _ Ht).
Qed.

Lemma C2_one_reload_on_miss_then_identity_witness :
  let r := RemapTable (Sample.remapper []) (RangeVar "" "missing" "m")
             Sample.env Sample.world in
  root_listings "iceberg/" (issued Sample.world (snd r)) = 1%nat /\
  fst r = Ok (RangeVar "" "missing" "m",
              with_icebergSchemaTables (Sample.remapper [])
                [{| Schema := "public"; Table := "t" |};
                 {| Schema := "sales"; Table := "orders" |}]).
Proof.
  destruct (C2_one_reload_on_miss_then_identity
              (Sample.remapper []) (RangeVar "" "missing" "m")
              Sample.env Sample.world eq_refl eq_refl)
    as [_ [HOk [_ Hone]]].
  split; [exact (Hone Sample.conf eq_refl) | exact (HOk _ eq_refl)].
Defined.

(** ** Failures of the backend *)






































(** ** Synthesized catalog rows *)

(** C7: for a reference to the information-schema "tables" view
    [RemapTable] reloads the cache whatever it holds; when the reload
    yields no table the reference is returned as it is, and otherwise it
    is replaced by a literal row set with one row (database name, schema,
    table) per table of the reloaded cache, under the alias of the
    reference.  With the S3 reader the root of the catalog is listed
    exactly once. *)
Theorem C7_information_schema_tables_rows
        (shapes : CatalogShapes) (reader : IcebergReader) (config : Config)
        (cache : list IcebergSchemaTable) (alias : string) (env : Env) (w : World) :
  let remapper := {| parserTable := PgQueryParserTable shapes;
                     icebergSchemaTables := cache;
                     icebergReader := reader; config := config |} in
  let node := RangeVar PG_SCHEMA_INFORMATION_SCHEMA "tables" alias in
  let rows (tables : list IcebergSchemaTable) :=
    Values ["table_catalog"; "table_schema"; "table_name"]
           (map (fun t => [Database config; Schema t; Table t]) tables) alias in
  RemapTable remapper node env w =
  match SchemaTables reader env w with
  | (Ok tables, w1) =>
      (Ok (match tables with [] => node | _ :: _ => rows tables end,
           with_icebergSchemaTables remapper tables), w1)
  | (Err e, w1) => (Panic e, w1)
  | (Panic e, w1) => (Panic e, w1)
  end /\
  (forall storageConfig,
     reader = S3IcebergReader storageConfig ->
     root_listings (IcebergPath storageConfig ++ "/")
                   (issued w (snd (RemapTable remapper node env w))) = 1%nat).
Proof.
  intros remapper node rows.
  assert (Heq : RemapTable remapper node env w =
     match SchemaTables reader env w with
     | (Ok tables, w1) =>
         (Ok (match tables with [] => node | _ :: _ => rows tables end,
              with_icebergSchemaTables remapper tables), w1)
     | (Err e, w1) => (Panic e, w1)
     | (Panic e, w1) => (Panic e, w1)
     end).
  { rewrite (RemapTable_information_schema_tables remapper node env w eq_refl).
    cbn [icebergReader remapper].
    destruct (SchemaTables reader env w) as [[[|t tables]|e|e] w1]; reflexivity. }
  split; [exact Heq|].
  intros storageConfig Hreader. rewrite Heq. rewrite Hreader.
  cbn [S3IcebergReader SchemaTables].
  destruct (IcebergSchemaTables_run storageConfig env w) as [evs [Ht [Hone _]]].
  destruct (StorageS3.IcebergSchemaTables storageConfig env w) as [[tables|e|e] w1];
    cbn [fst snd] in *; now rewrite (issued_app evs w w1 Ht).
Qed.

Lemma C7_information_schema_tables_rows_witness :
  fst (RemapTable (Sample.remapper []) (RangeVar "information_schema" "tables" "it")
                  Sample.env Sample.world)
  = Ok (Values ["table_catalog"; "table_schema"; "table_name"]
               [["bemidb"; "public"; "t"]; ["bemidb"; "sales"; "orders"]] "it",
        with_icebergSchemaTables (Sample.remapper [])
          [{| Schema := "public"; Table := "t" |};
           {| Schema := "sales"; Table := "orders" |}])
  /\ fst (RemapTable (Sample.remapper [Sample.public_t])
                     (RangeVar "information_schema" "tables" "it")
                     Sample.env Sample.empty_world)
     = Ok (RangeVar "information_schema" "tables" "it",
           with_icebergSchemaTables (Sample.remapper [Sample.public_t]) []).
Proof.
  split.
  - exact (f_equal fst
             (proj1 (C7_information_schema_tables_rows
                       Sample.shapes (S3IcebergReader Sample.conf) Sample.conf []
                       "it" Sample.env Sample.world))).
  - exact (f_equal fst
             (proj1 (C7_information_schema_tables_rows
                       Sample.shapes (S3IcebergReader Sample.conf) Sample.conf
                       [Sample.public_t] "it" Sample.env Sample.empty_world))).
Defined.

(** C9: a reference to [pg_catalog.pg_shadow], and only such a reference
    is matched as the credentials view, is replaced by a literal row set
    of exactly one row, the configured user name and its encrypted
    password, under the alias of the reference; with the user "alice" and
    the encrypted password "abc123" the row is ("alice", "abc123"). *)
Theorem C9_pg_shadow_one_row
        (shapes : CatalogShapes) (reader : IcebergReader) (config : Config)
        (cache : list IcebergSchemaTable) (alias : string) (env : Env) (w : World) :
  let remapper := {| parserTable := PgQueryParserTable shapes;
                     icebergSchemaTables := cache;
                     icebergReader := reader; config := config |} in
  RemapTable remapper (RangeVar PG_SCHEMA_PG_CATALOG "pg_shadow" alias) env w
  = (Ok (Values ["user"; "password"] [[User config; EncryptedPassword config]] alias,
         remapper), w) /\
  RemapTable (Sample.remapper cache) (RangeVar "pg_catalog" "pg_shadow" alias) env w
  = (Ok (Values ["user"; "password"] [["alice"; "abc123"]] alias,
         Sample.remapper cache), w) /\
  (forall node,
     IsPgShadowTable (PgQueryParserTable shapes)
       (NodeToQuerySchemaTable (PgQueryParserTable shapes) node) = true ->
     exists a, node = RangeVar "pg_catalog" "pg_shadow" a).
Proof.
  intros remapper. split; [|split].
  - apply (RemapTable_pg_shadow remapper (RangeVar PG_SCHEMA_PG_CATALOG "pg_shadow" alias)
             env w eq_refl).
  - apply (RemapTable_pg_shadow (Sample.remapper cache)
             (RangeVar "pg_catalog" "pg_shadow" alias) env w eq_refl).
  - intros [s t a|c rs a|p f]; cbn; unfold is_table; cbn; intros H; try discriminate.
    apply andb_prop in H. destruct H as [Hs Ht].
    apply String.eqb_eq in Hs, Ht. subst. now exists a.
Qed.

Lemma C9_pg_shadow_one_row_witness :
  fst (RemapTable (Sample.remapper []) (RangeVar "pg_catalog" "pg_shadow" "s")
                  Sample.env Sample.world)
  = Ok (Values ["user"; "password"] [["alice"; "abc123"]] "s", Sample.remapper []).
Proof.
  exact (f_equal fst
           (proj1 (proj2 (C9_pg_shadow_one_row
                            Sample.shapes (S3IcebergReader Sample.conf) Sample.conf []
                            "s" Sample.env Sample.world)))).
Defined.

(** A table named [pg_shadow] in another schema is a lakehouse table, not
    the credentials view. *)
Example pg_shadow_by_name_alone_is_not_matched :
  IsPgShadowTable (PgQueryParserTable Sample.shapes)
    (QuerySchemaTable.mk "public" "pg_shadow" "") = false /\
  reaches_lakehouse_stage (Sample.remapper []) (RangeVar "public" "pg_shadow" "") = true.
Proof. split; reflexivity. Qed.

(** ** Strings and separators *)

Lemma prefix_append (p x : string) : String.prefix p (p ++ x) = true.
Proof.
  induction p as [|c p IH]; cbn [String.prefix append].
  - now destruct x.
  - destruct (ascii_dec c c) as [_|N]; [exact IH | now elim N].
Qed.

Lemma prefix_inv (p s : string) :
  String.prefix p s = true -> exists x, s = p ++ x.
Proof.
  revert s. induction p as [|c p IH]; intros s H.
  - now exists s.
  - destruct s as [|c' s]; cbn [String.prefix] in H; [discriminate|].
    destruct (ascii_dec c c') as [->|]; [|discriminate].
    destruct (IH s H) as [x ->]. now exists x.
Qed.

Lemma substring_full (s : string) : String.substring 0 (String.length s) s = s.
Proof. induction s as [|c s IH]; cbn; [reflexivity | now rewrite IH]. Qed.

Lemma drop_append (p x : string) : GoString.drop (String.length p) (p ++ x) = x.
Proof.
  unfold GoString.drop. induction p as [|c p IH]; cbn [append String.length].
  - rewrite Nat.sub_0_r. apply substring_full.
  - cbn [String.substring Nat.sub]. exact IH.
Qed.

Lemma substring_append (a x : string) (n : nat) :
  String.substring 0 (String.length a + n) (a ++ x) = a ++ String.substring 0 n x.
Proof.
  induction a as [|c a IH]; cbn [append String.length Nat.add]; [reflexivity|].
  cbn [String.substring]. now rewrite IH.
Qed.

Lemma substring_slash (a rest : string) :
  String.substring 0 (String.length a + 1) (a ++ String "/" rest) = a ++ "/".
Proof.
  rewrite substring_append. f_equal. cbn [String.substring]. now destruct rest.
Qed.

Lemma index_slash_free (a rest : string) :
  slash_free a = true ->
  String.index 0 "/" (a ++ String "/" rest) = Some (String.length a).
Proof.
  induction a as [|c a IH]; intros H.
  - cbn [append String.index String.prefix String.length].
    destruct (ascii_dec "/" "/") as [_|N]; [|now elim N]. now destruct rest.
  - cbn [slash_free] in H. apply andb_prop in H. destruct H as [Hc Ha].
    apply negb_true_iff in Hc. apply Ascii.eqb_neq in Hc.
    cbn [append String.index String.prefix String.length].
    destruct (ascii_dec "/" c) as [E|_]; [now elim Hc|].
    now rewrite (IH Ha).
Qed.

Lemma index_slash_inv (s : string) (i : nat) :
  String.index 0 "/" s = Some i ->
  exists a rest, s = a ++ String "/" rest /\ slash_free a = true /\ String.length a = i.
Proof.
  revert i. induction s as [|c s IH]; intros i H.
  - cbn in H. discriminate.
  - cbn [String.index String.prefix] in H.
    destruct (ascii_dec "/" c) as [<-|N].
    + assert (Hp : String.prefix "" s = true) by now destruct s.
      rewrite Hp in H. injection H as <-.
      exists "", s. repeat split.
    + destruct (String.index 0 "/" s) as [j|]; [|discriminate].
      injection H as <-. destruct (IH j eq_refl) as [a [rest [-> [Ha Hl]]]].
      exists (String c a), rest. cbn [append slash_free String.length].
      repeat split; [| now rewrite Hl].
      rewrite Ha, andb_true_r. apply negb_true_iff. apply Ascii.eqb_neq.
      intros ->. now elim N.
Qed.

Lemma Split_nonempty (s : string) (sep : ascii) : GoString.Split s sep <> [].
Proof.
  destruct s as [|c s]; cbn [GoString.Split]; [discriminate|].
  destruct (Ascii.eqb c sep); [discriminate|].
  destruct (GoString.Split s sep); discriminate.
Qed.

Lemma Split_append (a b : string) :
  GoString.Split (a ++ String "/" b) "/"
  = (GoString.Split a "/" ++ GoString.Split b "/")%list.
Proof.
  induction a as [|c a IH]; cbn [append GoString.Split].
  - reflexivity.
  - rewrite IH. destruct (Ascii.eqb c "/"); [reflexivity|].
    destruct (GoString.Split a "/") as [|p ps] eqn:E; [|reflexivity].
    now elim (Split_nonempty a "/").
Qed.

Lemma Split_slash_free (a : string) :
  slash_free a = true -> GoString.Split a "/" = [a].
Proof.
  induction a as [|c a IH]; intros H; cbn [GoString.Split]; [reflexivity|].
  cbn [slash_free] in H. apply andb_prop in H. destruct H as [Hc Ha].
  apply negb_true_iff in Hc. rewrite Hc, (IH Ha). reflexivity.
Qed.

(** The name of the directory [d0/a/] is [a]. *)
Lemma dir_name_append (d0 a : string) :
  slash_free a = true -> dir_name (d0 ++ String "/" (a ++ "/")) = a.
Proof.
  intros H. unfold dir_name.
  rewrite Split_append. change "/" with (String "/" "") at 2.
  rewrite Split_append, (Split_slash_free a H). cbn [GoString.Split].
  rewrite List.length_app. cbn [List.length app].
  replace (List.length (GoString.Split d0 "/") + 2 - 2)%nat
    with (List.length (GoString.Split d0 "/") + 0)%nat by lia.
  rewrite app_nth2_plus. reflexivity.
Qed.

Lemma Split_two_parts (d0 a : string) :
  (2 <= List.length (GoString.Split (d0 ++ String "/" a) "/"))%nat.
Proof.
  rewrite Split_append, List.length_app.
  pose proof (Split_nonempty d0 "/"). pose proof (Split_nonempty a "/").
  destruct (GoString.Split d0 "/"); [congruence|].
  destruct (GoString.Split a "/"); [congruence|]. cbn [List.length]. lia.
Qed.

(** ** The directories below a prefix *)

Lemma keys_under_In (prefix key : string) (b : list (string * string)) :
  In key (S3.keys_under prefix b) <->
  In key (map fst b) /\ GoString.HasPrefix key prefix = true.
Proof. unfold S3.keys_under. rewrite filter_In. reflexivity. Qed.

(** A directory listed below [prefix] is [prefix/a/] for a name [a]
    without separator, and some object of the bucket lies below it. *)
Lemma subdirs_inv (prefix d : string) (b : list (string * string)) :
  In d (subdirs prefix b) ->
  exists a rest,
    d = prefix ++ a ++ "/" /\ slash_free a = true /\
    In (prefix ++ a ++ String "/" rest) (map fst b).
Proof.
  unfold subdirs. intros H.
  apply common_prefixes_of_In in H. apply firstn_In in H.
  unfold S3.entries in H. apply dedup_In in H. apply in_map_iff in H.
  destruct H as [key [Hentry Hkey]]. apply keys_under_In in Hkey.
  destruct Hkey as [Hin Hpre]. unfold GoString.HasPrefix in Hpre.
  destruct (prefix_inv prefix key Hpre) as [x ->].
  unfold S3.entry_of in Hentry. rewrite drop_append in Hentry.
  destruct (String.index 0 "/" x) as [i|] eqn:I; [|discriminate Hentry].
  destruct (index_slash_inv x i I) as [a [rest [-> [Ha Hl]]]].
  injection Hentry as <-. exists a, rest. split; [|split; assumption].
  f_equal. rewrite <- Hl. cbn [String.length]. apply substring_slash.
Qed.

Lemma subdirs_intro (prefix a rest : string) (b : list (string * string)) :
  In (prefix ++ a ++ String "/" rest) (map fst b) ->
  slash_free a = true ->
  (List.length (S3.keys_under prefix b) <= S3.MaxKeys)%nat ->
  In (prefix ++ a ++ "/") (subdirs prefix b).
Proof.
  intros Hin Ha Hlen. unfold subdirs.
  apply common_prefixes_of_In.
  rewrite firstn_all2
    by (pose proof (entries_length prefix (Some "/") b); lia).
  unfold S3.entries.
  destruct (In_dedup (map (S3.entry_of prefix (Some "/")) (S3.keys_under prefix b)) []
                     (S3.CommonPrefix (prefix ++ a ++ "/"))) as [[]|H]; [|exact H].
  apply in_map_iff. exists (prefix ++ a ++ String "/" rest). split.
  - unfold S3.entry_of. rewrite drop_append, (index_slash_free a rest Ha).
    cbn [String.length]. now rewrite substring_slash.
  - apply keys_under_In. split; [exact Hin | apply prefix_append].
Qed.

Lemma subdirs_length (prefix : string) (b : list (string * string)) :
  (List.length (subdirs prefix b) <= S3.MaxKeys)%nat.
Proof.
  unfold subdirs.
  assert (H : forall l, (List.length (S3.common_prefixes_of l) <= List.length l)%nat).
  { unfold S3.common_prefixes_of.
    induction l as [|[k|p] l IH]; cbn [flat_map app List.length]; lia. }
  etransitivity; [apply H|]. apply firstn_le_length.
Qed.

Lemma subdirs_two_parts (prefix d : string) (b : list (string * string)) :
  In d (subdirs prefix b) -> (2 <= List.length (GoString.Split d "/"))%nat.
Proof.
  intros H. destruct (subdirs_inv prefix d b H) as [a [rest [-> _]]].
  rewrite <- append_assoc. apply Split_two_parts.
Qed.

(** Fewer keys lie under a longer prefix. *)
Lemma keys_under_longer (prefix x : string) (b : list (string * string)) :
  (List.length (S3.keys_under (prefix ++ x) b) <= List.length (S3.keys_under prefix b))%nat.
Proof.
  unfold S3.keys_under. induction (map fst b) as [|k l IH]; cbn [filter List.length]; [lia|].
  destruct (GoString.HasPrefix k (prefix ++ x)) eqn:E.
  - assert (GoString.HasPrefix k prefix = true) as ->.
    { unfold GoString.HasPrefix in *. destruct (prefix_inv _ _ E) as [y ->].
      rewrite append_assoc. apply prefix_append. }
    cbn [List.length]. lia.
  - destruct (GoString.HasPrefix k prefix); cbn [List.length]; lia.
Qed.

(** ** The tables of the catalog *)

Lemma tablePrefix_assoc (config : Config) (s t : string) :
  StorageS3.tablePrefix config {| Schema := s; Table := t |}
  = ((IcebergPath config ++ "/") ++ s ++ "/") ++ t ++ "/".
Proof. unfold StorageS3.tablePrefix. cbn [Schema Table]. now rewrite !append_assoc. Qed.

Lemma catalog_In (config : Config) (b : list (string * string)) (st : SchemaTable) :
  In st (catalog config b) ->
  slash_free (Schema st) = true /\ slash_free (Table st) = true /\
  In (StorageS3.tablePrefix config st) (subdirs ((IcebergPath config ++ "/") ++ Schema st ++ "/") b) /\
  In ((IcebergPath config ++ "/") ++ Schema st ++ "/") (subdirs (IcebergPath config ++ "/") b).
Proof.
  unfold catalog. intros H. apply in_flat_map in H. destruct H as [d [Hd H]].
  apply in_map_iff in H. destruct H as [t [<- Ht]]. cbn [Schema Table].
  destruct (subdirs_inv _ d b Hd) as [a [rest [Ed [Ha _]]]].
  destruct (subdirs_inv _ t b Ht) as [a' [rest' [Et [Ha' _]]]].
  assert (Hdn : dir_name d = a).
  { rewrite Ed, append_assoc. apply (dir_name_append (IcebergPath config) a Ha). }
  assert (Htn : dir_name t = a').
  { rewrite Et. rewrite Ed.
    replace (((IcebergPath config ++ "/") ++ a ++ "/") ++ a' ++ "/")
      with (((IcebergPath config ++ "/") ++ a) ++ String "/" (a' ++ "/"))
      by (now rewrite !append_assoc).
    apply dir_name_append. exact Ha'. }
  rewrite Hdn, Htn. repeat split; try assumption.
  - rewrite tablePrefix_assoc. rewrite <- Ed, <- Et. exact Ht.
  - rewrite <- Ed. exact Hd.
Qed.

Lemma catalog_sound (config : Config) (b : list (string * string)) (st : SchemaTable) :
  In st (catalog config b) ->
  slash_free (Schema st) = true /\ slash_free (Table st) = true /\
  exists rest, In (StorageS3.tablePrefix config st ++ rest) (map fst b).
Proof.
  intros H. destruct (catalog_In config b st H) as [Hs [Ht [Hsub _]]].
  split; [exact Hs | split; [exact Ht|]].
  destruct (subdirs_inv _ _ b Hsub) as [a [rest [E [Ha Hin]]]].
  exists rest.
  replace (StorageS3.tablePrefix config st ++ rest)
    with (((IcebergPath config ++ "/") ++ Schema st ++ "/") ++ a ++ String "/" rest);
    [exact Hin|].
  rewrite E. now rewrite !append_assoc.
Qed.

Lemma catalog_complete (config : Config) (b : list (string * string))
      (st : SchemaTable) (rest : string) :
  slash_free (Schema st) = true -> slash_free (Table st) = true ->
  In (StorageS3.tablePrefix config st ++ rest) (map fst b) ->
  (List.length (S3.keys_under (IcebergPath config ++ "/") b) <= S3.MaxKeys)%nat ->
  In st (catalog config b).
Proof.
  intros Hs Ht Hin Hlen. destruct st as [s t]. cbn [Schema Table] in *.
  rewrite tablePrefix_assoc in Hin.
  unfold catalog. apply in_flat_map.
  exists ((IcebergPath config ++ "/") ++ s ++ "/"). split.
  - apply (subdirs_intro _ s (t ++ "/" ++ rest)); [|exact Hs|exact Hlen].
    replace ((IcebergPath config ++ "/") ++ s ++ String "/" (t ++ "/" ++ rest))
      with ((((IcebergPath config ++ "/") ++ s ++ "/") ++ t ++ "/") ++ rest);
      [exact Hin|].
    now rewrite !append_assoc.
  - apply in_map_iff. exists (((IcebergPath config ++ "/") ++ s ++ "/") ++ t ++ "/").
    split.
    + f_equal.
      * rewrite append_assoc. apply (dir_name_append (IcebergPath config) s Hs).
      * replace (((IcebergPath config ++ "/") ++ s ++ "/") ++ t ++ "/")
          with (((IcebergPath config ++ "/") ++ s) ++ String "/" (t ++ "/"))
          by (now rewrite !append_assoc).
        apply dir_name_append. exact Ht.
    + apply (subdirs_intro _ t rest); [|exact Ht|].
      * replace (((IcebergPath config ++ "/") ++ s ++ "/") ++ t ++ String "/" rest)
          with ((((IcebergPath config ++ "/") ++ s ++ "/") ++ t ++ "/") ++ rest);
          [exact Hin|].
        now rewrite !append_assoc.
      * etransitivity; [apply keys_under_longer | exact Hlen].
Qed.

Lemma catalog_length (config : Config) (b : list (string * string)) :
  (List.length (catalog config b) <= S3.MaxKeys * S3.MaxKeys)%nat.
Proof.
  unfold catalog.
  pose proof (subdirs_length (IcebergPath config ++ "/") b) as Hroot.
  assert (H : forall ds,
             (List.length
                (flat_map (fun d => map (fun t => {| Schema := dir_name d;
                                                     Table := dir_name t |})
                                        (subdirs d b)) ds)
              <= List.length ds * S3.MaxKeys)%nat).
  { induction ds as [|d ds IH]; cbn [flat_map List.length]; [lia|].
    rewrite List.length_app, List.length_map.
    pose proof (subdirs_length d b). lia. }
  specialize (H (subdirs (IcebergPath config ++ "/") b)). nia.
Qed.

(** ** [IcebergSchemaTables] computes the catalog *)

Lemma last_but_one_ok (parts : list string) env w :
  (2 <= List.length parts)%nat ->
  last_but_one parts env w = (Ok (nth (List.length parts - 2) parts ""), w).
Proof.
  intros H. unfold last_but_one.
  destruct (Nat.ltb_spec (List.length parts) 2); [lia | reflexivity].
Qed.

Lemma tables_loop_ok (schema : string) (tables : list string)
      (acc : list SchemaTable) env w :
  (forall t, In t tables -> (2 <= List.length (GoString.Split t "/"))%nat) ->
  for_range tables acc
    (fun schemaTables tablePrefix =>
       let tableParts := GoString.Split tablePrefix "/" in
       table <- last_but_one tableParts ;;
       ret (schemaTables ++ [{| Schema := schema; Table := table |}])%list)
    env w
  = (Ok (acc ++ map (fun t => {| Schema := schema; Table := dir_name t |}) tables)%list, w).
Proof.
  revert acc. induction tables as [|t tables IH]; intros acc H; cbn [for_range map].
  - unfold ret. now rewrite app_nil_r.
  - cbv zeta. unfold bind at 1. unfold bind at 1.
    rewrite last_but_one_ok by (apply H; now left).
    unfold ret at 1. rewrite IH by (intros t' Ht'; apply H; now right).
    now rewrite <- app_assoc.
Qed.

(** One turn of the loop over the schemas, for a directory with a name. *)
Lemma schema_step (d : string) (acc : list SchemaTable) env w :
  (2 <= List.length (GoString.Split d "/"))%nat ->
  (let schemaParts := GoString.Split d "/" in
   schema <- last_but_one schemaParts ;;
   tables <- StorageS3.nestedDirectoryPrefixes d ;;
   for_range tables acc
     (fun schemaTables tablePrefix =>
        let tableParts := GoString.Split tablePrefix "/" in
        table <- last_but_one tableParts ;;
        ret (schemaTables ++ [{| Schema := schema; Table := table |}])%list))
    env w
  = let w1 := {| bucket := bucket w; local := local w; next_tmp := next_tmp w;
                 trace := EvListObjectsV2 d (Some "/") :: trace w |} in
    match fault env (trace w) (EvListObjectsV2 d (Some "/")) with
    | Some msg => (Err ("Failed to list objects: " ++ msg), w1)
    | None =>
        (Ok (acc ++ map (fun t => {| Schema := dir_name d; Table := dir_name t |})
                        (subdirs d (bucket w)))%list, w1)
    end.
Proof.
  intros H. cbv zeta. unfold bind at 1. rewrite last_but_one_ok by exact H.
  unfold bind at 1.
  pose proof (nestedDirectoryPrefixes_run d env w) as [Hw Hr]. cbv zeta in Hw, Hr.
  destruct (StorageS3.nestedDirectoryPrefixes d env w) as [[tables|e|e] w1];
    cbn [fst snd] in Hw, Hr; subst w1;
    destruct (fault env (trace w) (EvListObjectsV2 d (Some "/"))) as [msg|];
    try discriminate Hr.
  - assert (Ht : tables = subdirs d (bucket w)) by (unfold subdirs; congruence).
    subst tables. apply tables_loop_ok.
    intros t Ht. apply (subdirs_two_parts d t (bucket w) Ht).
  - congruence.
Qed.

Lemma schemas_loop_catalog (ds : list string) (acc : list SchemaTable) env w :
  (forall d, In d ds -> (2 <= List.length (GoString.Split d "/"))%nat) ->
  let r := for_range ds acc
             (fun schemaTables schemaPrefix =>
                let schemaParts := GoString.Split schemaPrefix "/" in
                schema <- last_but_one schemaParts ;;
                tables <- StorageS3.nestedDirectoryPrefixes schemaPrefix ;;
                for_range tables schemaTables
                  (fun schemaTables tablePrefix =>
                     let tableParts := GoString.Split tablePrefix "/" in
                     table <- last_but_one tableParts ;;
                     ret (schemaTables ++ [{| Schema := schema; Table := table |}])%list))
             env w in
  let expected :=
    (acc ++ flat_map (fun d => map (fun t => {| Schema := dir_name d; Table := dir_name t |})
                                   (subdirs d (bucket w))) ds)%list in
  bucket (snd r) = bucket w /\ local (snd r) = local w /\
  (forall e, fst r <> Panic e) /\
  (forall x, fst r = Ok x -> x = expected) /\
  ((forall t e, fault env t e = None) -> fst r = Ok expected).
Proof.
  revert acc w. induction ds as [|d ds IH]; intros acc w H r expected.
  - subst r expected. cbn [for_range flat_map]. unfold ret. cbn [fst snd].
    rewrite app_nil_r.
    split; [reflexivity|]. split; [reflexivity|]. split; [discriminate|].
    split; [now intros x [= <-] | reflexivity].
  - assert (R : r = match (let schemaParts := GoString.Split d "/" in
                           schema <- last_but_one schemaParts ;;
                           tables <- StorageS3.nestedDirectoryPrefixes d ;;
                           for_range tables acc
                             (fun schemaTables tablePrefix =>
                                let tableParts := GoString.Split tablePrefix "/" in
                                table <- last_but_one tableParts ;;
                                ret (schemaTables
                                       ++ [{| Schema := schema; Table := table |}])%list))
                          env w with
                    | (Ok acc', w1) =>
                        for_range ds acc'
                          (fun schemaTables schemaPrefix =>
                             let schemaParts := GoString.Split schemaPrefix "/" in
                             schema <- last_but_one schemaParts ;;
                             tables <- StorageS3.nestedDirectoryPrefixes schemaPrefix ;;
                             for_range tables schemaTables
                               (fun schemaTables tablePrefix =>
                                  let tableParts := GoString.Split tablePrefix "/" in
                                  table <- last_but_one tableParts ;;
                                  ret (schemaTables
                                         ++ [{| Schema := schema; Table := table |}])%list))
                          env w1
                    | (Err e, w1) => (Err e, w1)
                    | (Panic e, w1) => (Panic e, w1)
                    end) by reflexivity.
    clearbody r.
    rewrite (schema_step d acc env w (H d (or_introl eq_refl))) in R. cbv zeta in R.
    subst expected. cbn [flat_map].
    destruct (fault env (trace w) (EvListObjectsV2 d (Some "/"))) as [msg|] eqn:F;
      subst r.
    + cbn [fst snd bucket local].
      split; [reflexivity|]. split; [reflexivity|]. split; [discriminate|].
      split; [discriminate|].
      intros Hno. rewrite Hno in F. discriminate F.
    + match goal with
      | |- context [for_range ds ?acc' _ env ?w1] =>
          specialize (IH acc' w1 (fun x Hx => H x (or_intror Hx)))
      end.
      cbv zeta in IH. cbn [bucket local] in IH. rewrite <- app_assoc in IH. exact IH.
Qed.

(** [IcebergSchemaTables] reads the bucket and changes nothing; it never
    panics; when it returns tables they are the catalog of the bucket, and
    it returns them whenever no listing fails. *)
Lemma IcebergSchemaTables_catalog (config : Config) env w :
  let r := StorageS3.IcebergSchemaTables config env w in
  bucket (snd r) = bucket w /\ local (snd r) = local w /\
  (forall e, fst r <> Panic e) /\
  (forall x, fst r = Ok x -> x = catalog config (bucket w)) /\
  ((forall t e, fault env t e = None) -> fst r = Ok (catalog config (bucket w))).
Proof.
  intros r.
  pose proof (nestedDirectoryPrefixes_run (IcebergPath config ++ "/") env w) as [Hw Hr].
  cbv zeta in Hw, Hr.
  assert (R : r = match StorageS3.nestedDirectoryPrefixes (IcebergPath config ++ "/") env w with
                  | (Ok dirs, w1) =>
                      for_range dirs []
                        (fun schemaTables schemaPrefix =>
                           let schemaParts := GoString.Split schemaPrefix "/" in
                           schema <- last_but_one schemaParts ;;
                           tables <- StorageS3.nestedDirectoryPrefixes schemaPrefix ;;
                           for_range tables schemaTables
                             (fun schemaTables tablePrefix =>
                                let tableParts := GoString.Split tablePrefix "/" in
                                table <- last_but_one tableParts ;;
                                ret (schemaTables
                                       ++ [{| Schema := schema; Table := table |}])%list))
                        env w1
                  | (Err e, w1) => (Err e, w1)
                  | (Panic e, w1) => (Panic e, w1)
                  end) by reflexivity.
  clearbody r.
  destruct (StorageS3.nestedDirectoryPrefixes (IcebergPath config ++ "/") env w)
    as [[dirs|e|e] w1]; cbn [fst snd] in Hw, Hr; subst w1 r;
    destruct (fault env (trace w) (EvListObjectsV2 (IcebergPath config ++ "/") (Some "/")))
      as [msg|] eqn:F; try discriminate Hr.
  - assert (Hd : dirs = subdirs (IcebergPath config ++ "/") (bucket w))
      by (unfold subdirs; congruence).
    subst dirs.
    match goal with
    | |- context [for_range _ [] _ env ?w1] =>
        pose proof (schemas_loop_catalog (subdirs (IcebergPath config ++ "/") (bucket w))
                      [] env w1
                      (fun d Hd => subdirs_two_parts _ d (bucket w) Hd)) as Hloop
    end.
    cbv zeta in Hloop. cbn [bucket local app] in Hloop. exact Hloop.
  - cbn [fst snd bucket local].
    split; [reflexivity|]. split; [reflexivity|]. split; [discriminate|].
    split; [discriminate|].
    intros Hno. rewrite Hno in F. discriminate F.
Qed.

(** ** Further properties of the catalog listing *)

(** X1: the tables that [IcebergSchemaTables] returns exist in the
    bucket: each has an object stored under its prefix, and its schema
    and table names hold no separator; the call changes neither the
    bucket nor the local files. *)
Theorem IcebergSchemaTables_sound
        (config : Config) (env : Env) (w : World) (tables : list SchemaTable) :
  let r := StorageS3.IcebergSchemaTables config env w in
  fst r = Ok tables ->
  bucket (snd r) = bucket w /\ local (snd r) = local w /\
  forall schemaTable, In schemaTable tables ->
    slash_free (Schema schemaTable) = true /\ slash_free (Table schemaTable) = true /\
    exists rest,
      In (StorageS3.tablePrefix config schemaTable ++ rest) (map fst (bucket w)).
Proof.
  intros r HOk.
  destruct (IcebergSchemaTables_catalog config env w) as [Hb [Hl [_ [Hcat _]]]].
  fold r in Hb, Hl, Hcat.
  split; [exact Hb | split; [exact Hl|]].
  intros schemaTable Hin. rewrite (Hcat tables HOk) in Hin.
  now apply catalog_sound.
Qed.

Lemma IcebergSchemaTables_sound_witness :
  exists rest,
    In (StorageS3.tablePrefix Sample.conf {| Schema := "sales"; Table := "orders" |} ++ rest)
       (map fst (bucket Sample.world)).
Proof.
  exact (proj2 (proj2 (proj2 (proj2
    (IcebergSchemaTables_sound Sample.conf Sample.env Sample.world
       [{| Schema := "public"; Table := "t" |}; {| Schema := "sales"; Table := "orders" |}]
       eq_refl))
    {| Schema := "sales"; Table := "orders" |} (or_intror (or_introl eq_refl))))).
Defined.

(** X2: when no listing fails and the root of the catalog holds at most
    one page of keys, [IcebergSchemaTables] returns every table that has
    an object stored under its prefix, for schema and table names without
    separator. *)
Theorem IcebergSchemaTables_complete
        (config : Config) (env : Env) (w : World) (schemaTable : SchemaTable)
        (rest : string) :
  (forall t e, fault env t e = None) ->
  (List.length (S3.keys_under (IcebergPath config ++ "/") (bucket w)) <= S3.MaxKeys)%nat ->
  slash_free (Schema schemaTable) = true ->
  slash_free (Table schemaTable) = true ->
  In (StorageS3.tablePrefix config schemaTable ++ rest) (map fst (bucket w)) ->
  exists tables,
    fst (StorageS3.IcebergSchemaTables config env w) = Ok tables /\ In schemaTable tables.
Proof.
  intros Hno Hlen Hs Ht Hin.
  destruct (IcebergSchemaTables_catalog config env w) as [_ [_ [_ [_ Hok]]]].
  exists (catalog config (bucket w)). split; [exact (Hok Hno)|].
  now apply (catalog_complete config (bucket w) schemaTable rest).
Qed.

Lemma IcebergSchemaTables_complete_witness :
  exists tables,
    fst (StorageS3.IcebergSchemaTables Sample.conf Sample.env Sample.world) = Ok tables /\
    In Sample.public_t tables.
Proof.
  apply (IcebergSchemaTables_complete Sample.conf Sample.env Sample.world Sample.public_t
           "metadata/v1.metadata.json").
  - reflexivity.
  - vm_compute. lia.
  - reflexivity.
  - reflexivity.
  - vm_compute. right. left. reflexivity.
Defined.

(** X3: [IcebergSchemaTables] never panics: the index
    [parts[len(parts)-2]] is in range for every prefix that the listing
    returns; it fails only with the wrapped error of a listing that
    failed, issued last. *)
Theorem IcebergSchemaTables_never_panics (config : Config) (env : Env) (w : World) :
  let r := StorageS3.IcebergSchemaTables config env w in
  (forall e, fst r <> Panic e) /\
  (forall e, fst r = Err e -> failed_listing env e (trace (snd r))) /\
  ((forall t e, fault env t e = None) -> exists tables, fst r = Ok tables).
Proof.
  intros r.
  destruct (IcebergSchemaTables_catalog config env w) as [_ [_ [Hnp [_ Hok]]]].
  destruct (IcebergSchemaTables_run config env w) as [evs [_ [_ [He _]]]].
  fold r in Hnp, Hok, He.
  split; [exact Hnp | split; [exact He|]].
  intros Hno. eexists. exact (Hok Hno).
Qed.

(** X4: [IcebergSchemaTables] sees one page of schemas and one page of
    tables in each schema: a table it returns has its schema directory on
    the first page of the listing of the root and its own directory on
    the first page of the listing of the schema, so it returns at most
    [MaxKeys * MaxKeys] tables, however many the bucket holds. *)
Theorem IcebergSchemaTables_first_pages_only
        (config : Config) (env : Env) (w : World) (tables : list SchemaTable) :
  let root := IcebergPath config ++ "/" in
  fst (StorageS3.IcebergSchemaTables config env w) = Ok tables ->
  (List.length tables <= S3.MaxKeys * S3.MaxKeys)%nat /\
  (List.length (subdirs root (bucket w)) <= S3.MaxKeys)%nat /\
  forall schemaTable, In schemaTable tables ->
    In (root ++ Schema schemaTable ++ "/") (subdirs root (bucket w)) /\
    In (StorageS3.tablePrefix config schemaTable)
       (subdirs (root ++ Schema schemaTable ++ "/") (bucket w)).
Proof.
  intros root HOk.
  destruct (IcebergSchemaTables_catalog config env w) as [_ [_ [_ [Hcat _]]]].
  rewrite (Hcat tables HOk).
  split; [apply catalog_length | split; [apply subdirs_length|]].
  intros schemaTable Hin.
  destruct (catalog_In config (bucket w) schemaTable Hin) as [_ [_ [Ht Hs]]].
  split; assumption.
Qed.

Lemma IcebergSchemaTables_first_pages_only_witness :
  In "iceberg/sales/" (subdirs "iceberg/" (bucket Sample.world)).
Proof.
  exact (proj1 (proj2 (proj2
    (IcebergSchemaTables_first_pages_only Sample.conf Sample.env Sample.world
       [{| Schema := "public"; Table := "t" |}; {| Schema := "sales"; Table := "orders" |}]
       eq_refl))
    {| Schema := "sales"; Table := "orders" |} (or_intror (or_introl eq_refl)))).
Defined.

(** ** Further properties of [RemapTable] *)

Ltac remap_cases :=
  unfold RemapTable, reloadIceberSchemaTables, PanicIfError, bind, ret;
  repeat match goal with
         | |- context [if ?b then _ else _] =>
             let E := fresh "E" in destruct b eqn:E
         | |- context [match SchemaTables ?r ?env ?w with _ => _ end] =>
             let S := fresh "S" in
             destruct (SchemaTables r env w) as [[?|?|?] ?] eqn:S
         end.

(** X5: [RemapTable] never returns an error, whatever the reference; it
    panics only when the reader's listing of the tables does not return:
    with the error of the listing, or with its panic. *)
Theorem RemapTable_never_returns_error
        {Node : Type} (remapper : SelectRemapperTable Node) (node : Node)
        (env : Env) (w : World) :
  let r := RemapTable remapper node env w in
  let reload := SchemaTables (icebergReader remapper) env w in
  (forall e, fst r <> Err e) /\
  (forall e, fst r = Panic e -> fst reload = Err e \/ fst reload = Panic e).
Proof.
  cbv zeta. split.
  - intros e. remap_cases; cbn [fst]; discriminate.
  - intros e. remap_cases; cbn [fst]; intros H; try discriminate H;
      injection H as <-; auto.
Qed.

(** X6: [RemapTable] calls the reader only for the information-schema
    "tables" view and for a lakehouse table that the cache does not hold:
    for every other reference it returns a node and leaves the world and
    the cache of the remapper as they are. *)
Theorem RemapTable_reloads_only_on_miss_or_tables_view
        {Node : Type} (remapper : SelectRemapperTable Node) (node : Node)
        (env : Env) (w : World) :
  reaches_information_schema_tables_stage remapper node = false ->
  (reaches_lakehouse_stage remapper node = true ->
   icebergSchemaTableExists remapper (lakehouse_table remapper node) = true) ->
  exists n, RemapTable remapper node env w = (Ok (n, remapper), w).
Proof.
  intros Htables Hhit.
  destruct (reaches_lakehouse_stage remapper node) eqn:Hlake.
  - eexists. apply (RemapTable_hit remapper node env w Hlake (Hhit eq_refl)).
  - clear Hhit. revert Htables Hlake.
    unfold reaches_information_schema_tables_stage, reaches_lakehouse_stage, query_of,
      RemapTable.
    cbv zeta.
    destruct (IsPgStatioUserTablesTable _ _); [intros; eexists; reflexivity|].
    destruct (IsPgShadowTable _ _); [intros; eexists; reflexivity|].
    destruct (IsPgRolesTable _ _); [intros; eexists; reflexivity|].
    destruct (IsPgShdescriptionTable _ _); [intros; eexists; reflexivity|].
    destruct (IsTableFromPgCatalog _ _); [intros; eexists; reflexivity|].
    destruct (IsInformationSchemaTablesTable _ _); [intros H; discriminate H|].
    destruct (IsTableFromInformationSchema _ _); [intros; eexists; reflexivity|].
    intros _ H. discriminate H.
Qed.

Lemma RemapTable_reloads_only_on_miss_or_tables_view_witness :
  exists n,
    RemapTable (Sample.remapper []) (RangeVar "pg_catalog" "pg_class" "c")
               Sample.env_list_fails Sample.world
    = (Ok (n, Sample.remapper []), Sample.world).
Proof.
  apply (RemapTable_reloads_only_on_miss_or_tables_view
           (Sample.remapper []) (RangeVar "pg_catalog" "pg_class" "c")
           Sample.env_list_fails Sample.world).
  - reflexivity.
  - intros H. discriminate H.
Defined.

Lemma existsb_SchemaTable_In (schemaTable : SchemaTable) (tables : list SchemaTable) :
  existsb (fun t => SchemaTable_eqb t schemaTable) tables = true <-> In schemaTable tables.
Proof.
  rewrite existsb_exists. split.
  - intros [t [Hin Heq]]. unfold SchemaTable_eqb in Heq.
    apply andb_prop in Heq. destruct Heq as [Hs Ht].
    apply String.eqb_eq in Hs, Ht.
    destruct t as [s1 t1], schemaTable as [s2 t2]; cbn [Schema Table] in *. now subst.
  - intros Hin. exists schemaTable. split; [exact Hin|].
    unfold SchemaTable_eqb. now rewrite !String.eqb_refl.
Qed.

(** X7: an unqualified reference resolves as the same table in the
    schema [public]: for references to [t] and to [public.t] that reach
    the lakehouse stage, [RemapTable] does the same to the world and to
    the cache, and either replaces both by the same scan or returns each
    as it is. *)
Theorem RemapTable_default_schema
        {Node : Type} (remapper : SelectRemapperTable Node) (n1 n2 : Node)
        (table a1 a2 : string) (env : Env) (w : World) :
  let scan := MakeIcebergTableNode (parserTable remapper)
                (MetadataFilePath (icebergReader remapper)
                   {| Schema := PG_SCHEMA_PUBLIC; Table := table |}) in
  query_of remapper n1 = QuerySchemaTable.mk "" table a1 ->
  query_of remapper n2 = QuerySchemaTable.mk PG_SCHEMA_PUBLIC table a2 ->
  reaches_lakehouse_stage remapper n1 = true ->
  reaches_lakehouse_stage remapper n2 = true ->
  match RemapTable remapper n1 env w, RemapTable remapper n2 env w with
  | (Ok (x1, rm1), w1), (Ok (x2, rm2), w2) =>
      rm1 = rm2 /\ w1 = w2 /\ ((x1 = scan /\ x2 = scan) \/ (x1 = n1 /\ x2 = n2))
  | (Panic e1, w1), (Panic e2, w2) => e1 = e2 /\ w1 = w2
  | _, _ => False
  end.
Proof.
  intros scan Hq1 Hq2 Hs1 Hs2.
  assert (Ht1 : lakehouse_table remapper n1 = {| Schema := PG_SCHEMA_PUBLIC; Table := table |}).
  { unfold lakehouse_table. rewrite Hq1. reflexivity. }
  assert (Ht2 : lakehouse_table remapper n2 = {| Schema := PG_SCHEMA_PUBLIC; Table := table |}).
  { unfold lakehouse_table. rewrite Hq2. reflexivity. }
  assert (Hsc1 : scan_node remapper n1 = scan) by (unfold scan_node; now rewrite Ht1).
  assert (Hsc2 : scan_node remapper n2 = scan) by (unfold scan_node; now rewrite Ht2).
  destruct (icebergSchemaTableExists remapper {| Schema := PG_SCHEMA_PUBLIC; Table := table |})
    eqn:Hex.
  - rewrite (RemapTable_hit remapper n1 env w Hs1) by (now rewrite Ht1).
    rewrite (RemapTable_hit remapper n2 env w Hs2) by (now rewrite Ht2).
    rewrite Hsc1, Hsc2. auto.
  - rewrite (RemapTable_miss remapper n1 env w Hs1) by (now rewrite Ht1).
    rewrite (RemapTable_miss remapper n2 env w Hs2) by (now rewrite Ht2).
    rewrite Ht1, Ht2, Hsc1, Hsc2.
    destruct (SchemaTables (icebergReader remapper) env w) as [[tables|e|e] w1]; auto.
    cbv zeta.
    destruct (icebergSchemaTableExists (with_icebergSchemaTables remapper tables) _); auto.
Qed.

Lemma RemapTable_default_schema_witness :
  let scan := IcebergScan "s3://lake/iceberg/public/t/metadata/v1.metadata.json" true in
  match RemapTable (Sample.remapper []) (RangeVar "" "t" "x") Sample.env Sample.world,
        RemapTable (Sample.remapper []) (RangeVar "public" "t" "y") Sample.env Sample.world
  with
  | (Ok (x1, rm1), w1), (Ok (x2, rm2), w2) =>
      rm1 = rm2 /\ w1 = w2 /\
      ((x1 = scan /\ x2 = scan)
       \/ (x1 = RangeVar "" "t" "x" /\ x2 = RangeVar "public" "t" "y"))
  | (Panic e1, w1), (Panic e2, w2) => e1 = e2 /\ w1 = w2
  | _, _ => False
  end.
Proof.
  exact (RemapTable_default_schema
           (Sample.remapper []) (RangeVar "" "t" "x") (RangeVar "public" "t" "y")
           "t" "x" "y" Sample.env Sample.world eq_refl eq_refl eq_refl eq_refl).
Defined.

(** ** From the bucket to the remapper *)

Lemma lookup_Some_In (k v : string) (b : list (string * string)) :
  S3.lookup k b = Some v -> In k (map fst b).
Proof.
  induction b as [|[k' v'] b IH]; cbn [S3.lookup map fst In]; [discriminate|].
  destruct (String.eqb k k') eqn:E.
  - intros _. left. symmetry. now apply String.eqb_eq.
  - intros H. right. now apply IH.
Qed.

(** X8: a remapper built by [NewSelectRemapperTable] over the S3 reader
    holds the tables of the bucket: a reference to a table that has an
    object under its prefix when the remapper is built (one page of keys,
    names without separator) is replaced by the scan of its metadata file
    without any call to the backend, whatever the backend does later. *)
Theorem NewSelectRemapperTable_resolves_tables_of_the_bucket
        {Node : Type} (parser : QueryParserTable Node) (config : Config)
        (env : Env) (w : World) (remapper : SelectRemapperTable Node) (w1 : World)
        (node : Node) (rest : string) (env' : Env) (w' : World) :
  let schemaTable := lakehouse_table remapper node in
  NewSelectRemapperTable parser config (S3IcebergReader config) env w = (Ok remapper, w1) ->
  (List.length (S3.keys_under (IcebergPath config ++ "/") (bucket w)) <= S3.MaxKeys)%nat ->
  slash_free (Schema schemaTable) = true ->
  slash_free (Table schemaTable) = true ->
  In (StorageS3.tablePrefix config schemaTable ++ rest) (map fst (bucket w)) ->
  reaches_lakehouse_stage remapper node = true ->
  RemapTable remapper node env' w'
  = (Ok (MakeIcebergTableNode parser (StorageS3.IcebergMetadataFilePath config schemaTable),
         remapper), w').
Proof.
  intros schemaTable Hnew Hlen Hs Ht Hin Hstage.
  unfold NewSelectRemapperTable, PanicIfError, bind, ret in Hnew.
  cbn [S3IcebergReader SchemaTables] in Hnew.
  destruct (IcebergSchemaTables_catalog config env w) as [_ [_ [_ [Hcat _]]]].
  destruct (StorageS3.IcebergSchemaTables config env w) as [[tables|e|e] w2];
    try discriminate Hnew.
  injection Hnew as <- <-. cbn [fst] in Hcat.
  rewrite (RemapTable_hit _ node env' w' Hstage).
  - reflexivity.
  - unfold icebergSchemaTableExists. cbn [icebergSchemaTables].
    apply existsb_SchemaTable_In. rewrite (Hcat tables eq_refl).
    now apply (catalog_complete config (bucket w) _ rest).
Qed.

Lemma NewSelectRemapperTable_resolves_tables_of_the_bucket_witness :
  RemapTable
    (Sample.remapper [{| Schema := "public"; Table := "t" |};
                      {| Schema := "sales"; Table := "orders" |}])
    (RangeVar "sales" "orders" "o") Sample.env_list_fails Sample.empty_world
  = (Ok (IcebergScan "s3://lake/iceberg/sales/orders/metadata/v1.metadata.json" true,
         Sample.remapper [{| Schema := "public"; Table := "t" |};
                          {| Schema := "sales"; Table := "orders" |}]),
     Sample.empty_world).
Proof.
  apply (NewSelectRemapperTable_resolves_tables_of_the_bucket
           (PgQueryParserTable Sample.shapes) Sample.conf Sample.env Sample.world
           (Sample.remapper [{| Schema := "public"; Table := "t" |};
                             {| Schema := "sales"; Table := "orders" |}])
           {| bucket := bucket Sample.world; local := []; next_tmp := 0;
              trace := [EvListObjectsV2 "iceberg/sales/" (Some "/");
                        EvListObjectsV2 "iceberg/public/" (Some "/");
                        EvListObjectsV2 "iceberg/" (Some "/")] |}
           (RangeVar "sales" "orders" "o") "metadata/v1.metadata.json"
           Sample.env_list_fails Sample.empty_world).
  - reflexivity.
  - vm_compute. lia.
  - reflexivity.
  - reflexivity.
  - vm_compute. right. right. left. reflexivity.
  - reflexivity.
Defined.

(** X9: what [CreateMetadata] commits for a table, a reload finds: after
    a successful [CreateMetadata] in the metadata directory of a table
    (names without separator, one page of keys under the root, no failing
    call), [RemapTable] replaces a reference to that table by the scan of
    the metadata file just written, whether the cache held the table or
    not. *)
Theorem CreateMetadata_then_RemapTable
        {Node : Type} (parser : QueryParserTable Node) (config : Config)
        (cache : list IcebergSchemaTable) (node : Node)
        (columns : list PgSchemaColumn) (parquetFile : ParquetFile.t)
        (manifestFile : ManifestFile.t) (manifestListFile : ManifestListFile.t)
        (env : Env) (w : World) (metadataFile : MetadataFile.t) (w1 : World) :
  let remapper := {| parserTable := parser; icebergSchemaTables := cache;
                     icebergReader := S3IcebergReader config; config := config |} in
  let schemaTable := lakehouse_table remapper node in
  (forall t e, fault env t e = None) ->
  slash_free (Schema schemaTable) = true ->
  slash_free (Table schemaTable) = true ->
  reaches_lakehouse_stage remapper node = true ->
  StorageS3.CreateMetadata config (StorageS3.CreateMetadataDir config schemaTable)
    columns parquetFile manifestFile manifestListFile env w = (Ok metadataFile, w1) ->
  (List.length (S3.keys_under (IcebergPath config ++ "/") (bucket w1)) <= S3.MaxKeys)%nat ->
  exists remapper',
    fst (RemapTable remapper node env w1)
    = Ok (MakeIcebergTableNode parser
            (StorageS3.fileSystemPrefix config ++ MetadataFile.Path metadataFile),
          remapper').
Proof.
  intros remapper schemaTable Hno Hs Ht Hstage Hcreate Hlen.
  destruct (CreateMetadata_upload config (StorageS3.CreateMetadataDir config schemaTable)
              columns parquetFile manifestFile manifestListFile env w) as [_ Hok].
  cbv zeta in Hok. rewrite Hcreate in Hok. cbn [fst snd] in Hok.
  destruct (Hok metadataFile eq_refl) as [Hpath [body [_ Hstored]]].
  assert (Huri : StorageS3.fileSystemPrefix config ++ MetadataFile.Path metadataFile
                 = StorageS3.IcebergMetadataFilePath config schemaTable).
  { rewrite Hpath, metadata_key_uri. symmetry. apply IcebergMetadataFilePath_layout. }
  assert (Hin : In schemaTable (catalog config (bucket w1))).
  { apply (catalog_complete config (bucket w1) schemaTable "metadata/v1.metadata.json");
      try assumption.
    apply lookup_Some_In in Hstored.
    replace (StorageS3.tablePrefix config schemaTable ++ "metadata/v1.metadata.json")
      with (StorageS3.CreateMetadataDir config schemaTable ++ "/"
            ++ ("v" ++ GoString.FormatInt 1 ++ ".metadata.json")); [exact Hstored|].
    unfold StorageS3.CreateMetadataDir. now rewrite append_assoc. }
  rewrite Huri.
  destruct (icebergSchemaTableExists remapper schemaTable) eqn:Hex.
  - exists remapper. now rewrite (RemapTable_hit remapper node env w1 Hstage Hex).
  - rewrite (RemapTable_miss remapper node env w1 Hstage Hex).
    cbn [icebergReader remapper S3IcebergReader SchemaTables].
    destruct (IcebergSchemaTables_catalog config env w1) as [_ [_ [_ [_ Hcat]]]].
    specialize (Hcat Hno).
    destruct (StorageS3.IcebergSchemaTables config env w1) as [[tables|e|e] w2];
      cbn [fst] in Hcat; try discriminate Hcat.
    injection Hcat as ->. cbv zeta.
    exists (with_icebergSchemaTables remapper (catalog config (bucket w1))).
    assert (Hex' : icebergSchemaTableExists
                     (with_icebergSchemaTables remapper (catalog config (bucket w1)))
                     (lakehouse_table remapper node) = true).
    { unfold icebergSchemaTableExists. cbn [icebergSchemaTables with_icebergSchemaTables].
      now apply existsb_SchemaTable_In. }
    rewrite Hex'. reflexivity.
Qed.

Lemma CreateMetadata_then_RemapTable_witness :
  exists remapper',
    fst (RemapTable (Sample.remapper []) (RangeVar "" "fresh" "f") Sample.env
           (snd (StorageS3.CreateMetadata Sample.conf "iceberg/public/fresh/metadata"
                   Sample.columns Sample.parquetFile Sample.manifestFile
                   Sample.manifestListFile Sample.env Sample.world)))
    = Ok (IcebergScan "s3://lake/iceberg/public/fresh/metadata/v1.metadata.json" true,
          remapper').
Proof.
  apply (CreateMetadata_then_RemapTable
           (PgQueryParserTable Sample.shapes) Sample.conf [] (RangeVar "" "fresh" "f")
           Sample.columns Sample.parquetFile Sample.manifestFile Sample.manifestListFile
           Sample.env Sample.world
           (MetadataFile.mk 1 "iceberg/public/fresh/metadata/v1.metadata.json")
           (snd (StorageS3.CreateMetadata Sample.conf "iceberg/public/fresh/metadata"
                   Sample.columns Sample.parquetFile Sample.manifestFile
                   Sample.manifestListFile Sample.env Sample.world))).
  - reflexivity.
  - reflexivity.
  - reflexivity.
  - reflexivity.
  - reflexivity.
  - vm_compute. lia.
Defined.

(** ** What the commit steps leave in the bucket *)

Ltac writes_only_tac :=
  let HOk := fresh "HOk" in
  intros env w; cbv zeta; unfold_go; cbn [Name];
  repeat (step_go; cbn [fst snd local trace bucket Name]);
  (split;
   [ intros k Hk; first [ reflexivity | now rewrite lookup_put_other ]
   | intros HOk; first [ reflexivity | now elim (HOk _ eq_refl) ] ]).

Lemma CreateManifest_writes_only config dir parquetFile :
  writes_only_key (StorageS3.CreateManifest config dir parquetFile)
    (dir ++ "/" ++ (ParquetFile.Uuid parquetFile ++ "-m0.avro")).
Proof. writes_only_tac. Qed.

Lemma CreateManifestList_writes_only config dir parquetFile manifestFile :
  writes_only_key (StorageS3.CreateManifestList config dir parquetFile manifestFile)
    (dir ++ "/" ++ ("snap-" ++ GoString.FormatInt (ManifestFile.SnapshotId manifestFile)
                    ++ "-0-" ++ ParquetFile.Uuid parquetFile ++ ".avro")).
Proof. writes_only_tac. Qed.

Lemma CreateMetadata_writes_only config dir columns parquetFile manifestFile
      manifestListFile :
  writes_only_key
    (StorageS3.CreateMetadata config dir columns parquetFile manifestFile manifestListFile)
    (dir ++ "/v1.metadata.json").
Proof. writes_only_tac. Qed.

Lemma CreateVersionHint_writes_only hintName dir metadataFile :
  writes_only_key (StorageS3.CreateVersionHint hintName dir metadataFile)
    (dir ++ "/" ++ hintName).
Proof. writes_only_tac. Qed.

(** X10: [CreateManifest], [CreateManifestList], [CreateMetadata] and
    [CreateVersionHint] change no object of the bucket but the one under
    their own key, and when they fail (no scratch file, encoder, local
    write or upload) the bucket is as it was. *)
Theorem metadata_steps_write_only_their_key
        (config : Config) (hintName dir : string) (columns : list PgSchemaColumn)
        (parquetFile : ParquetFile.t) (manifestFile : ManifestFile.t)
        (manifestListFile : ManifestListFile.t) (metadataFile : MetadataFile.t) :
  writes_only_key (StorageS3.CreateManifest config dir parquetFile)
    (dir ++ "/" ++ (ParquetFile.Uuid parquetFile ++ "-m0.avro")) /\
  writes_only_key (StorageS3.CreateManifestList config dir parquetFile manifestFile)
    (dir ++ "/" ++ ("snap-" ++ GoString.FormatInt (ManifestFile.SnapshotId manifestFile)
                    ++ "-0-" ++ ParquetFile.Uuid parquetFile ++ ".avro")) /\
  writes_only_key
    (StorageS3.CreateMetadata config dir columns parquetFile manifestFile manifestListFile)
    (dir ++ "/v1.metadata.json") /\
  writes_only_key (StorageS3.CreateVersionHint hintName dir metadataFile)
    (dir ++ "/" ++ hintName).
Proof.
  split; [apply CreateManifest_writes_only|].
  split; [apply CreateManifestList_writes_only|].
  split; [apply CreateMetadata_writes_only|].
  apply CreateVersionHint_writes_only.
Qed.

Lemma metadata_steps_write_only_their_key_witness :
  bucket (snd (StorageS3.CreateManifestList Sample.conf "iceberg/public/t/metadata"
                 Sample.parquetFile Sample.manifestFile
                 Sample.env_upload_fails Sample.world))
  = bucket Sample.world.
Proof.
  apply (proj1 (proj2 (metadata_steps_write_only_their_key
                         Sample.conf "version-hint.text" "iceberg/public/t/metadata"
                         Sample.columns Sample.parquetFile Sample.manifestFile
                         Sample.manifestListFile Sample.metadataFile))
               Sample.env_upload_fails Sample.world).
  intros a H. discriminate H.
Defined.

(** X11: [CreateParquet] does not remove the data file when a later step
    fails: once the rows are written through the writer, the object stays
    in the bucket under the key of the data file whatever the result, and
    a failure of [HeadObject] is returned as "Failed to get Parquet file
    info"; no other object of the bucket changes. *)
Theorem CreateParquet_leaves_data_file_on_late_failure
        (dir : string) (columns : list PgSchemaColumn)
        (loadRows : unit -> list (list string)) (env : Env) (w : World) (bytes : string) :
  let key := dir ++ "/" ++ ("00000-0-" ++ uuid_source env (trace w) ++ ".parquet") in
  let t1 := EvOpenWriter key :: EvNewUuid :: trace w in
  let t2 := EvWriterWrite key bytes :: t1 in
  let r := StorageS3.CreateParquet dir columns loadRows env w in
  encode_parquet (codec env) columns (loadRows tt) = Ok bytes ->
  fault env (EvNewUuid :: trace w) (EvOpenWriter key) = None ->
  fault env t1 (EvWriterWrite key bytes) = None ->
  S3.lookup key (bucket (snd r)) = Some bytes /\
  (forall k, k <> key -> S3.lookup k (bucket (snd r)) = S3.lookup k (bucket w)) /\
  (forall msg, fault env t2 (EvHeadObject key) = Some msg ->
     fst r = Err ("Failed to get Parquet file info: " ++ msg)).
Proof.
  intros key t1 t2 r Henc Fopen Fwrite. subst r t2 t1 key.
  unfold_go. cbn [FileKey trace]. rewrite Fopen. cbn [fst snd trace bucket FileKey].
  rewrite Henc. cbn [fst snd trace bucket FileKey]. rewrite Fwrite.
  cbn [fst snd trace bucket FileKey].
  destruct (fault env _ (EvHeadObject _)) as [msg|] eqn:Fhead;
    cbn [fst snd trace bucket FileKey].
  - split; [apply lookup_put_same|]. split.
    + intros k Hk. now apply lookup_put_other.
    + intros msg' [= <-]. reflexivity.
  - rewrite ?lookup_put_same; cbn [fst snd local trace bucket FileKey].
    repeat (step_go; cbn [fst snd local trace bucket FileKey];
            rewrite ?lookup_put_same; cbn [fst snd local trace bucket FileKey]);
      (split; [first [reflexivity | apply lookup_put_same]|]; split;
       [ intros k Hk; now apply lookup_put_other | intros msg' Hm; discriminate Hm ]).
Qed.

Lemma CreateParquet_leaves_data_file_on_late_failure_witness :
  let r := StorageS3.CreateParquet "iceberg/public/t/data" Sample.columns Sample.loadRows
             Faults.env_head_fails Sample.world in
  S3.lookup "iceberg/public/t/data/00000-0-0b1c.parquet" (bucket (snd r))
  = Some "PAR1-rows-PAR1" /\
  fst r = Err "Failed to get Parquet file info: InternalError".
Proof.
  destruct (CreateParquet_leaves_data_file_on_late_failure
              "iceberg/public/t/data" Sample.columns Sample.loadRows
              Faults.env_head_fails Sample.world "PAR1-rows-PAR1"
              eq_refl eq_refl eq_refl) as [Hstored [_ Hhead]].
  split; [exact Hstored | exact (Hhead "InternalError" eq_refl)].
Defined.

(** ** What [DeleteSchemaTable] removes and what it keeps *)

Lemma lookup_remove_notin (k : string) (keys : list string) (b : list (string * string)) :
  ~ In k keys -> S3.lookup k (S3.remove keys b) = S3.lookup k b.
Proof.
  intros Hk. unfold S3.remove.
  induction b as [|[k' v'] b IH]; cbn [filter S3.lookup fst]; [reflexivity|].
  destruct (existsb (String.eqb k') keys) eqn:E; cbn [negb S3.lookup].
  - destruct (String.eqb k k') eqn:Ek; [|exact IH].
    apply String.eqb_eq in Ek. subst k'.
    apply existsb_exists in E. destruct E as [x [Hx Hkx]].
    apply String.eqb_eq in Hkx. subst x. now elim Hk.
  - now rewrite IH.
Qed.

Lemma keys_under_nil_lookup (prefix k : string) (b : list (string * string)) :
  S3.keys_under prefix b = [] ->
  GoString.HasPrefix k prefix = true ->
  S3.lookup k b = None.
Proof.
  intros Hnil Hpre. destruct (S3.lookup k b) as [v|] eqn:L; [|reflexivity].
  apply lookup_Some_In in L.
  assert (Hin : In k (S3.keys_under prefix b)) by (apply keys_under_In; now split).
  rewrite Hnil in Hin. destruct Hin.
Qed.

Lemma page_under_prefix (prefix k : string) (n : nat) (b : list (string * string)) :
  In k (S3.contents_of (firstn n (S3.entries prefix None b))) ->
  GoString.HasPrefix k prefix = true.
Proof.
  intros H. apply contents_of_In in H. apply firstn_In in H.
  apply entries_no_delimiter_In in H. now apply keys_under_In in H.
Qed.

Lemma prefix_app_cancel (r a b : string) :
  String.prefix (r ++ a) (r ++ b) = String.prefix a b.
Proof.
  induction r as [|c r IH]; cbn [append]; [reflexivity|].
  cbn [String.prefix]. destruct (ascii_dec c c) as [_|N]; [exact IH | now elim N].
Qed.

Lemma prefix_slash_free (a a' x y : string) :
  slash_free a = true -> slash_free a' = true ->
  String.prefix (a ++ String "/" x) (a' ++ String "/" y) = true ->
  a = a' /\ String.prefix x y = true.
Proof.
  revert a'. induction a as [|c a IH]; intros [|c' a'] Ha Ha' H;
    cbn [append String.prefix slash_free] in *.
  - destruct (ascii_dec "/" "/") as [_|N]; [now split | now elim N].
  - apply andb_prop in Ha'. destruct Ha' as [Hc _].
    apply negb_true_iff, Ascii.eqb_neq in Hc.
    destruct (ascii_dec "/" c') as [E|_]; [now elim Hc | discriminate H].
  - apply andb_prop in Ha. destruct Ha as [Hc _].
    apply negb_true_iff, Ascii.eqb_neq in Hc.
    destruct (ascii_dec c "/") as [E|_]; [now elim Hc | discriminate H].
  - apply andb_prop in Ha, Ha'. destruct Ha as [_ Ha]. destruct Ha' as [_ Ha'].
    destruct (ascii_dec c c') as [->|_]; [|discriminate H].
    destruct (IH a' Ha Ha' H) as [-> Hp]. now split.
Qed.

(** The prefix of a table is no prefix of a key of another table. *)
Lemma other_table_outside_prefix (config : Config) (schemaTable other : SchemaTable)
      (rest : string) :
  slash_free (Schema schemaTable) = true -> slash_free (Table schemaTable) = true ->
  slash_free (Schema other) = true -> slash_free (Table other) = true ->
  other <> schemaTable ->
  GoString.HasPrefix (StorageS3.tablePrefix config other ++ rest)
                     (StorageS3.tablePrefix config schemaTable) = false.
Proof.
  intros Hs Ht Hs' Ht' Hne.
  destruct (GoString.HasPrefix _ _) eqn:H; [|reflexivity]. exfalso. apply Hne.
  unfold GoString.HasPrefix, StorageS3.tablePrefix in H.
  rewrite !append_assoc in H. rewrite prefix_app_cancel in H.
  cbn [append] in H.
  change (String.prefix (String "/" ?a) (String "/" ?b)) with (String.prefix a b) in H.
  cbn [String.prefix] in H. destruct (ascii_dec "/" "/") as [_|N]; [|now elim N].
  apply prefix_slash_free in H; [|assumption|assumption]. destruct H as [Es H].
  apply prefix_slash_free in H; [|assumption|assumption]. destruct H as [Et _].
  destruct schemaTable as [s t], other as [s' t']. cbn [Schema Table] in *. now subst.
Qed.

Lemma lookup_remove_in (k : string) (keys : list string) (b : list (string * string)) :
  In k keys -> S3.lookup k (S3.remove keys b) = None.
Proof.
  intros Hk. unfold S3.remove.
  induction b as [|[k' v'] b IH]; cbn [filter S3.lookup fst]; [reflexivity|].
  destruct (existsb (String.eqb k') keys) eqn:E; cbn [negb S3.lookup]; [exact IH|].
  destruct (String.eqb k k') eqn:Ek; [|exact IH].
  apply String.eqb_eq in Ek. subst k'.
  assert (existsb (String.eqb k) keys = true).
  { apply existsb_exists. exists k. split; [exact Hk | apply String.eqb_refl]. }
  congruence.
Qed.

Lemma deleted_keys_In (refused : string -> option string) (keys : list string) (k : string) :
  In k (S3.deleted_keys refused keys) <-> In k keys /\ refused k = None.
Proof.
  unfold S3.deleted_keys. rewrite filter_In.
  destruct (refused k); split; intros [H1 H2]; split; congruence.
Qed.

(** What a one-page [DeleteSchemaTable] leaves under the prefix of the
    table when no call fails: the objects whose key the backend reports
    in the errors of its answer. *)
Lemma DeleteSchemaTable_leaves_refused config schemaTable env w k :
  let prefix := StorageS3.tablePrefix config schemaTable in
  let r := StorageS3.DeleteSchemaTable config schemaTable env w in
  (List.length (S3.keys_under prefix (bucket w)) <= S3.MaxKeys)%nat ->
  (forall t e, fault env t e = None) ->
  GoString.HasPrefix k prefix = true ->
  S3.lookup k (bucket (snd r))
  = match delete_error env k with
    | Some _ => S3.lookup k (bucket w)
    | None => None
    end.
Proof.
  intros prefix r Hlen Hfault Hk.
  pose proof (DeleteSchemaTable_run config schemaTable env w) as Hrun.
  cbv zeta in Hrun. fold prefix r in Hrun.
  rewrite Hfault in Hrun.
  assert (Hall : firstn S3.MaxKeys (S3.entries prefix None (bucket w))
                 = S3.entries prefix None (bucket w)).
  { apply firstn_all2. pose proof (entries_length prefix None (bucket w)). lia. }
  rewrite Hall in Hrun.
  assert (Hkeys : forall v, S3.lookup k (bucket w) = Some v ->
                            In k (S3.contents_of (S3.entries prefix None (bucket w)))).
  { intros v Hv. apply contents_of_In. apply entries_no_delimiter_In.
    apply keys_under_In. split; [exact (lookup_Some_In _ _ _ Hv) | exact Hk]. }
  destruct (S3.contents_of (S3.entries prefix None (bucket w))) as [|k0 page] eqn:P.
  - destruct Hrun as [_ [_ ->]].
    destruct (S3.lookup k (bucket w)) as [v|] eqn:L.
    + destruct (Hkeys v eq_refl).
    + now destruct (delete_error env k).
  - rewrite Hfault in Hrun. destruct Hrun as [_ [_ ->]].
    destruct (delete_error env k) as [code|] eqn:R.
    + apply lookup_remove_notin. rewrite deleted_keys_In. intros [_ H]. congruence.
    + destruct (S3.lookup k (bucket w)) as [v|] eqn:L.
      * apply lookup_remove_in. rewrite deleted_keys_In. split; [|exact R].
        exact (Hkeys v eq_refl).
      * destruct (in_dec string_dec k (S3.deleted_keys (delete_error env) (k0 :: page)))
          as [Hin|Hin].
        -- now apply lookup_remove_in.
        -- now rewrite lookup_remove_notin.
Qed.

(** X12: [DeleteSchemaTable] on a table whose objects fit in one page,
    when no call returns an error, returns success, and an object under
    the prefix of the table is left exactly when the backend reports its
    key in the errors of its answer to the batch delete, which the code
    does not read.  When the backend reports no key there, the call
    removes what the commit steps write for the table: no object is left
    under a key of its data directory or of its metadata directory, in
    particular none under the path of a metadata file that
    [CreateMetadata] returned for the table. *)
Theorem DeleteSchemaTable_removes_committed_artifacts
        (config : Config) (schemaTable : SchemaTable) (env : Env) (w : World) :
  let prefix := StorageS3.tablePrefix config schemaTable in
  let r := StorageS3.DeleteSchemaTable config schemaTable env w in
  (List.length (S3.keys_under prefix (bucket w)) <= S3.MaxKeys)%nat ->
  (forall t e, fault env t e = None) ->
  fst r = Ok tt /\
  (forall k,
     GoString.HasPrefix k prefix = true ->
     S3.lookup k (bucket (snd r))
     = match delete_error env k with
       | Some _ => S3.lookup k (bucket w)
       | None => None
       end) /\
  ((forall k, delete_error env k = None) ->
   (forall name,
      S3.lookup (StorageS3.CreateDataDir config schemaTable ++ "/" ++ name) (bucket (snd r))
      = None /\
      S3.lookup (StorageS3.CreateMetadataDir config schemaTable ++ "/" ++ name)
                (bucket (snd r)) = None) /\
   (forall columns parquetFile manifestFile manifestListFile env0 w0 metadataFile,
      fst (StorageS3.CreateMetadata config (StorageS3.CreateMetadataDir config schemaTable)
             columns parquetFile manifestFile manifestListFile env0 w0) = Ok metadataFile ->
      S3.lookup (MetadataFile.Path metadataFile) (bucket (snd r)) = None)).
Proof.
  intros prefix r Hlen Hno.
  assert (HOk : fst r = Ok tt).
  { pose proof (DeleteSchemaTable_run config schemaTable env w) as Hrun.
    cbv zeta in Hrun. fold prefix r in Hrun. rewrite Hno in Hrun.
    destruct (S3.contents_of _); [now destruct Hrun|].
    rewrite Hno in Hrun. now destruct Hrun as [_ [H _]]. }
  split; [exact HOk|]. split.
  - intros k Hk. now apply DeleteSchemaTable_leaves_refused.
  - intros Hall.
    destruct (DeleteSchemaTable_one_page config schemaTable env w Hlen Hno Hall)
      as [_ Hnil].
    fold r prefix in Hnil.
    assert (Hunder : forall dir name,
               S3.lookup ((prefix ++ dir) ++ "/" ++ name) (bucket (snd r)) = None).
    { intros dir name. apply (keys_under_nil_lookup prefix); [exact Hnil|].
      unfold GoString.HasPrefix. rewrite append_assoc. apply prefix_append. }
    split.
    + intros name. split; apply Hunder.
    + intros columns parquetFile manifestFile manifestListFile env0 w0 metadataFile Hcreate.
      destruct (CreateMetadata_upload config (StorageS3.CreateMetadataDir config schemaTable)
                  columns parquetFile manifestFile manifestListFile env0 w0) as [_ Hpath].
      destruct (Hpath metadataFile Hcreate) as [-> _]. apply Hunder.
Qed.

(** The backend answers the batch delete and keeps the metadata root:
    [DeleteSchemaTable] returns success, the data file is gone and the
    metadata root is still stored. *)
Lemma DeleteSchemaTable_removes_committed_artifacts_witness :
  let r := StorageS3.DeleteSchemaTable Sample.conf Sample.public_t
             Faults.env_delete_refused Sample.world in
  fst r = Ok tt /\
  S3.lookup "iceberg/public/t/data/00000-0-aa.parquet" (bucket (snd r)) = None /\
  S3.lookup "iceberg/public/t/metadata/v1.metadata.json" (bucket (snd r)) = Some "{}".
Proof.
  assert (Hlen : (List.length (S3.keys_under (StorageS3.tablePrefix Sample.conf Sample.public_t)
                                 (bucket Sample.world)) <= S3.MaxKeys)%nat)
    by (vm_compute; lia).
  destruct (DeleteSchemaTable_removes_committed_artifacts
              Sample.conf Sample.public_t Faults.env_delete_refused Sample.world
              Hlen (fun _ _ => eq_refl)) as [HOk [Hleft _]].
  split; [exact HOk|]. split.
  - exact (Hleft "iceberg/public/t/data/00000-0-aa.parquet" eq_refl).
  - exact (Hleft "iceberg/public/t/metadata/v1.metadata.json" eq_refl).
Defined.

(** X13: [DeleteSchemaTable] removes nothing outside the prefix of the
    table, on any run: an object whose key does not start with the prefix
    is kept as it is, and so is every object of another table, for schema
    and table names without separator. *)
Theorem DeleteSchemaTable_keeps_other_objects
        (config : Config) (schemaTable : SchemaTable) (env : Env) (w : World) :
  let r := StorageS3.DeleteSchemaTable config schemaTable env w in
  (forall k,
     GoString.HasPrefix k (StorageS3.tablePrefix config schemaTable) = false ->
     S3.lookup k (bucket (snd r)) = S3.lookup k (bucket w)) /\
  (forall other rest,
     slash_free (Schema schemaTable) = true -> slash_free (Table schemaTable) = true ->
     slash_free (Schema other) = true -> slash_free (Table other) = true ->
     other <> schemaTable ->
     S3.lookup (StorageS3.tablePrefix config other ++ rest) (bucket (snd r))
     = S3.lookup (StorageS3.tablePrefix config other ++ rest) (bucket w)).
Proof.
  intros r.
  assert (Hkeep : forall k,
             GoString.HasPrefix k (StorageS3.tablePrefix config schemaTable) = false ->
             S3.lookup k (bucket (snd r)) = S3.lookup k (bucket w)).
  { intros k Hk.
    pose proof (DeleteSchemaTable_run config schemaTable env w) as Hrun.
    cbv zeta in Hrun. fold r in Hrun.
    destruct (fault env (trace w) _) as [msg|].
    - destruct Hrun as [_ [_ ->]]. reflexivity.
    - destruct (S3.contents_of _) as [|k0 page] eqn:P.
      + destruct Hrun as [_ [_ ->]]. reflexivity.
      + destruct Hrun as [_ Hrun].
        destruct (fault env _ (EvDeleteObjects _)) as [msg|].
        * destruct Hrun as [_ ->]. reflexivity.
        * destruct Hrun as [_ ->]. apply lookup_remove_notin.
          intros Hin. apply deleted_keys_In in Hin. destruct Hin as [Hin _].
          rewrite <- P in Hin. apply page_under_prefix in Hin. congruence. }
  split; [exact Hkeep|].
  intros other rest Hs Ht Hs' Ht' Hne. apply Hkeep.
  now apply other_table_outside_prefix.
Qed.

Lemma DeleteSchemaTable_keeps_other_objects_witness :
  S3.lookup "iceberg/public/t2/metadata/v1.metadata.json"
    (bucket (snd (StorageS3.DeleteSchemaTable Sample.conf Sample.public_t
                    Sample.env Faults.two_tables))) = Some "{}".
Proof.
  exact (proj2 (DeleteSchemaTable_keeps_other_objects
                  Sample.conf Sample.public_t Sample.env Faults.two_tables)
               {| Schema := "public"; Table := "t2" |} "metadata/v1.metadata.json"
               eq_refl eq_refl eq_refl eq_refl ltac:(discriminate)).
Defined.

(** ** Each directory and each table once *)

Lemma dedup_NoDup (l seen : list S3.Entry) :
  NoDup (S3.dedup seen l) /\ forall e, In e (S3.dedup seen l) -> ~ In e seen.
Proof.
  revert seen. induction l as [|x l IH]; intros seen; cbn [S3.dedup].
  - split; [constructor | intros e []].
  - destruct (existsb (S3.Entry_eqb x) seen) eqn:E; [apply IH|].
    destruct (IH (x :: seen)) as [Hnd Hout].
    assert (Hx : ~ In x seen).
    { intros Hin. assert (existsb (S3.Entry_eqb x) seen = true); [|congruence].
      apply existsb_exists. exists x. split; [exact Hin | now apply Entry_eqb_eq]. }
    split.
    + constructor; [|exact Hnd]. intros Hin. apply (Hout x Hin). now left.
    + intros e [<-|Hin]; [exact Hx|]. intros Hs. apply (Hout e Hin). now right.
Qed.

Lemma firstn_NoDup {A} (n : nat) (l : list A) : NoDup l -> NoDup (firstn n l).
Proof.
  revert l. induction n as [|n IH]; intros [|x l] H; cbn [firstn]; try constructor.
  - inversion H as [|? ? Hx Hl]; subst. intros Hin. apply Hx. now apply firstn_In in Hin.
  - inversion H; subst. now apply IH.
Qed.

Lemma common_prefixes_of_NoDup (l : list S3.Entry) :
  NoDup l -> NoDup (S3.common_prefixes_of l).
Proof.
  induction 1 as [|e l He Hl IH]; [constructor|].
  destruct e as [k|p].
  - exact IH.
  - change (NoDup (p :: S3.common_prefixes_of l)). constructor; [|exact IH].
    intros Hin. apply He. now apply common_prefixes_of_In.
Qed.

Lemma subdirs_NoDup (prefix : string) (b : list (string * string)) :
  NoDup (subdirs prefix b).
Proof.
  unfold subdirs, S3.entries.
  apply common_prefixes_of_NoDup, firstn_NoDup, dedup_NoDup.
Qed.

(** A directory listed below [p0/] is [p0/] followed by its name. *)
Lemma subdirs_name (p0 d : string) (b : list (string * string)) :
  In d (subdirs (p0 ++ "/") b) -> d = (p0 ++ "/") ++ dir_name d ++ "/".
Proof.
  intros H. destruct (subdirs_inv _ d b H) as [a [rest [E [Ha _]]]].
  assert (Hn : dir_name d = a).
  { rewrite E, append_assoc. apply (dir_name_append p0 a Ha). }
  now rewrite Hn.
Qed.

Lemma catalog_NoDup (config : Config) (b : list (string * string)) :
  NoDup (catalog config b).
Proof.
  unfold catalog.
  pose proof (subdirs_NoDup (IcebergPath config ++ "/") b) as Hnd.
  assert (Hsub : forall d, In d (subdirs (IcebergPath config ++ "/") b) ->
                           In d (subdirs (IcebergPath config ++ "/") b)) by auto.
  revert Hnd Hsub.
  generalize (subdirs (IcebergPath config ++ "/") b) at 1 2 4 as l.
  induction l as [|d l IH]; intros Hnd Hsub; cbn [flat_map]; [constructor|].
  inversion Hnd as [|? ? Hd Hl]; subst.
  apply NoDup_app.
  - apply NoDup_map_NoDup_ForallPairs; [|apply subdirs_NoDup].
    intros t t' Ht Ht' Heq. injection Heq as Heq.
    pose proof (Hsub d (or_introl eq_refl)) as Hdin.
    destruct (subdirs_inv _ d b Hdin) as [a [rest [E _]]].
    rewrite E, <- append_assoc in Ht, Ht'.
    rewrite (subdirs_name _ t b Ht), (subdirs_name _ t' b Ht'). now rewrite Heq.
  - apply IH; [exact Hl | intros x Hx; apply Hsub; now right].
  - intros st Hst Hst'. apply in_map_iff in Hst. destruct Hst as [t [<- _]].
    apply in_flat_map in Hst'. destruct Hst' as [d' [Hd' Hst']].
    apply in_map_iff in Hst'. destruct Hst' as [t' [Heq _]].
    injection Heq as Heq _. apply Hd.
    rewrite (subdirs_name _ d b (Hsub d (or_introl eq_refl))).
    rewrite <- Heq.
    rewrite <- (subdirs_name _ d' b (Hsub d' (or_intror Hd'))). exact Hd'.
Qed.

(** X14: [IcebergSchemaTables] returns each table once. *)
Theorem IcebergSchemaTables_no_duplicates
        (config : Config) (env : Env) (w : World) (tables : list SchemaTable) :
  fst (StorageS3.IcebergSchemaTables config env w) = Ok tables -> NoDup tables.
Proof.
  intros HOk.
  destruct (IcebergSchemaTables_catalog config env w) as [_ [_ [_ [Hcat _]]]].
  rewrite (Hcat tables HOk). apply catalog_NoDup.
Qed.

Lemma IcebergSchemaTables_no_duplicates_witness :
  NoDup [{| Schema := "public"; Table := "t" |}; {| Schema := "sales"; Table := "orders" |}].
Proof.
  exact (IcebergSchemaTables_no_duplicates Sample.conf Sample.env Sample.world
           [{| Schema := "public"; Table := "t" |}; {| Schema := "sales"; Table := "orders" |}]
           eq_refl).
Defined.

(** X15: [nestedDirectoryPrefixes] returns the directories one level
    below the prefix: at most one page of them, each once, each of the
    form [prefix a /] for a name [a] without separator under which some
    object is stored; it changes neither the bucket nor the local
    files. *)
Theorem nestedDirectoryPrefixes_one_level
        (prefix : string) (env : Env) (w : World) (dirs : list string) :
  let r := StorageS3.nestedDirectoryPrefixes prefix env w in
  fst r = Ok dirs ->
  bucket (snd r) = bucket w /\ local (snd r) = local w /\
  NoDup dirs /\ (List.length dirs <= S3.MaxKeys)%nat /\
  forall d, In d dirs ->
    exists a rest,
      d = prefix ++ a ++ "/" /\ slash_free a = true /\
      In (prefix ++ a ++ String "/" rest) (map fst (bucket w)).
Proof.
  intros r HOk.
  pose proof (nestedDirectoryPrefixes_run prefix env w) as [Hw Hr].
  cbv zeta in Hw, Hr. fold r in Hw, Hr. rewrite Hw. cbn [bucket local].
  destruct (fault env (trace w) _); [congruence|].
  assert (Hd : dirs = subdirs prefix (bucket w)) by (unfold subdirs; congruence).
  subst dirs.
  split; [reflexivity|]. split; [reflexivity|].
  split; [apply subdirs_NoDup|]. split; [apply subdirs_length|].
  intros d Hin. now apply subdirs_inv.
Qed.

Lemma nestedDirectoryPrefixes_one_level_witness :
  NoDup ["iceberg/public/"; "iceberg/sales/"].
Proof.
  exact (proj1 (proj2 (proj2
    (nestedDirectoryPrefixes_one_level "iceberg/" Sample.env Sample.world
       ["iceberg/public/"; "iceberg/sales/"] eq_refl)))).
Defined.

(** X16: a reload replaces the cache wholesale: after [RemapTable] the
    remapper is the one before the call, or the one before the call with
    its cache set to exactly the tables that the reader returned; the
    parser, the reader and the configuration never change. *)
Theorem RemapTable_cache_kept_or_replaced
        {Node : Type} (remapper : SelectRemapperTable Node) (node : Node)
        (env : Env) (w : World) (n : Node) (remapper' : SelectRemapperTable Node)
        (w' : World) :
  RemapTable remapper node env w = (Ok (n, remapper'), w') ->
  (remapper' = remapper /\ w' = w) \/
  exists tables,
    SchemaTables (icebergReader remapper) env w = (Ok tables, w') /\
    remapper' = {| parserTable := parserTable remapper;
                   icebergSchemaTables := tables;
                   icebergReader := icebergReader remapper;
                   config := config remapper |}.
Proof.
  remap_cases; intros H; try discriminate H; injection H as <- <- <-;
    first [ left; split; reflexivity
          | right; eexists; split; reflexivity ].
Qed.

Lemma RemapTable_cache_kept_or_replaced_witness :
  let listed := [{| Schema := "public"; Table := "t" |};
                 {| Schema := "sales"; Table := "orders" |}] in
  let w' := snd (StorageS3.IcebergSchemaTables Sample.conf Sample.env Sample.world) in
  (Sample.remapper listed = Sample.remapper [] /\ w' = Sample.world) \/
  exists tables,
    SchemaTables (icebergReader (Sample.remapper [])) Sample.env Sample.world
    = (Ok tables, w') /\
    Sample.remapper listed
    = {| parserTable := parserTable (Sample.remapper []);
         icebergSchemaTables := tables;
         icebergReader := icebergReader (Sample.remapper []);
         config := config (Sample.remapper []) |}.
Proof.
  exact (RemapTable_cache_kept_or_replaced
           (Sample.remapper []) (RangeVar "information_schema" "tables" "")
           Sample.env Sample.world
           (Values ["table_catalog"; "table_schema"; "table_name"]
                   [["bemidb"; "public"; "t"]; ["bemidb"; "sales"; "orders"]] "")
           (Sample.remapper [{| Schema := "public"; Table := "t" |};
                             {| Schema := "sales"; Table := "orders" |}])
           (snd (StorageS3.IcebergSchemaTables Sample.conf Sample.env Sample.world))
           eq_refl).
Defined.

(** ** A whole commit *)

Lemma CreateParquet_result dir columns loadRows env w parquetFile :
  fst (StorageS3.CreateParquet dir columns loadRows env w) = Ok parquetFile ->
  ParquetFile.Path parquetFile
  = dir ++ "/" ++ ("00000-0-" ++ ParquetFile.Uuid parquetFile ++ ".parquet").
Proof.
  unfold_go. cbn [FileKey trace].
  repeat (step_go; cbn [fst snd local trace bucket FileKey];
          rewrite ?lookup_put_same; cbn [fst snd local trace bucket FileKey]);
    intros HOk; try discriminate HOk.
  injection HOk as <-. reflexivity.
Qed.

Lemma CreateManifest_result config dir parquetFile env w manifestFile :
  fst (StorageS3.CreateManifest config dir parquetFile env w) = Ok manifestFile ->
  ManifestFile.Path manifestFile
  = dir ++ "/" ++ (ParquetFile.Uuid parquetFile ++ "-m0.avro").
Proof.
  unfold_go. cbn [Name].
  repeat (step_go; cbn [fst snd local trace bucket Name]);
    intros HOk; try discriminate HOk.
  injection HOk as <-. reflexivity.
Qed.

Lemma CreateManifestList_result config dir parquetFile manifestFile env w manifestListFile :
  fst (StorageS3.CreateManifestList config dir parquetFile manifestFile env w)
  = Ok manifestListFile ->
  ManifestListFile.Path manifestListFile
  = dir ++ "/" ++ ("snap-" ++ GoString.FormatInt (ManifestFile.SnapshotId manifestFile)
                   ++ "-0-" ++ ParquetFile.Uuid parquetFile ++ ".avro").
Proof.
  unfold_go. cbn [Name].
  repeat (step_go; cbn [fst snd local trace bucket Name]);
    intros HOk; try discriminate HOk.
  injection HOk as <-. reflexivity.
Qed.

Lemma CreateMetadata_result config dir columns parquetFile manifestFile manifestListFile
      env w metadataFile :
  fst (StorageS3.CreateMetadata config dir columns parquetFile manifestFile
         manifestListFile env w) = Ok metadataFile ->
  metadataFile = MetadataFile.mk 1 (dir ++ "/v1.metadata.json").
Proof.
  unfold_go. cbn [Name].
  repeat (step_go; cbn [fst snd local trace bucket Name]);
    intros HOk; try discriminate HOk.
  injection HOk as <-. reflexivity.
Qed.

(** A step that writes only its key and stores it on success keeps what
    is stored. *)
Lemma stored_after_step {A} (m : M A) (key k : string) env w (a : A) (w' : World) :
  writes_only_key m key ->
  publishes_from_scratch m key ->
  m env w = (Ok a, w') ->
  S3.lookup k (bucket w) <> None \/ k = key ->
  S3.lookup k (bucket w') <> None.
Proof.
  intros Hwrites Hpub Hrun Hk.
  destruct (Hwrites env w) as [Hother _]. destruct (Hpub env w) as [_ Hstored].
  rewrite Hrun in Hother, Hstored. cbn [fst snd] in Hother, Hstored.
  destruct (String.eqb_spec k key) as [->|Hne].
  - destruct (Hstored a eq_refl) as [body [_ ->]]. discriminate.
  - rewrite (Hother k Hne). destruct Hk as [Hk|Hk]; [exact Hk | contradiction].
Qed.

Lemma under_table_prefix (config : Config) (schemaTable : SchemaTable) (dir name : string) :
  GoString.HasPrefix ((StorageS3.tablePrefix config schemaTable ++ dir) ++ "/" ++ name)
                     (StorageS3.tablePrefix config schemaTable) = true.
Proof. unfold GoString.HasPrefix. rewrite append_assoc. apply prefix_append. Qed.

(** X17: a whole commit, the five steps in their order, each on the
    descriptors of the ones before: the names are linked (the data file
    and the manifest carry the uuid of the data file, the manifest list
    the snapshot id of the manifest and that uuid, the metadata file is
    version 1), and at the end all five objects are stored in the bucket,
    under the prefix of the table. *)
Theorem commit_steps_compose
        (config : Config) (schemaTable : SchemaTable) (hintName : string)
        (columns : list PgSchemaColumn) (loadRows : unit -> list (list string))
        (env : Env) (w0 w1 w2 w3 w4 w5 : World)
        (parquetFile : ParquetFile.t) (manifestFile : ManifestFile.t)
        (manifestListFile : ManifestListFile.t) (metadataFile : MetadataFile.t) :
  let dataDir := StorageS3.CreateDataDir config schemaTable in
  let metadataDir := StorageS3.CreateMetadataDir config schemaTable in
  StorageS3.CreateParquet dataDir columns loadRows env w0 = (Ok parquetFile, w1) ->
  StorageS3.CreateManifest config metadataDir parquetFile env w1 = (Ok manifestFile, w2) ->
  StorageS3.CreateManifestList config metadataDir parquetFile manifestFile env w2
  = (Ok manifestListFile, w3) ->
  StorageS3.CreateMetadata config metadataDir columns parquetFile manifestFile
    manifestListFile env w3 = (Ok metadataFile, w4) ->
  StorageS3.CreateVersionHint hintName metadataDir metadataFile env w4 = (Ok tt, w5) ->
  ParquetFile.Path parquetFile
  = dataDir ++ "/" ++ ("00000-0-" ++ ParquetFile.Uuid parquetFile ++ ".parquet") /\
  ManifestFile.Path manifestFile
  = metadataDir ++ "/" ++ (ParquetFile.Uuid parquetFile ++ "-m0.avro") /\
  ManifestListFile.Path manifestListFile
  = metadataDir ++ "/" ++ ("snap-" ++ GoString.FormatInt (ManifestFile.SnapshotId manifestFile)
                           ++ "-0-" ++ ParquetFile.Uuid parquetFile ++ ".avro") /\
  metadataFile = MetadataFile.mk 1 (metadataDir ++ "/v1.metadata.json") /\
  forall key,
    In key [ParquetFile.Path parquetFile; ManifestFile.Path manifestFile;
            ManifestListFile.Path manifestListFile; MetadataFile.Path metadataFile;
            metadataDir ++ "/" ++ hintName] ->
    S3.lookup key (bucket w5) <> None /\
    GoString.HasPrefix key (StorageS3.tablePrefix config schemaTable) = true.
Proof.
  intros dataDir metadataDir H1 H2 H3 H4 H5.
  pose proof (CreateParquet_result dataDir columns loadRows env w0 parquetFile
                (f_equal fst H1)) as P1.
  pose proof (CreateManifest_result config metadataDir parquetFile env w1 manifestFile
                (f_equal fst H2)) as P2.
  pose proof (CreateManifestList_result config metadataDir parquetFile manifestFile env w2
                manifestListFile (f_equal fst H3)) as P3.
  pose proof (CreateMetadata_result config metadataDir columns parquetFile manifestFile
                manifestListFile env w3 metadataFile (f_equal fst H4)) as P4.
  split; [exact P1|]. split; [exact P2|]. split; [exact P3|]. split; [exact P4|].
  assert (S1 : S3.lookup (ParquetFile.Path parquetFile) (bucket w1) <> None).
  { destruct (CreateParquet_success dataDir columns loadRows env w0 parquetFile
                (f_equal fst H1)) as [bytes [Hp [_ [Hs _]]]].
    rewrite H1 in Hs. cbn [snd] in Hs. rewrite Hp, Hs. discriminate. }
  assert (step2 : forall k, S3.lookup k (bucket w1) <> None
                            \/ k = ManifestFile.Path manifestFile ->
                            S3.lookup k (bucket w2) <> None).
  { intros k Hk. rewrite P2 in Hk.
    exact (stored_after_step _ _ k env w1 manifestFile w2
             (CreateManifest_writes_only config metadataDir parquetFile)
             (CreateManifest_publishes config metadataDir parquetFile) H2 Hk). }
  assert (step3 : forall k, S3.lookup k (bucket w2) <> None
                            \/ k = ManifestListFile.Path manifestListFile ->
                            S3.lookup k (bucket w3) <> None).
  { intros k Hk. rewrite P3 in Hk.
    exact (stored_after_step _ _ k env w2 manifestListFile w3
             (CreateManifestList_writes_only config metadataDir parquetFile manifestFile)
             (CreateManifestList_publishes config metadataDir parquetFile manifestFile)
             H3 Hk). }
  assert (step4 : forall k, S3.lookup k (bucket w3) <> None
                            \/ k = MetadataFile.Path metadataFile ->
                            S3.lookup k (bucket w4) <> None).
  { intros k Hk. rewrite P4 in Hk. cbn [MetadataFile.Path] in Hk.
    exact (stored_after_step _ _ k env w3 metadataFile w4
             (CreateMetadata_writes_only config metadataDir columns parquetFile
                manifestFile manifestListFile)
             (CreateMetadata_publishes config metadataDir columns parquetFile
                manifestFile manifestListFile) H4 Hk). }
  assert (step5 : forall k, S3.lookup k (bucket w4) <> None
                            \/ k = metadataDir ++ "/" ++ hintName ->
                            S3.lookup k (bucket w5) <> None).
  { intros k Hk.
    exact (stored_after_step _ _ k env w4 tt w5
             (CreateVersionHint_writes_only hintName metadataDir metadataFile)
             (CreateVersionHint_publishes hintName metadataDir metadataFile) H5 Hk). }
  intros key Hin. cbn [In] in Hin.
  destruct Hin as [<-|[<-|[<-|[<-|[<-|[]]]]]].
  - split; [auto 10|]. rewrite P1. apply under_table_prefix.
  - split; [auto 10|]. rewrite P2. apply under_table_prefix.
  - split; [auto 10|]. rewrite P3. apply under_table_prefix.
  - split; [auto 10|]. rewrite P4. apply under_table_prefix.
  - split; [auto 10|]. apply under_table_prefix.
Qed.

Lemma commit_steps_compose_witness :
  S3.lookup "iceberg/public/t/metadata/version-hint.text" (bucket Commit.w5) <> None /\
  S3.lookup "iceberg/public/t/data/00000-0-0b1c.parquet" (bucket Commit.w5) <> None.
Proof.
  pose proof (commit_steps_compose
                Sample.conf Sample.public_t "version-hint.text" Sample.columns
                Sample.loadRows Sample.env
                Sample.world Commit.w1 Commit.w2 Commit.w3 Commit.w4 Commit.w5
                Sample.parquetFile Sample.manifestFile Sample.manifestListFile
                Sample.metadataFile
                eq_refl eq_refl eq_refl eq_refl eq_refl) as [_ [_ [_ [_ H]]]].
  split.
  - apply (H "iceberg/public/t/metadata/version-hint.text"). cbn [In]. auto 10.
  - apply (H "iceberg/public/t/data/00000-0-0b1c.parquet"). cbn [In]. auto 10.
Defined.
